(** * rag-search: the native Gemini model client, the RAGFlow retrieval
      client and the two-phase workflow, embedded in Rocq.

    Sources embedded here:
    - [src/native_gemini_client.py]  (class [NativeGeminiClient])
    - [src/ragflow_client.py]        (class [RagFlowClient])
    - [src/tools.py]                 ([retrieve_legal_documents])
    - [src/config.py]                ([get_model_client])
    - [src/main.py]                  ([main])
    - [src/citation_formatter.py]    ([Citation], [create_bibliography])
    - [src/effective_date_checker.py] ([check_document_status],
      [validate_citations], [check_citations_from_text])
    and, for the decorator of [_make_api_request_with_retry], the loop of
    tenacity's [Retrying] ([iter], [__call__], [stop_after_attempt],
    [wait_exponential], [retry_if_exception_type]).

    Python values that travel as JSON are values of [json]; a Python
    exception is a value of [pyexn]; code that performs I/O is a function
    of an explicit [World] that records every request, sleep and log line. *)

From Stdlib Require Import ZArith List String Ascii Bool Lia Floats.
Import ListNotations.

Local Open Scope string_scope.
Local Open Scope list_scope.

(* ================================================================== *)
(** ** JSON values (what [response.json()] returns, what [json=] sends) *)
(* ================================================================== *)

Set Warnings "-register-all".
Unset Elimination Schemes.

(** A Python [dict] keeps its insertion order, so an object is an
    association list; keys of a parsed JSON object are distinct. *)
Inductive json : Type :=
| JNull
| JBool (b : bool)
| JInt (n : Z)
| JFloat (f : float)
| JStr (s : string)
| JArr (items : list json)
| JObj (fields : list (string * json)).

Set Elimination Schemes.

Section JsonInduction.
Variable P : json -> Prop.
Hypothesis HNull : P JNull.
Hypothesis HBool : forall b, P (JBool b).
Hypothesis HInt : forall n, P (JInt n).
Hypothesis HFloat : forall f, P (JFloat f).
Hypothesis HStr : forall s, P (JStr s).
Hypothesis HArr : forall l, Forall P l -> P (JArr l).
Hypothesis HObj : forall kv, Forall (fun p => P (snd p)) kv -> P (JObj kv).

Fixpoint json_ind (j : json) : P j :=
    match j with
    | JNull => HNull
    | JBool b => HBool b
    | JInt n => HInt n
    | JFloat f => HFloat f
    | JStr s => HStr s
    | JArr l =>
        HArr l ((fix all (l : list json) : Forall P l :=
                   match l with
                   | [] => Forall_nil P
                   | x :: r => Forall_cons x (json_ind x) (all r)
                   end) l)
    | JObj kv =>
        HObj kv ((fix all (kv : list (string * json))
                    : Forall (fun p => P (snd p)) kv :=
                    match kv with
                    | [] => Forall_nil _
                    | p :: r => Forall_cons p (json_ind (snd p)) (all r)
                    end) kv)
    end.
End JsonInduction.

(** [d.get(k)] / [d[k]] on a dict: the value bound to [k], if any. *)
Fixpoint lookup (k : string) (kv : list (string * json)) : option json :=
  match kv with
  | [] => None
  | (k', v) :: r => if String.eqb k k' then Some v else lookup k r
  end.

(** [k in d] on a dict. *)
Definition has_key (k : string) (kv : list (string * json)) : bool :=
  match lookup k kv with Some _ => true | None => false end.

(** [d[k] = v] on a dict: replaces the binding in place, or appends. *)
Fixpoint setitem (k : string) (v : json) (kv : list (string * json))
  : list (string * json) :=
  match kv with
  | [] => [(k, v)]
  | (k', v') :: r =>
      if String.eqb k k' then (k, v) :: r else (k', v') :: setitem k v r
  end.

(** Python truthiness ([if x:], [x or y]) of a JSON-like value. *)
Definition truthy (j : json) : bool :=
  match j with
  | JNull => false
  | JBool b => b
  | JInt n => negb (Z.eqb n 0)
  | JFloat f => negb (PrimFloat.eqb f 0%float)
  | JStr s => negb (String.eqb s "")
  | JArr l => match l with [] => false | _ => true end
  | JObj kv => match kv with [] => false | _ => true end
  end.

(** [k in keys] for a list of string literals. *)
Definition str_in (k : string) (keys : list string) : bool :=
  existsb (String.eqb k) keys.

(* ================================================================== *)
(** ** [clean_schema] (native_gemini_client.py, lines 99-107)          *)
(* ================================================================== *)

Module Schema.

(** The literal list of the comprehension's filter. *)
Definition rejected_keys : list string :=
  ["title"; "additionalProperties"; "strict"].

(** [clean_schema]: a value that is not a dict is returned as it is; a
    dict is rebuilt from its items whose key is not rejected, each value
    cleaned by the recursive call. *)
Fixpoint clean_schema (schema : json) : json :=
  match schema with
  | JObj fields =>
      JObj ((fix items (kv : list (string * json)) : list (string * json) :=
               match kv with
               | [] => []
               | (k, v) :: r =>
                   if str_in k rejected_keys then items r
                   else (k, clean_schema v) :: items r
               end) fields)
  | _ => schema
  end.

(** The comprehension over the items, named. *)
Fixpoint clean_items (kv : list (string * json)) : list (string * json) :=
  match kv with
  | [] => []
  | (k, v) :: r =>
      if str_in k rejected_keys then clean_items r
      else (k, clean_schema v) :: clean_items r
  end.

(** *** The removal the specification describes

    The keys of [keys] removed "at every nesting depth, including schemas
    nested inside other schema values": this function follows those
    words, descending into objects and into arrays alike. *)
Fixpoint strip_keys_deep (keys : list string) (j : json) : json :=
  match j with
  | JObj fields =>
      JObj ((fix items (kv : list (string * json)) : list (string * json) :=
               match kv with
               | [] => []
               | (k, v) :: r =>
                   if str_in k keys then items r
                   else (k, strip_keys_deep keys v) :: items r
               end) fields)
  | JArr l => JArr (map (strip_keys_deep keys) l)
  | _ => j
  end.

Fixpoint strip_items (keys : list string) (kv : list (string * json))
  : list (string * json) :=
  match kv with
  | [] => []
  | (k, v) :: r =>
      if str_in k keys then strip_items keys r
      else (k, strip_keys_deep keys v) :: strip_items keys r
  end.

(** The two metadata keys the specification names. *)
Definition spec_keys : list string := ["title"; "additionalProperties"].

(** No object or array among the elements of an array. *)
Definition scalar (j : json) : bool :=
  match j with
  | JArr _ | JObj _ => false
  | _ => true
  end.

(** Every array of the schema, at any depth, holds scalars only (as the
    [required] and [enum] lists of a parameter schema do). *)
Fixpoint arrays_scalar (j : json) : bool :=
  match j with
  | JObj fields =>
      (fix all (kv : list (string * json)) : bool :=
         match kv with
         | [] => true
         | (_, v) :: r => arrays_scalar v && all r
         end) fields
  | JArr l => forallb scalar l
  | _ => true
  end.

Fixpoint arrays_scalar_items (kv : list (string * json)) : bool :=
  match kv with
  | [] => true
  | (_, v) :: r => arrays_scalar v && arrays_scalar_items r
  end.

(** None of [keys] is a key of the value, nor of any object reached from
    it through object values. *)
Fixpoint keys_absent (keys : list string) (j : json) : bool :=
  match j with
  | JObj fields =>
      (fix all (kv : list (string * json)) : bool :=
         match kv with
         | [] => true
         | (k, v) :: r => negb (str_in k keys) && keys_absent keys v && all r
         end) fields
  | _ => true
  end.

Fixpoint keys_absent_items (keys : list string) (kv : list (string * json))
  : bool :=
  match kv with
  | [] => true
  | (k, v) :: r =>
      negb (str_in k keys) && keys_absent keys v && keys_absent_items keys r
  end.

End Schema.

(* ================================================================== *)
(** ** Exceptions and results                                          *)
(* ================================================================== *)

(** A subscript that failed on a dict: a string key, or the integer [0]
    (the only index this program uses). *)
Inductive pykey : Type :=
| KStr (s : string)
| KZero.

(** The classes under [requests.exceptions.RequestException] that the
    calls of this program raise. *)
Inductive requests_error : Type :=
| ConnectionError                 (* [requests.post] could not complete *)
| HTTPError (status : Z)          (* [raise_for_status] *)
| JSONDecodeError.                (* [response.json()] on a body that is not JSON *)

Inductive pyexn : Type :=
| RateLimitError (msg : string)   (* the class declared at line 14 *)
| RequestException (e : requests_error)
| RetryError (last : pyexn)       (* tenacity: the attempts are used up *)
| KeyError (k : pykey)
| IndexError (msg : string)
| TypeError
| AttributeError
| ValueError (msg : string)
| ValidationError.                (* a pydantic model refused its input *)

(** What evaluating an expression gives: a value, or a raised exception. *)
Inductive outcome (A : Type) : Type :=
| Ok (a : A)
| Raise (e : pyexn).

Arguments Ok {A} a.
Arguments Raise {A} e.

Definition obind {A B : Type} (x : outcome A) (f : A -> outcome B)
  : outcome B :=
  match x with
  | Ok a => f a
  | Raise e => Raise e
  end.

Declare Scope outcome_scope.
Delimit Scope outcome_scope with outcome.
Notation "'let?' x ':=' c 'in' k" :=
  (obind c (fun x => k))
  (at level 10, x name, c at level 100, k at level 200) : outcome_scope.

(** [isinstance(e, requests.exceptions.RequestException)]. *)
Definition is_RequestException (e : pyexn) : bool :=
  match e with RequestException _ => true | _ => false end.

(** [isinstance(e, RateLimitError)]. *)
Definition is_RateLimitError (e : pyexn) : bool :=
  match e with RateLimitError _ => true | _ => false end.

(** [isinstance(e, (KeyError, IndexError))]. *)
Definition is_KeyError_or_IndexError (e : pyexn) : bool :=
  match e with KeyError _ | IndexError _ => true | _ => false end.

(** [repr] of a failed subscript, for the literal keys of this program
    (none holds a quote or a backslash). *)
Definition repr_key (k : pykey) : string :=
  match k with
  | KStr s => "'" ++ s ++ "'"
  | KZero => "0"
  end.

(** [str(e)] for the two exceptions the parser's handler formats. *)
Definition str_exn (e : pyexn) : string :=
  match e with
  | KeyError k => repr_key k
  | IndexError msg => msg
  | RateLimitError msg => msg
  | ValueError msg => msg
  | _ => ""
  end.

(* ================================================================== *)
(** ** Python's dynamic operations on parsed JSON                      *)
(* ================================================================== *)

(** [t in s] on two strings. *)
Fixpoint is_prefix (t s : string) : bool :=
  match t, s with
  | EmptyString, _ => true
  | String a t', String b s' => Ascii.eqb a b && is_prefix t' s'
  | String _ _, EmptyString => false
  end.

Fixpoint is_substring (t s : string) : bool :=
  is_prefix t s ||
  match s with
  | EmptyString => false
  | String _ s' => is_substring t s'
  end.

(** The characters of a string, each as a one-character string. *)
Fixpoint chars (s : string) : list json :=
  match s with
  | EmptyString => []
  | String a s' => JStr (String a EmptyString) :: chars s'
  end.

(** [j[k]] for a string literal [k]. *)
Definition getitem (k : string) (j : json) : outcome json :=
  match j with
  | JObj kv =>
      match lookup k kv with
      | Some v => Ok v
      | None => Raise (KeyError (KStr k))
      end
  | _ => Raise TypeError
  end.

(** [j[0]]. *)
Definition getitem0 (j : json) : outcome json :=
  match j with
  | JArr (x :: _) => Ok x
  | JArr [] => Raise (IndexError "list index out of range")
  | JStr (String a _) => Ok (JStr (String a EmptyString))
  | JStr EmptyString => Raise (IndexError "string index out of range")
  | JObj _ => Raise (KeyError KZero)
  | _ => Raise TypeError
  end.

(** [k in j] for a string literal [k]. *)
Definition contains (k : string) (j : json) : outcome bool :=
  match j with
  | JObj kv => Ok (has_key k kv)
  | JArr l =>
      Ok (existsb (fun x => match x with
                            | JStr s => String.eqb s k
                            | _ => false
                            end) l)
  | JStr s => Ok (is_substring k s)
  | _ => Raise TypeError
  end.

(** [for x in j]: the values iterated over. *)
Definition py_iter (j : json) : outcome (list json) :=
  match j with
  | JArr l => Ok l
  | JObj kv => Ok (map (fun p => JStr (fst p)) kv)
  | JStr s => Ok (chars s)
  | _ => Raise TypeError
  end.

(** [j.get(k, default)]: only a dict has the method. *)
Definition dict_get (k : string) (default : json) (j : json) : outcome json :=
  match j with
  | JObj kv =>
      Ok (match lookup k kv with Some v => v | None => default end)
  | _ => Raise AttributeError
  end.


(* ================================================================== *)
(** ** The world outside the process                                   *)
(* ================================================================== *)

(** What [requests.post] gives back. *)
Record response : Type := {
  status_code : Z;
  retry_after : option string;   (* the [Retry-After] header, if sent *)
  text : string;                 (* the body as text *)
  body : option json             (* [response.json()]; [None]: not JSON *)
}.

Inductive http_result : Type :=
| ConnectionFailed
| Responded (r : response).

(** [autogen_core.FunctionCall]: [arguments] holds the value handed to
    [json.dumps] (its serialisation to text is not modelled). *)
Record FunctionCall : Type := {
  fc_id : string;
  fc_name : json;
  fc_arguments : json
}.

(** [CreateResult.content : Union[str, List[FunctionCall]]]. *)
Definition content_t : Type := (string + list FunctionCall)%type.

(** Lines written through [logger] and [print]. A line that formats a
    value into its text holds that value. *)
Inductive log_line : Type :=
| ResponseStatus (status : Z)                 (* logger.info *)
| RateLimitHit (retry_after : string)         (* logger.warning *)
| ErrorResponseBody (text : string)           (* logger.error *)
| SendingRequest (model : string)             (* logger.info *)
| FailedToParse (data : json)                 (* logger.error *)
| RequestError (e : pyexn)                    (* logger.error *)
| RateLimitedWaiting (sleep : Z) (attempt : nat).   (* print, before_sleep *)

(** Everything observable, in the order it happens. *)
Inductive event : Type :=
| Post (url : string) (payload : json)
| Sleep (seconds : Z)
| Log (line : log_line)
| Yield (chunk : content_t).     (* a value yielded by [create_stream] *)

(** The environment: the [n]-th call of [requests.post] (counted from 0)
    with its url and payload decides the backend's answer; [uuid4 n] is
    the [n]-th identifier drawn. *)
Record Env : Type := {
  backend : nat -> string -> json -> http_result;
  uuid4 : nat -> string
}.

Record World : Type := {
  trace : list event;     (* oldest first *)
  posts : nat;            (* calls of [requests.post] so far *)
  uuids : nat             (* identifiers drawn so far *)
}.

Definition world0 : World := {| trace := []; posts := 0; uuids := 0 |}.

(** A statement with effects: a result and the world after it. *)
Definition M (A : Type) : Type := World -> outcome A * World.

Definition ret {A : Type} (a : A) : M A := fun w => (Ok a, w).

Definition raise {A : Type} (e : pyexn) : M A := fun w => (Raise e, w).

Definition bind {A B : Type} (c : M A) (f : A -> M B) : M B :=
  fun w =>
    match c w with
    | (Ok a, w') => f a w'
    | (Raise e, w') => (Raise e, w')
    end.

Definition lift {A : Type} (x : outcome A) : M A := fun w => (x, w).

Declare Scope M_scope.
Delimit Scope M_scope with M.
Notation "x <- c ;; k" := (bind c (fun x => k))
  (at level 61, c at next level, right associativity) : M_scope.
Notation "c ;; k" := (bind c (fun _ => k))
  (at level 61, right associativity) : M_scope.

Definition emit (ev : event) : M unit :=
  fun w => (Ok tt, {| trace := trace w ++ [ev];
                      posts := posts w; uuids := uuids w |}).

(** [try: c  except <those e with handles e>: handler e]. *)
Definition try_except {A : Type} (c : M A) (handles : pyexn -> bool)
  (handler : pyexn -> M A) : M A :=
  fun w =>
    match c w with
    | (Ok a, w') => (Ok a, w')
    | (Raise e, w') => if handles e then handler e w' else (Raise e, w')
    end.

(** [requests.post(url, json=payload, ...)]. *)
Definition requests_post (env : Env) (url : string) (payload : json)
  : M response :=
  fun w =>
    let w' := {| trace := trace w ++ [Post url payload];
                 posts := S (posts w); uuids := uuids w |} in
    match backend env (posts w) url payload with
    | ConnectionFailed => (Raise (RequestException ConnectionError), w')
    | Responded r => (Ok r, w')
    end.

(** [response.raise_for_status()]: statuses 400..599 raise. *)
Definition raise_for_status (r : response) : outcome unit :=
  if (400 <=? status_code r)%Z && (status_code r <? 600)%Z
  then Raise (RequestException (HTTPError (status_code r)))
  else Ok tt.

(** [response.json()]. *)
Definition response_json (r : response) : outcome json :=
  match body r with
  | Some j => Ok j
  | None => Raise (RequestException JSONDecodeError)
  end.

(** [str(uuid.uuid4())]. *)
Definition draw_uuid (env : Env) : M string :=
  fun w => (Ok (uuid4 env (uuids w)),
            {| trace := trace w; posts := posts w; uuids := S (uuids w) |}).

(** A computation that contains an unbounded loop carries fuel: [None]
    means the fuel ran out before the loop ended. *)
Definition MF (A : Type) : Type := World -> option (outcome A * World).

Definition liftF {A : Type} (c : M A) : MF A := fun w => Some (c w).

Definition bindF {A B : Type} (c : MF A) (f : A -> MF B) : MF B :=
  fun w =>
    match c w with
    | None => None
    | Some (Ok a, w') => f a w'
    | Some (Raise e, w') => Some (Raise e, w')
    end.

Definition try_exceptF {A : Type} (c : MF A) (handles : pyexn -> bool)
  (handler : pyexn -> M A) : MF A :=
  fun w =>
    match c w with
    | None => None
    | Some (Ok a, w') => Some (Ok a, w')
    | Some (Raise e, w') =>
        if handles e then Some (handler e w') else Some (Raise e, w')
    end.

(* ================================================================== *)
(** ** tenacity: the [@retry] decorator                                *)
(* ================================================================== *)

Module Tenacity.

Local Open Scope Z_scope.

(** [stop_after_attempt(max_attempt_number)]. *)
Definition stop_after_attempt (max_attempt_number : nat)
  (attempt_number : nat) : bool :=
  (max_attempt_number <=? attempt_number)%nat.

(** [wait_exponential(multiplier, min, max)], [exp_base = 2]:
    [max(max(0, min), min(multiplier * 2 ** (attempt_number - 1), max))]. *)
Definition wait_exponential (multiplier min max : Z) (attempt_number : nat)
  : Z :=
  let exp := 2 ^ (Z.of_nat attempt_number - 1) in
  let result := multiplier * exp in
  Z.max (Z.max 0 min) (Z.min result max).

(** The decorator's arguments. *)
Record Retrying : Type := {
  retry : pyexn -> bool;                  (* retry_if_exception_type *)
  stop : nat -> bool;
  wait : nat -> Z;
  before_sleep : nat -> Z -> M unit       (* attempt number, next sleep *)
}.

Section Call.
Context {A : Type}.

(** [RetryCallState]: the attempt number (from 1) and the outcome of the
    attempt just made, if one was made since the last sleep. *)
Record RetryCallState : Type := {
  attempt_number : nat;
  last_outcome : option (outcome A)
}.

Inductive action : Type :=
| DoAttempt
| DoSleep (seconds : Z)
| Return (r : outcome A).      (* return the value, or raise *)

(** [Retrying.iter]. *)
Definition iter (r : Retrying) (rs : RetryCallState) (w : World)
  : action * World :=
  match last_outcome rs with
  | None => (DoAttempt, w)
  | Some (Ok a) => (Return (Ok a), w)
  | Some (Raise e) =>
      if negb (retry r e) then (Return (Raise e), w)
      else if stop r (attempt_number rs)
           then (Return (Raise (RetryError e)), w)
           else
             let sleep := wait r (attempt_number rs) in
             (DoSleep sleep,
              snd (before_sleep r (attempt_number rs) sleep w))
  end.

(** [Retrying.__call__]: the [while True] loop, one iteration per unit
    of fuel. *)
Fixpoint call (fuel : nat) (r : Retrying) (fn : M A) (rs : RetryCallState)
  : MF A :=
  fun w =>
    match fuel with
    | O => None
    | S fuel' =>
        match iter r rs w with
        | (DoAttempt, w1) =>
            let (res, w2) := fn w1 in
            call fuel' r fn
              {| attempt_number := attempt_number rs;
                 last_outcome := Some res |} w2
        | (DoSleep seconds, w1) =>
            (* prepare_for_next_attempt, then sleep *)
            let (_, w2) := emit (Sleep seconds) w1 in
            call fuel' r fn
              {| attempt_number := S (attempt_number rs);
                 last_outcome := None |} w2
        | (Return res, w1) => Some (res, w1)
        end
    end.

Definition first_state : RetryCallState :=
  {| attempt_number := 1; last_outcome := None |}.

End Call.

Arguments RetryCallState A : clear implicits.
Arguments action A : clear implicits.

End Tenacity.

(* ================================================================== *)
(** ** [NativeGeminiClient] (native_gemini_client.py)                  *)
(* ================================================================== *)

Module Gemini.

(** [autogen_core.models.RequestUsage], a plain dataclass: it stores the
    values it is given. *)
Record RequestUsage : Type := {
  prompt_tokens : json;
  completion_tokens : json
}.

(** The strings ["stop"], ["length"], ["content_filter"]. *)
Inductive finish_reason_t : Type := fr_stop | fr_length | fr_content_filter.

(** autogen_core's [CreateResult], with the fields that the call at
    lines 199-205 sets. The class declares no [tool_calls] field and
    ignores a keyword it does not declare, so the [tool_calls=] argument
    of that call is not kept: function calls reach a caller only as a
    list given for [content]. *)
Record CreateResult : Type := {
  content : content_t;
  usage : RequestUsage;
  finish_reason : finish_reason_t;
  cached : bool
}.

(** The fields [__init__] sets. *)
Record NativeGeminiClient : Type := {
  api_key : string;
  model : string;
  base_url : string;
  _total_usage : RequestUsage
}.

Definition __init__ (api_key model : string) : NativeGeminiClient :=
  {| api_key := api_key;
     model := model;
     base_url := "https://generativelanguage.googleapis.com/v1beta/models";
     _total_usage := {| prompt_tokens := JInt 0;
                        completion_tokens := JInt 0 |} |}.

(** *** Messages ([autogen_core.models.LLMMessage]) *)

(** An element of a multimodal user content: text, or an image. *)
Inductive media : Type :=
| Text (s : string)
| Image.

Record FunctionExecutionResult : Type := {
  result_content : string;
  result_call_id : string
}.

Inductive LLMMessage : Type :=
| SystemMessage (content : string)
| UserMessage (content : string + list media) (source : string)
| AssistantMessage (content : string + list FunctionCall) (source : string)
| FunctionExecutionResultMessage (content : list FunctionExecutionResult).

(** [{"text": s}] and [{"role": role, "parts": [{"text": s}]}]. *)
Definition text_part (s : string) : json := JObj [("text", JStr s)].

Definition role_entry (role s : string) : json :=
  JObj [("role", JStr role); ("parts", JArr [text_part s])].

(** ["".join([p for p in content if isinstance(p, str)])]. *)
Fixpoint join_text (parts : list media) : string :=
  match parts with
  | [] => ""
  | Text s :: r => s ++ join_text r
  | Image :: r => join_text r
  end.

(** One turn of the loop at lines 79-94, on the pair
    ([gemini_contents], [system_instruction]); [JNull] is [None]. *)
Definition convert_message (acc : list json * json) (msg : LLMMessage)
  : list json * json :=
  let (gemini_contents, system_instruction) := acc in
  match msg with
  | SystemMessage c =>
      (gemini_contents, JObj [("parts", JArr [text_part c])])
  | UserMessage (inl s) _ =>
      (gemini_contents ++ [role_entry "user" s], system_instruction)
  | UserMessage (inr parts) _ =>
      (gemini_contents ++ [role_entry "user" (join_text parts)],
       system_instruction)
  | AssistantMessage (inl s) _ =>
      (gemini_contents ++ [role_entry "model" s], system_instruction)
  | AssistantMessage (inr _) _ => acc
  | FunctionExecutionResultMessage _ => acc
  end.

Definition convert_messages (messages : list LLMMessage)
  : list json * json :=
  fold_left convert_message messages ([], JNull).

(** *** Tools (lines 96-127) *)

(** A tool is looked at through attributes first and [.get] second: an
    object with attributes (and no [get] method), or a dict. *)
Inductive tool : Type :=
| ToolObject (attrs : list (string * json))
| ToolDict (d : list (string * json)).

(** [getattr(t, a, None)]. *)
Definition getattr_or_None (t : tool) (a : string) : json :=
  match t with
  | ToolObject attrs =>
      match lookup a attrs with Some v => v | None => JNull end
  | ToolDict _ => JNull
  end.

(** [t.get(a)]. *)
Definition tool_get (t : tool) (a : string) : outcome json :=
  match t with
  | ToolObject _ => Raise AttributeError
  | ToolDict d => Ok (match lookup a d with Some v => v | None => JNull end)
  end.

(** [getattr(t, a, None) or t.get(a)]. *)
Definition tool_field (t : tool) (a : string) : outcome json :=
  let x := getattr_or_None t a in
  if truthy x then Ok x else tool_get t a.

(** The body of [for t in tools]: the declaration appended, if any. *)
Definition declare_tool (t : tool) : outcome (option json) :=
  (let? name := tool_field t "name" in
   let? description := tool_field t "description" in
   let? parameters := tool_field t "parameters" in
   let parameters :=
     if truthy parameters then Schema.clean_schema parameters
     else parameters in
   if truthy name
   then Ok (Some (JObj [("name", name);
                        ("description", description);
                        ("parameters", parameters)]))
   else Ok None)%outcome.

Fixpoint function_declarations (tools : list tool) : outcome (list json) :=
  match tools with
  | [] => Ok []
  | t :: r =>
      (let? d := declare_tool t in
       let? ds := function_declarations r in
       Ok (match d with Some x => x :: ds | None => ds end))%outcome
  end.

(** [gemini_tools], from [tools: Optional[List[Any]]]. *)
Definition gemini_tools (tools : option (list tool)) : outcome (list json) :=
  match tools with
  | None | Some [] => Ok []
  | Some ts =>
      (let? ds := function_declarations ts in
       Ok (match ds with
           | [] => []
           | _ => [JObj [("function_declarations", JArr ds)]]
           end))%outcome
  end.

(** The request payload (lines 129-140). *)
Definition build_payload (messages : list LLMMessage)
  (tools : option (list tool)) : outcome json :=
  let (gemini_contents, system_instruction) := convert_messages messages in
  (let? gtools := gemini_tools tools in
   let payload := [("contents", JArr gemini_contents)] in
   let payload :=
     if truthy (JArr gtools) then setitem "tools" (JArr gtools) payload
     else payload in
   let payload :=
     if truthy system_instruction
     then setitem "system_instruction" system_instruction payload
     else payload in
   Ok (JObj payload))%outcome.

(** [f"{self.base_url}/{self.model}:generateContent?key={self.api_key}"]. *)
Definition request_url (self : NativeGeminiClient) : string :=
  base_url self ++ "/" ++ model self ++ ":generateContent?key=" ++ api_key self.

(** *** Transport (lines 31-59) *)

Local Open Scope M_scope.

(** [_make_api_request]. *)
Definition _make_api_request (env : Env) (url : string) (payload : json)
  : M json :=
  response <- requests_post env url payload ;;
  emit (Log (ResponseStatus (status_code response))) ;;
  if (status_code response =? 429)%Z then
    let retry_after :=
      match retry_after response with Some v => v | None => "60" end in
    emit (Log (RateLimitHit retry_after)) ;;
    raise (RateLimitError
             ("Rate limit exceeded. Retry-After: " ++ retry_after))
  else
    (if (400 <=? status_code response)%Z
     then emit (Log (ErrorResponseBody (text response)))
     else ret tt) ;;
    lift (raise_for_status response) ;;
    lift (response_json response).

(** The decorator at lines 51-56. *)
Definition retry_policy : Tenacity.Retrying :=
  {| Tenacity.retry := is_RateLimitError;
     Tenacity.stop := Tenacity.stop_after_attempt 5;
     Tenacity.wait := Tenacity.wait_exponential 2 2 60;
     Tenacity.before_sleep :=
       fun attempt sleep => emit (Log (RateLimitedWaiting sleep attempt)) |}.

(** [_make_api_request_with_retry]. *)
Definition _make_api_request_with_retry (fuel : nat) (env : Env)
  (url : string) (payload : json) : MF json :=
  Tenacity.call fuel retry_policy (_make_api_request env url payload)
    Tenacity.first_state.

(** *** Parsing the response (lines 151-205) *)

(** The loop at lines 163-170, appending to [tool_calls]. *)
Fixpoint collect_tool_calls (env : Env) (parts : list json)
  (tool_calls : list FunctionCall) : M (list FunctionCall) :=
  match parts with
  | [] => ret tool_calls
  | part :: rest =>
      has_call <- lift (contains "functionCall" part) ;;
      if has_call : bool then
        fc <- lift (getitem "functionCall" part) ;;
        fname <- lift (getitem "name" fc) ;;
        fargs <- lift (getitem "args" fc) ;;
        id <- draw_uuid env ;;
        collect_tool_calls env rest
          (tool_calls ++ [{| fc_id := id; fc_name := fname;
                             fc_arguments := fargs |}])
      else collect_tool_calls env rest tool_calls
  end.

(** [finish_reason_map.get(raw_finish_reason, "stop")]: a list or a dict
    is not hashable. *)
Definition map_finish_reason (raw : json) : outcome finish_reason_t :=
  match raw with
  | JArr _ | JObj _ => Raise TypeError
  | JStr s =>
      Ok (if String.eqb s "STOP" then fr_stop
          else if String.eqb s "MAX_TOKENS" then fr_length
          else if String.eqb s "SAFETY" then fr_content_filter
          else if String.eqb s "RECITATION" then fr_content_filter
          else if String.eqb s "OTHER" then fr_stop
          else fr_stop)
  | _ => Ok fr_stop
  end.

(** pydantic on a dict offered where a [FunctionCall] is expected. *)
Definition as_function_call (j : json) : option FunctionCall :=
  match j with
  | JObj kv =>
      match lookup "id" kv, lookup "arguments" kv, lookup "name" kv with
      | Some (JStr i), Some (JStr a), Some (JStr n) =>
          Some {| fc_id := i; fc_name := JStr n; fc_arguments := JStr a |}
      | _, _, _ => None
      end
  | _ => None
  end.

Fixpoint as_function_calls (l : list json) : option (list FunctionCall) :=
  match l with
  | [] => Some []
  | j :: r =>
      match as_function_call j, as_function_calls r with
      | Some c, Some cs => Some (c :: cs)
      | _, _ => None
      end
  end.

(** pydantic on the [content] argument of [CreateResult]: a string, or
    a list of function calls. *)
Definition validate_content (j : json) : outcome content_t :=
  match j with
  | JStr s => Ok (inl s)
  | JArr l =>
      match as_function_calls l with
      | Some cs => Ok (inr cs)
      | None => Raise ValidationError
      end
  | _ => Raise ValidationError
  end.

(** The body of the inner [try] (lines 152-205). *)
Definition parse_response (env : Env) (data : json) : M CreateResult :=
  candidates <- lift (getitem "candidates" data) ;;
  candidate <- lift (getitem0 candidates) ;;
  content0 <- lift (getitem "content" candidate) ;;
  parts0 <- lift (getitem "parts" content0) ;;
  content_part <- lift (getitem0 parts0) ;;
  has_text <- lift (contains "text" content_part) ;;
  content_text <-
    (if has_text : bool then lift (getitem "text" content_part)
     else ret (JStr "")) ;;
  content1 <- lift (getitem "content" candidate) ;;
  parts1 <- lift (getitem "parts" content1) ;;
  parts <- lift (py_iter parts1) ;;
  tool_calls <- collect_tool_calls env parts [] ;;
  raw_finish_reason <- lift (dict_get "finishReason" (JStr "STOP") candidate) ;;
  finish_reason <- lift (map_finish_reason raw_finish_reason) ;;
  usage <- lift (dict_get "usageMetadata" (JObj []) data) ;;
  prompt_tokens <- lift (dict_get "promptTokenCount" (JInt 0) usage) ;;
  completion_tokens <- lift (dict_get "candidatesTokenCount" (JInt 0) usage) ;;
  content <- lift (validate_content content_text) ;;
  ret {| content := content;
         usage := {| prompt_tokens := prompt_tokens;
                     completion_tokens := completion_tokens |};
         finish_reason := finish_reason;
         cached := false |}.

(** The inner [try ... except (KeyError, IndexError)] (lines 151-209). *)
Definition parse_or_ValueError (env : Env) (data : json) : M CreateResult :=
  try_except (parse_response env data) is_KeyError_or_IndexError
    (fun e =>
       emit (Log (FailedToParse data)) ;;
       raise (ValueError
                ("Invalid response format from Gemini: " ++ str_exn e))).

(** *** [create] and [create_stream] *)

(** The statements of [create] (lines 73-213) after the payload is
    built: the outer [try ... except RequestException] logs and re-raises. *)
Definition send_and_parse (fuel : nat) (env : Env)
  (self : NativeGeminiClient) (payload : json) : MF CreateResult :=
  bindF (liftF (emit (Log (SendingRequest (model self))))) (fun _ =>
  try_exceptF
    (bindF (_make_api_request_with_retry fuel env (request_url self) payload)
           (fun data => liftF (parse_or_ValueError env data)))
    is_RequestException
    (fun e => emit (Log (RequestError e)) ;; raise e)).

(** [create]: the result, the client object after the call, and the
    world after the call. No statement of [create] assigns to an
    attribute of [self], so the object after is the object before. *)
Definition create (fuel : nat) (env : Env) (self : NativeGeminiClient)
  (messages : list LLMMessage) (tools : option (list tool)) (w : World)
  : option (outcome CreateResult * NativeGeminiClient * World) :=
  match build_payload messages tools with
  | Raise e => Some (Raise e, self, w)
  | Ok payload =>
      match send_and_parse fuel env self payload w with
      | None => None
      | Some (r, w') => Some (r, self, w')
      end
  end.

(** [create_stream]: awaits [create], then yields [result.content]. The
    generator run to its end: the exception that ended it, if any. *)
Definition create_stream (fuel : nat) (env : Env) (self : NativeGeminiClient)
  (messages : list LLMMessage) (tools : option (list tool)) (w : World)
  : option (outcome unit * NativeGeminiClient * World) :=
  match create fuel env self messages tools w with
  | None => None
  | Some (Raise e, self', w') => Some (Raise e, self', w')
  | Some (Ok result, self', w') =>
      let (r, w'') := emit (Yield (content result)) w' in
      Some (r, self', w'')
  end.

(** [total_usage] and [actual_usage]. *)
Definition total_usage (self : NativeGeminiClient) : RequestUsage :=
  _total_usage self.

Definition actual_usage (self : NativeGeminiClient) : RequestUsage :=
  _total_usage self.

(** A sequence of [create] calls on one client, one after the other; a
    call that raises leaves the client in use for the next. The outcomes
    are returned oldest first. *)
Fixpoint create_all (fuel : nat) (env : Env) (self : NativeGeminiClient)
  (calls : list (list LLMMessage * option (list tool))) (w : World)
  : option (list (outcome CreateResult) * NativeGeminiClient * World) :=
  match calls with
  | [] => Some ([], self, w)
  | (messages, tools) :: rest =>
      match create fuel env self messages tools w with
      | None => None
      | Some (r, self', w') =>
          match create_all fuel env self' rest w' with
          | None => None
          | Some (rs, self'', w'') => Some (r :: rs, self'', w'')
          end
      end
  end.

(** The chunks yielded so far. *)
Definition yielded (w : World) : list content_t :=
  flat_map (fun ev => match ev with Yield c => [c] | _ => [] end) (trace w).

(** The sleeps so far, oldest first. *)
Definition delays (w : World) : list Z :=
  flat_map (fun ev => match ev with Sleep s => [s] | _ => [] end) (trace w).

(** The payloads posted so far, oldest first. *)
Definition posted (w : World) : list json :=
  flat_map (fun ev => match ev with Post _ p => [p] | _ => [] end) (trace w).

End Gemini.

(* ================================================================== *)
(** ** [RagFlowClient.search] and the tool over it                     *)
(* ================================================================== *)

Module RagFlow.

Local Open Scope M_scope.

(** [schemas.EvidenceItem], as [search] fills it (the legal metadata
    fields keep their default [None]). *)
Record EvidenceItem : Type := {
  content : string;
  document_name : string;
  chunk_id : option string;
  similarity_score : option float;
  original_metadata : json
}.

(** [schemas.EvidencePack]. *)
Record EvidencePack : Type := {
  query : string;
  items : list EvidenceItem;
  total_items : nat
}.

(** What [search] reads besides its arguments: the client's base url,
    the ids listed in [RAGFLOW_KNOWLEDGE_ID] (split at commas and
    stripped; [None] when the variable is unset or empty), and
    pydantic's reading of a JSON value as a [float] ([None]: refused). *)
Record Config : Type := {
  base_url : string;
  env_knowledge_ids : option (list string);
  pydantic_float : json -> option float
}.

(** pydantic on the arguments of [EvidenceItem(...)]. *)
Definition new_EvidenceItem (cfg : Config)
  (content document_name chunk_id similarity doc : json)
  : outcome EvidenceItem :=
  match content, document_name with
  | JStr c, JStr n =>
      (let? cid :=
         match chunk_id with
         | JNull => Ok None
         | JStr s => Ok (Some s)
         | _ => Raise ValidationError
         end in
       let? sim :=
         match similarity with
         | JNull => Ok None
         | _ => match pydantic_float cfg similarity with
                | Some f => Ok (Some f)
                | None => Raise ValidationError
                end
         end in
       Ok {| content := c; document_name := n; chunk_id := cid;
             similarity_score := sim; original_metadata := doc |})%outcome
  | _, _ => Raise ValidationError
  end.

(** One [doc] of the loops at lines 78-108. [keyword_fallback] tells the
    [chunks] branch, whose name falls back on [document_keyword]. *)
Definition item_of_doc (cfg : Config) (keyword_fallback : bool) (doc : json)
  : outcome EvidenceItem :=
  (let? content0 := dict_get "content" (JStr "") doc in
   let? content := dict_get "content_with_weight" content0 doc in
   let? name0 :=
     if keyword_fallback
     then dict_get "document_keyword" (JStr "Unknown Document") doc
     else Ok (JStr "Unknown Document") in
   let? name := dict_get "doc_name" name0 doc in
   let? chunk_id := dict_get "chunk_id" JNull doc in
   let? similarity := dict_get "similarity" JNull doc in
   new_EvidenceItem cfg content name chunk_id similarity doc)%outcome.

Fixpoint items_of_docs (cfg : Config) (keyword_fallback : bool)
  (docs : list json) : outcome (list EvidenceItem) :=
  match docs with
  | [] => Ok []
  | doc :: r =>
      (let? item := item_of_doc cfg keyword_fallback doc in
       let? rest := items_of_docs cfg keyword_fallback r in
       Ok (item :: rest))%outcome
  end.

(** [data.get("code") == 0]: Python's [==] makes [0], [0.0] and [False]
    equal. *)
Definition equals_zero (j : json) : bool :=
  match j with
  | JInt n => Z.eqb n 0
  | JFloat f => PrimFloat.eqb f 0%float
  | JBool b => negb b
  | _ => false
  end.

(** Lines 72-110: the items mapped from the parsed body. *)
Definition map_response (cfg : Config) (data : json)
  : outcome (list EvidenceItem) :=
  (let? code := dict_get "code" JNull data in
   let? has_data :=
     if equals_zero code then contains "data" data else Ok false in
   if has_data : bool then
     let? data_content := getitem "data" data in
     match data_content with
     | JObj kv =>
         if has_key "chunks" kv then
           let? chunks := getitem "chunks" data_content in
           let? docs := py_iter chunks in
           items_of_docs cfg true docs
         else if has_key "docs" kv then
           let? ds := getitem "docs" data_content in
           let? docs := py_iter ds in
           items_of_docs cfg false docs
         else Ok []
     | JArr docs => items_of_docs cfg false docs
     | _ => Ok []
     end
   else Ok [])%outcome.

(** The request payload (lines 47-52). *)
Definition search_payload (cfg : Config) (query : string) (top_k : Z)
  (similarity_threshold : float) (knowledge_ids : option (list string))
  : json :=
  let ids :=
    match knowledge_ids with
    | Some (k :: ks) => k :: ks
    | _ => match env_knowledge_ids cfg with
           | Some ids => ids
           | None => []
           end
    end in
  JObj [("question", JStr query);
        ("top_k", JInt top_k);
        ("similarity_threshold", JFloat similarity_threshold);
        ("dataset_ids", JArr (map JStr ids))].

(** The body of the [try] (lines 54-112). *)
Definition search_try (env : Env) (cfg : Config) (query : string)
  (payload : json) : M EvidencePack :=
  response <- requests_post env (base_url cfg ++ "/api/v1/retrieval") payload ;;
  lift (raise_for_status response) ;;
  data <- lift (response_json response) ;;
  items <- lift (map_response cfg data) ;;
  ret {| query := query; items := items; total_items := List.length items |}.

(** [search]: [except Exception] returns the empty pack. The [print]
    lines are left out. *)
Definition search (env : Env) (cfg : Config) (query : string) (top_k : Z)
  (similarity_threshold : float) (knowledge_ids : option (list string))
  : M EvidencePack :=
  try_except
    (search_try env cfg query
       (search_payload cfg query top_k similarity_threshold knowledge_ids))
    (fun _ => true)
    (fun _ => ret {| query := query; items := []; total_items := 0 |}).

(** [pack.model_dump()]. *)
Definition dump_option_string (o : option string) : json :=
  match o with Some s => JStr s | None => JNull end.

Definition dump_item (i : EvidenceItem) : json :=
  JObj [("content", JStr (content i));
        ("document_name", JStr (document_name i));
        ("chunk_id", dump_option_string (chunk_id i));
        ("similarity_score",
         match similarity_score i with Some f => JFloat f | None => JNull end);
        ("issuing_authority", JNull);
        ("effective_date", JNull);
        ("legal_reference", JNull);
        ("is_valid", JNull);
        ("original_metadata", original_metadata i)].

Definition model_dump (p : EvidencePack) : json :=
  JObj [("query", JStr (query p));
        ("items", JArr (map dump_item (items p)));
        ("total_items", JInt (Z.of_nat (total_items p)))].

(** tools.py: [retrieve_legal_documents], with the module's
    [_knowledge_ids] as an argument. *)
Definition retrieve_legal_documents (env : Env) (cfg : Config)
  (_knowledge_ids : option (list string)) (query : string) : M json :=
  pack <- search env cfg query 10 0.5%float _knowledge_ids ;;
  ret (model_dump pack).

End RagFlow.

(* ================================================================== *)
(** ** The spec's error kinds, read on the Python classes              *)
(* ================================================================== *)

(** [RateLimitSignal] is the class [RateLimitError]; a [BackendError] is
    what reaches the caller of [create] when the remote call could not be
    completed (a [requests] exception, or tenacity's [RetryError] around
    the last rate-limit error); a [ProtocolError] is the [ValueError] of
    line 209. *)
Inductive error_kind : Type :=
| RateLimitSignal
| BackendError
| ProtocolError
| OtherError.

Definition kind_of (e : pyexn) : error_kind :=
  match e with
  | RateLimitError _ => RateLimitSignal
  | RequestException _ => BackendError
  | RetryError (RateLimitError _) => BackendError
  | ValueError _ => ProtocolError
  | _ => OtherError
  end.

(* ================================================================== *)
(** ** The workflow ([config.get_model_client], [main])                *)
(* ================================================================== *)

Module Workflow.

(** Which client [get_model_client] builds. *)
Inductive model_client : Type :=
| NativeGemini (api_key : string)
| OpenAIChatCompletion (api_key : string) (base_url : option string).

Definition nonempty (o : option string) : option string :=
  match o with
  | Some s => if String.eqb s "" then None else Some s
  | None => None
  end.

(** config.py: [get_model_client], from the three environment variables. *)
Definition get_model_client (OPENAI_API_KEY GEMINI_API_KEY OPENAI_BASE_URL
  : option string) : outcome model_client :=
  let api_key :=
    match nonempty OPENAI_API_KEY with
    | Some k => if is_prefix "sk-..." k then None else Some k
    | None => None
    end in
  match api_key, nonempty GEMINI_API_KEY with
  | None, Some g => Ok (NativeGemini g)
  | None, None =>
      Raise (ValueError
               "No valid API Key found (OPENAI_API_KEY or GEMINI_API_KEY)")
  | Some k, _ => Ok (OpenAIChatCompletion k OPENAI_BASE_URL)
  end.

(** A message of a team's transcript. *)
Record Message : Type := {
  source : string;
  content : string
}.

Inductive termination : Type :=
| TextMentionTermination (text : string)
| MaxMessageTermination (max_messages : nat)
| OrTermination (a b : termination).

(** [RoundRobinGroupChat(participants, termination_condition)], the
    participants by name. *)
Record Team : Type := {
  participants : list string;
  termination_condition : termination
}.

(** The query assigned at line 50 (UTF-8 bytes). *)
Definition query_line50 : string := "Khoáng sản nhóm III".

(** The f-string of line 52. *)
Definition research_task (query : string) : string :=
  "Legal Query: " ++ query ++ "
Please plan and execute the research.".

(** The f-string of lines 71-75. *)
Definition synthesis_task (query : string) : string :=
  "Based on the approved research above, produce the final legal research document.

Original Query: " ++ query ++ "

Please synthesize a comprehensive, well-formatted legal brief with proper citations.".

Definition research_team : Team :=
  {| participants := ["Planner_Agent"; "Retriever_Agent";
                      "Analyzer_Agent"; "Critic_Agent"];
     termination_condition :=
       OrTermination (TextMentionTermination "APPROVE")
                     (MaxMessageTermination 12) |}.

Definition synthesis_team : Team :=
  {| participants := ["Synthesizer_Agent"];
     termination_condition := MaxMessageTermination 2 |}.

(** What one run of [main] did: the task that seeded each team and the
    messages each team's run returned. *)
Record Run : Type := {
  phase1_task : string;
  research_result : list Message;
  phase2_task : string;
  synthesis_result : list Message
}.

(** [main]. [query] is the string assigned at line 50 (hard-coded there
    for testing); [run_stream team task] is the transcript autogen's team
    returns for that task (it starts with the task as the user's
    message). When [get_model_client] raises, [main] prints the error and
    returns before any team is built. *)
Definition main (OPENAI_API_KEY GEMINI_API_KEY OPENAI_BASE_URL : option string)
  (run_stream : Team -> string -> list Message) (query : string)
  : option Run :=
  match get_model_client OPENAI_API_KEY GEMINI_API_KEY OPENAI_BASE_URL with
  | Raise _ => None
  | Ok _ =>
      let task := research_task query in
      let research_result := run_stream research_team task in
      let synthesis_task := synthesis_task query in
      let synthesis_result := run_stream synthesis_team synthesis_task in
      Some {| phase1_task := task;
              research_result := research_result;
              phase2_task := synthesis_task;
              synthesis_result := synthesis_result |}
  end.

End Workflow.

(* ================================================================== *)
(** * Vocabulary of the statements                                     *)
(* ================================================================== *)

Section ClientVocabulary.
Import Gemini.

(** The backend reports throttling. *)
Definition throttled (h : http_result) : bool :=
  match h with
  | Responded r => (status_code r =? 429)%Z
  | ConnectionFailed => false
  end.

(** What one transport call gives for a backend answer, the log aside. *)
Definition answer (h : http_result) : outcome json :=
  match h with
  | ConnectionFailed => Raise (RequestException ConnectionError)
  | Responded r =>
      if (status_code r =? 429)%Z
      then Raise (RateLimitError
                    ("Rate limit exceeded. Retry-After: " ++
                     match retry_after r with Some v => v | None => "60" end))
      else obind (raise_for_status r) (fun _ => response_json r)
  end.

(** The backend's answer to the next request issued from world [w]. *)
Definition next_answer (env : Env) (url : string) (payload : json)
  (w : World) : http_result :=
  backend env (posts w) url payload.

(** The loop's state before attempt number [a]. *)
Definition state (a : nat) : Tenacity.RetryCallState json :=
  {| Tenacity.attempt_number := a; Tenacity.last_outcome := None |}.

(** From [w] to [w']: [n] more requests, all with [payload]; the sleeps
    [ds] in order; nothing yielded, no identifier drawn. *)
Definition advanced (payload : json) (w w' : World) (n : nat)
  (ds : list Z) : Prop :=
  posts w' = posts w + n /\
  delays w' = delays w ++ ds /\
  uuids w' = uuids w /\
  yielded w' = yielded w /\
  posted w' = posted w ++ repeat payload n.

(** The delay the spec gives for retry [N]. *)
Definition backoff (N : nat) : Z := Z.min 60 (2 * 2 ^ (Z.of_nat N - 1)).

(** No [requests] exception comes out. *)
Definition no_request_error {A : Type} (x : outcome A) : Prop :=
  match x with
  | Ok _ => True
  | Raise e => is_RequestException e = false
  end.

(** A statement that issues no request, does not sleep, yields nothing
    and raises no [requests] exception. *)
Definition quiet {A : Type} (c : M A) : Prop :=
  forall w,
    no_request_error (fst (c w)) /\
    posts (snd (c w)) = posts w /\
    delays (snd (c w)) = delays w /\
    posted (snd (c w)) = posted w /\
    yielded (snd (c w)) = yielded w.

(** The world in which [create] starts the transport step. *)
Definition announced (self : NativeGeminiClient) (w : World) : World :=
  snd (emit (Log (SendingRequest (model self))) w).

(** The first expected field that is missing from the payload, as the
    exception its subscript raises: [candidates], its first element,
    [content], [parts], or the first part. *)
Definition missing (data : json) : option pyexn :=
  match data with
  | JObj top =>
      match lookup "candidates" top with
      | None => Some (KeyError (KStr "candidates"))
      | Some (JArr []) => Some (IndexError "list index out of range")
      | Some (JArr (JObj cand :: _)) =>
          match lookup "content" cand with
          | None => Some (KeyError (KStr "content"))
          | Some (JObj ct) =>
              match lookup "parts" ct with
              | None => Some (KeyError (KStr "parts"))
              | Some (JArr []) => Some (IndexError "list index out of range")
              | Some _ => None
              end
          | Some _ => None
          end
      | Some _ => None
      end
  | _ => None
  end.

(** A part of the reply: an object whose [functionCall], if any, is an
    object with [name] and [args]. *)
Definition well_formed_part (part : json) : bool :=
  match part with
  | JObj kv =>
      match lookup "functionCall" kv with
      | None => true
      | Some (JObj fc) => has_key "name" fc && has_key "args" fc
      | Some _ => false
      end
  | _ => false
  end.

(** The text of the first part, if any, is a string. *)
Definition text_is_string (part : json) : bool :=
  match part with
  | JObj kv =>
      match lookup "text" kv with
      | None | Some (JStr _) => true
      | Some _ => false
      end
  | _ => false
  end.

(** The payload has the shape the parser expects: a first candidate with
    content parts, a finish reason that is absent or a scalar, usage
    metadata that is absent or an object. *)
Definition well_formed (data : json) : bool :=
  match data with
  | JObj top =>
      match lookup "candidates" top with
      | Some (JArr (JObj cand :: _)) =>
          match lookup "content" cand with
          | Some (JObj ct) =>
              match lookup "parts" ct with
              | Some (JArr (first :: rest)) =>
                  text_is_string first &&
                  forallb well_formed_part (first :: rest) &&
                  match lookup "finishReason" cand with
                  | Some (JArr _) | Some (JObj _) => false
                  | _ => true
                  end &&
                  match lookup "usageMetadata" top with
                  | None | Some (JObj _) => true
                  | Some _ => false
                  end
              | _ => false
              end
          | _ => false
          end
      | _ => false
      end
  | _ => false
  end.

(** The first function call, in the order of the parts, that lacks its
    [name] or its [args], as the exception its subscript raises. *)
Fixpoint call_lacking (parts : list json) : option pyexn :=
  match parts with
  | [] => None
  | JObj kv :: rest =>
      match lookup "functionCall" kv with
      | None => call_lacking rest
      | Some (JObj fc) =>
          if has_key "name" fc
          then if has_key "args" fc then call_lacking rest
               else Some (KeyError (KStr "args"))
          else Some (KeyError (KStr "name"))
      | Some _ => None
      end
  | _ => None
  end.

(** The first expected field that is missing from the payload, the
    fields of its function calls included: [candidates], its first
    element, [content], [parts], the first part, or the [name] or the
    [args] of a function call of a part. *)
Definition lacking (data : json) : option pyexn :=
  match missing data with
  | Some e => Some e
  | None =>
      match data with
      | JObj top =>
          match lookup "candidates" top with
          | Some (JArr (JObj cand :: _)) =>
              match lookup "content" cand with
              | Some (JObj ct) =>
                  match lookup "parts" ct with
                  | Some (JArr parts) => call_lacking parts
                  | _ => None
                  end
              | _ => None
              end
          | _ => None
          end
      | _ => None
      end
  end.

(** A part of the expected type: an object whose [functionCall], if
    any, is an object. *)
Definition typed_part (part : json) : bool :=
  match part with
  | JObj kv =>
      match lookup "functionCall" kv with
      | None | Some (JObj _) => true
      | Some _ => false
      end
  | _ => false
  end.

(** Every field that is present has the JSON type the parser expects:
    the payload and its first candidate are objects, [candidates] and
    [parts] are lists, [content], [usageMetadata] and every part and
    function call are objects, the text of the first part is a string
    and the finish reason a scalar. *)
Definition expected_types (data : json) : bool :=
  match data with
  | JObj top =>
      match lookup "usageMetadata" top with
      | None | Some (JObj _) => true
      | Some _ => false
      end &&
      match lookup "candidates" top with
      | None | Some (JArr []) => true
      | Some (JArr (JObj cand :: _)) =>
          match lookup "finishReason" cand with
          | Some (JArr _) | Some (JObj _) => false
          | _ => true
          end &&
          match lookup "content" cand with
          | None => true
          | Some (JObj ct) =>
              match lookup "parts" ct with
              | None => true
              | Some (JArr parts) =>
                  forallb typed_part parts &&
                  match parts with
                  | first :: _ => text_is_string first
                  | [] => true
                  end
              | Some _ => false
              end
          | Some _ => false
          end
      | Some _ => false
      end
  | _ => false
  end.

(** Token counts added, as the accumulation the spec describes would do. *)
Definition plus_tokens (a b : json) : json :=
  match a, b with
  | JInt x, JInt y => JInt (x + y)
  | _, _ => JNull
  end.

Definition add_usage (total u : RequestUsage) : RequestUsage :=
  {| prompt_tokens := plus_tokens (prompt_tokens total) (prompt_tokens u);
     completion_tokens :=
       plus_tokens (completion_tokens total) (completion_tokens u) |}.

Definition zero_usage : RequestUsage :=
  {| prompt_tokens := JInt 0; completion_tokens := JInt 0 |}.

(** The entries a message adds to [contents]: one for a user message
    and for an assistant message with text, none for the others. *)
Definition entry (m : LLMMessage) : list json :=
  match m with
  | UserMessage (inl s) _ => [role_entry "user" s]
  | UserMessage (inr parts) _ => [role_entry "user" (join_text parts)]
  | AssistantMessage (inl s) _ => [role_entry "model" s]
  | AssistantMessage (inr _) _ => []
  | SystemMessage _ => []
  | FunctionExecutionResultMessage _ => []
  end.

Definition is_system (m : LLMMessage) : bool :=
  match m with SystemMessage _ => true | _ => false end.

Definition not_system (m : LLMMessage) : bool := negb (is_system m).

(** The instruction channel for a system message's content. *)
Definition instruction (c : string) : json :=
  JObj [("parts", JArr [text_part c])].

(** The instruction after the messages, starting from [sys]. *)
Fixpoint instruction_after (sys : json) (messages : list LLMMessage) : json :=
  match messages with
  | [] => sys
  | SystemMessage c :: r => instruction_after (instruction c) r
  | _ :: r => instruction_after sys r
  end.

(** Some string inside the value holds [s]. *)
Fixpoint json_mentions (s : string) (j : json) : bool :=
  match j with
  | JStr t => is_substring s t
  | JArr l =>
      (fix any (l : list json) : bool :=
         match l with
         | [] => false
         | x :: r => json_mentions s x || any r
         end) l
  | JObj kv =>
      (fix any (kv : list (string * json)) : bool :=
         match kv with
         | [] => false
         | (_, v) :: r => json_mentions s v || any r
         end) kv
  | _ => false
  end.

End ClientVocabulary.

(** ** Concrete backends and inputs used by the examples *)

Section Examples.
Import Gemini.

(** A backend that answers the [n]-th request with the [n]-th element of
    a script, and fails to connect after the script's end. *)
Definition scripted (answers : list http_result) : Env :=
  {| backend := fun n _ _ => nth n answers ConnectionFailed;
     uuid4 := fun n => String.append "call-"
                         (String (ascii_of_nat (48 + n)) "") |}.

Definition status_only (s : Z) : http_result :=
  Responded {| status_code := s; retry_after := None;
               text := ""; body := None |}.

Definition ok_with (j : json) : http_result :=
  Responded {| status_code := 200; retry_after := None;
               text := ""; body := Some j |}.

(** A reply with one text part and usage 7 + 3. *)
Definition hello_reply : json :=
  JObj [("candidates",
         JArr [JObj [("content",
                      JObj [("parts", JArr [JObj [("text", JStr "Hello")]]);
                            ("role", JStr "model")]);
                     ("finishReason", JStr "STOP")]]);
        ("usageMetadata",
         JObj [("promptTokenCount", JInt 7);
               ("candidatesTokenCount", JInt 3)])].

(** A reply whose only part is a function call without [args]. *)
Definition call_without_args_reply : json :=
  JObj [("candidates",
         JArr [JObj [("content",
                      JObj [("parts",
                             JArr [JObj [("functionCall",
                                          JObj [("name", JStr "list_all")])]])
                           ])]])].

Definition hello_result : Gemini.CreateResult :=
  {| Gemini.content := inl "Hello";
     Gemini.usage := {| Gemini.prompt_tokens := JInt 7;
                        Gemini.completion_tokens := JInt 3 |};
     Gemini.finish_reason := Gemini.fr_stop;
     Gemini.cached := false |}.

Definition client0 : Gemini.NativeGeminiClient :=
  Gemini.__init__ "k" "gemini-2.0-flash-exp".

Definition hi : list Gemini.LLMMessage := [Gemini.UserMessage (inl "Hi") "user"].

Definition hi_payload : json :=
  JObj [("contents", JArr [Gemini.role_entry "user" "Hi"])].

(** Four throttled answers, then the reply. *)
Definition four_throttles_then_ok : Env :=
  scripted [status_only 429; status_only 429; status_only 429;
            status_only 429; ok_with hello_reply].

(** Throttled for ever after (six answers scripted; five are asked for). *)
Definition always_throttled : Env :=
  scripted [status_only 429; status_only 429; status_only 429;
            status_only 429; status_only 429; status_only 429].

(** A conversation with a tool round trip. *)
Definition tool_round_trip : list LLMMessage :=
  [UserMessage (inl "Hi") "user";
   AssistantMessage
     (inr [{| fc_id := "call-0"; fc_name := JStr "retrieve_legal_documents";
              fc_arguments := JObj [("query", JStr "land law")] |}])
     "Retriever_Agent";
   FunctionExecutionResultMessage
     [{| result_content := "12 documents found";
         result_call_id := "call-0" |}]].

(** Two system messages around a user message. *)
Definition two_system_messages : list LLMMessage :=
  [SystemMessage "first rule"; UserMessage (inl "Hi") "user";
   SystemMessage "second rule"; UserMessage (inl "More") "user"].

Definition second_rule_payload : json :=
  JObj [("contents", JArr [role_entry "user" "Hi"; role_entry "user" "More"]);
        ("system_instruction", instruction "second rule")].

(** A parameter schema as pydantic prints it for a one-argument tool. *)
Definition query_schema : json :=
  JObj [("type", JStr "object");
        ("title", JStr "retrieve_legal_documentsargs");
        ("properties",
         JObj [("query",
                JObj [("title", JStr "Query");
                      ("type", JStr "string");
                      ("description", JStr "The search query")])]);
        ("required", JArr [JStr "query"]);
        ("additionalProperties", JBool false)].

Definition query_schema_cleaned : json :=
  JObj [("type", JStr "object");
        ("properties",
         JObj [("query",
                JObj [("type", JStr "string");
                      ("description", JStr "The search query")])]);
        ("required", JArr [JStr "query"])].

(** A schema with a [strict] flag, and one with a schema inside a list. *)
Definition strict_schema : json :=
  JObj [("type", JStr "object"); ("strict", JBool true)].

Definition any_of_schema : json :=
  JObj [("anyOf",
         JArr [JObj [("title", JStr "Name"); ("type", JStr "string")];
               JObj [("type", JStr "null")]])].

End Examples.

Section SearchVocabulary.
Import RagFlow.

(** The retrieval failed in transport: no connection, an error status,
    or a body that is not JSON. *)
Definition retrieval_failed (h : http_result) : bool :=
  match h with
  | ConnectionFailed => true
  | Responded r =>
      ((400 <=? status_code r)%Z && (status_code r <? 600)%Z)
      || match body r with None => true | Some _ => false end
  end.

Definition empty_pack (query : string) : EvidencePack :=
  {| query := query; items := []; total_items := 0 |}.

(** [float(n)] on an integer: the nearest float, or nothing when the
    integer is beyond the floats. *)
Definition float_of_Z (n : Z) : option float :=
  match binary_normalize 53 1024 n 0 false with
  | S754_infinity _ | S754_nan => None
  | sf => Some (SF2Prim sf)
  end.

(** A reader of similarity scores for the examples: a JSON float is
    taken as it is, an integer as the nearest float and a boolean as 1
    or 0, which is what pydantic does with them; any other value is
    refused. A string is refused too, where pydantic reads a numeric
    one, so an example that uses this reader holds no string score. *)
Definition number_as_float (j : json) : option float :=
  match j with
  | JFloat f => Some f
  | JInt n => float_of_Z n
  | JBool true => Some 1%float
  | JBool false => Some 0%float
  | _ => None
  end.

(** A configuration for the examples. *)
Definition local_ragflow : Config :=
  {| base_url := "http://localhost/api";
     env_knowledge_ids := None;
     pydantic_float := number_as_float |}.

End SearchVocabulary.

Section WorkflowVocabulary.
Import Workflow.

(** A research team whose critic approves a finding. *)
Definition approving_team (t : Team) (task : string) : list Message :=
  match participants t with
  | ["Synthesizer_Agent"] =>
      [{| source := "user"; content := task |};
       {| source := "Synthesizer_Agent"; content := "Final brief." |}]
  | _ =>
      [{| source := "user"; content := task |};
       {| source := "Analyzer_Agent";
          content := "Article 5 of Decree 158 applies." |};
       {| source := "Critic_Agent"; content := "APPROVE" |}]
  end.

End WorkflowVocabulary.

(* ================================================================== *)
(** * Properties                                                       *)
(* ================================================================== *)

(** ** [clean_schema] *)

Section SchemaFacts.
Import Schema.

Lemma clean_schema_obj (kv : list (string * json)) :
  clean_schema (JObj kv) = JObj (clean_items kv).
Proof. reflexivity. Qed.

Lemma strip_keys_deep_obj (keys : list string) (kv : list (string * json)) :
  strip_keys_deep keys (JObj kv) = JObj (strip_items keys kv).
Proof.
  simpl. f_equal.
  induction kv as [|[k v] r IH]; simpl; [reflexivity|].
  destruct (str_in k keys); rewrite IH; reflexivity.
Qed.

Lemma arrays_scalar_obj (kv : list (string * json)) :
  arrays_scalar (JObj kv) = arrays_scalar_items kv.
Proof. reflexivity. Qed.

Lemma keys_absent_obj (keys : list string) (kv : list (string * json)) :
  keys_absent keys (JObj kv) = keys_absent_items keys kv.
Proof.
  simpl. induction kv as [|[k v] r IH]; simpl; [reflexivity|].
  rewrite IH. reflexivity.
Qed.

Lemma strip_scalar (keys : list string) (j : json) :
  scalar j = true -> strip_keys_deep keys j = j.
Proof. destruct j; simpl; intros H; try reflexivity; discriminate. Qed.

Lemma strip_scalars (keys : list string) (l : list json) :
  forallb scalar l = true -> map (strip_keys_deep keys) l = l.
Proof.
  induction l as [|x r IH]; simpl; [reflexivity|].
  intros H. apply andb_prop in H. destruct H as [Hx Hr].
  rewrite strip_scalar by assumption. rewrite IH by assumption. reflexivity.
Qed.

(** On a schema whose arrays hold scalars, the code removes exactly the
    keys of its list, in every object. *)
Lemma clean_schema_is_strip (s : json) :
  arrays_scalar s = true -> clean_schema s = strip_keys_deep rejected_keys s.
Proof.
  induction s as [| | | | |l _|kv IH] using json_ind; intros Hs;
    try reflexivity.
  - simpl in Hs. simpl. rewrite strip_scalars by assumption. reflexivity.
  - rewrite clean_schema_obj, strip_keys_deep_obj. f_equal.
    rewrite arrays_scalar_obj in Hs.
    induction IH as [|[k v] r Hv _ IHr]; [reflexivity|].
    cbn [arrays_scalar_items] in Hs.
    apply andb_prop in Hs. destruct Hs as [Hsv Hsr].
    cbn [snd] in Hv. cbn [clean_items strip_items].
    destruct (str_in k rejected_keys).
    + apply IHr, Hsr.
    + rewrite (Hv Hsv), (IHr Hsr). reflexivity.
Qed.

(** Whatever the schema, no rejected key is left in the cleaned object
    nor in any object reached from it through object values. *)
Lemma clean_schema_keys_absent (s : json) :
  keys_absent rejected_keys (clean_schema s) = true.
Proof.
  induction s as [| | | | |l _|kv IH] using json_ind; try reflexivity.
  rewrite clean_schema_obj, keys_absent_obj.
  induction IH as [|[k v] r Hv _ IHr]; [reflexivity|].
  cbn [clean_items].
  destruct (str_in k rejected_keys) eqn:Hk; [exact IHr|].
  cbn [keys_absent_items]. cbn [snd] in Hv.
  rewrite Hk, Hv, IHr. reflexivity.
Qed.

(** A falsy [parameters] is left alone by the guard of line 116, and
    cleaning would not have changed it. *)
Lemma clean_schema_falsy (p : json) :
  truthy p = false -> clean_schema p = p.
Proof. destruct p as [| | | | | |[|x r]]; simpl; intros H; try reflexivity; discriminate. Qed.

(** The declaration of a tool whose three fields are read without error
    (from attributes or from dict items) and whose name is truthy. *)
Lemma declare_tool_fields (t : Gemini.tool) (n d p : json) :
  Gemini.tool_field t "name" = Ok n ->
  Gemini.tool_field t "description" = Ok d ->
  Gemini.tool_field t "parameters" = Ok p ->
  truthy n = true ->
  Gemini.declare_tool t
  = Ok (Some (JObj [("name", n); ("description", d);
                    ("parameters", clean_schema p)])).
Proof.
  intros En Ed Ep Hn. unfold Gemini.declare_tool.
  rewrite En, Ed, Ep. cbn [obind]. rewrite Hn.
  destruct (truthy p) eqn:Hp; [reflexivity|].
  rewrite clean_schema_falsy by assumption. reflexivity.
Qed.

End SchemaFacts.

(** ** The transport step and the retry loop *)

Section TransportFacts.
Import Gemini.
Variable env : Env.
Variables (url : string) (payload : json).

Lemma delays_emit (ev : event) (w : World) :
  delays (snd (emit ev w)) =
  delays w ++ match ev with Sleep s => [s] | _ => [] end.
Proof. unfold delays. simpl. rewrite flat_map_app. simpl. rewrite app_nil_r. reflexivity. Qed.

Lemma posted_emit (ev : event) (w : World) :
  posted (snd (emit ev w)) =
  posted w ++ match ev with Post _ p => [p] | _ => [] end.
Proof. unfold posted. simpl. rewrite flat_map_app. simpl. rewrite app_nil_r. reflexivity. Qed.

Lemma yielded_emit (ev : event) (w : World) :
  yielded (snd (emit ev w)) =
  yielded w ++ match ev with Yield c => [c] | _ => [] end.
Proof. unfold yielded. simpl. rewrite flat_map_app. simpl. rewrite app_nil_r. reflexivity. Qed.

(** One call of [_make_api_request]: its result is [answer] of the
    backend's answer; it issues one request and does not sleep. *)
Lemma make_api_request_spec (w : World) :
  exists w',
    _make_api_request env url payload w = (answer (next_answer env url payload w), w') /\
    posts w' = S (posts w) /\
    uuids w' = uuids w /\
    delays w' = delays w /\
    yielded w' = yielded w /\
    posted w' = posted w ++ [payload].
Proof.
  unfold _make_api_request, requests_post, next_answer, answer, bind.
  destruct (backend env (posts w) url payload) as [|r].
  - eexists. split; [reflexivity|]. cbn [posts uuids].
    unfold delays, yielded, posted. cbn [trace].
    rewrite !flat_map_app. simpl. rewrite !app_nil_r. auto.
  - cbn [emit]. destruct (status_code r =? 429)%Z.
    + eexists. split; [reflexivity|]. cbn [posts uuids].
      unfold delays, yielded, posted. cbn [trace].
      rewrite !flat_map_app. simpl. rewrite !app_nil_r. auto.
    + unfold raise_for_status, response_json, lift, ret, obind.
      destruct ((400 <=? status_code r)%Z); cbn [emit andb];
        destruct ((status_code r <? 600)%Z); destruct (body r);
        (eexists; split; [reflexivity|]; cbn [posts uuids];
         unfold delays, yielded, posted; cbn [trace];
         rewrite !flat_map_app; simpl; rewrite !app_nil_r; auto).
Qed.

End TransportFacts.

Section RetryFacts.
Import Gemini.
Variable env : Env.
Variables (url : string) (payload : json).

Local Notation "'req'" := (_make_api_request env url payload).

Lemma advanced_trans w w1 w2 n m ds es :
  advanced payload w w1 n ds -> advanced payload w1 w2 m es ->
  advanced payload w w2 (n + m) (ds ++ es).
Proof.
  intros (P1 & D1 & U1 & Y1 & S1) (P2 & D2 & U2 & Y2 & S2).
  unfold advanced. rewrite P2, D2, U2, Y2, S2, P1, D1, U1, Y1, S1.
  rewrite repeat_app, !app_assoc. repeat split; try reflexivity. lia.
Qed.

Lemma request_advanced (w : World) :
  exists w', req w = (answer (next_answer env url payload w), w') /\
             advanced payload w w' 1 [].
Proof.
  destruct (make_api_request_spec env url payload w)
    as (w' & E & P & U & D & Y & S).
  exists w'. split; [exact E|]. unfold advanced.
  rewrite P, U, D, Y, S, app_nil_r. repeat split; try reflexivity. lia.
Qed.

Lemma answer_throttled (h : http_result) :
  throttled h = true -> exists msg, answer h = Raise (RateLimitError msg).
Proof.
  destruct h as [|r]; simpl; [discriminate|]. intros ->. eauto.
Qed.

Lemma answer_not_throttled (h : http_result) :
  throttled h = false ->
  match answer h with
  | Ok _ => True
  | Raise e => is_RateLimitError e = false
  end.
Proof.
  destruct h as [|r]; simpl; [reflexivity|]. intros ->.
  unfold raise_for_status, response_json.
  destruct ((400 <=? status_code r)%Z && (status_code r <? 600)%Z); simpl;
    [reflexivity|]. destruct (body r); simpl; auto.
Qed.

(** An attempt that is not throttled ends the loop with its own result. *)
Lemma call_settles (a fuel : nat) (w : World) :
  2 <= fuel ->
  throttled (next_answer env url payload w) = false ->
  exists w',
    Tenacity.call fuel retry_policy req (state a) w
    = Some (answer (next_answer env url payload w), w') /\
    advanced payload w w' 1 [].
Proof.
  intros Hf Ht. destruct fuel as [|[|f]]; try lia.
  destruct (request_advanced w) as (w' & E & A).
  exists w'. split; [|exact A]. unfold state.
  cbn [Tenacity.call Tenacity.iter Tenacity.last_outcome]. rewrite E.
  cbn [Tenacity.iter Tenacity.last_outcome Tenacity.attempt_number].
  pose proof (answer_not_throttled _ Ht) as Hn.
  destruct (answer (next_answer env url payload w)) as [j|e]; [reflexivity|].
  cbn [Tenacity.retry retry_policy]. rewrite Hn. reflexivity.
Qed.

(** A throttled attempt before the fifth: the loop sleeps
    [wait attempt_number] and goes on with the next attempt. *)
Lemma call_backs_off (a fuel : nat) (w : World) :
  a < 5 ->
  throttled (next_answer env url payload w) = true ->
  exists w',
    Tenacity.call (S (S fuel)) retry_policy req (state a) w
    = Tenacity.call fuel retry_policy req (state (S a)) w' /\
    advanced payload w w' 1 [Tenacity.wait_exponential 2 2 60 a].
Proof.
  intros Ha Ht.
  destruct (request_advanced w) as (w1 & E & A).
  destruct (answer_throttled _ Ht) as (msg & Hmsg). rewrite Hmsg in E.
  eexists. split.
  - unfold state.
    cbn [Tenacity.call Tenacity.iter Tenacity.last_outcome]. rewrite E.
    cbn [Tenacity.iter Tenacity.last_outcome Tenacity.attempt_number
         Tenacity.retry Tenacity.stop Tenacity.wait Tenacity.before_sleep
         retry_policy is_RateLimitError negb].
    unfold Tenacity.stop_after_attempt.
    replace (Nat.leb 5 a) with false by (symmetry; apply Nat.leb_gt; lia).
    cbn [emit snd]. reflexivity.
  - eapply (advanced_trans w w1 _ 1 0 [] [_]); [exact A|].
    unfold advanced. cbn [posts uuids].
    unfold delays, yielded, posted. cbn [trace].
    rewrite !flat_map_app. simpl. rewrite !app_nil_r.
    repeat split; try reflexivity. lia.
Qed.

(** A throttled fifth attempt ends the loop with [RetryError]: no sleep,
    no further request. *)
Lemma call_gives_up (a fuel : nat) (w : World) :
  5 <= a -> 2 <= fuel ->
  throttled (next_answer env url payload w) = true ->
  exists msg w',
    Tenacity.call fuel retry_policy req (state a) w
    = Some (Raise (RetryError (RateLimitError msg)), w') /\
    advanced payload w w' 1 [].
Proof.
  intros Ha Hf Ht. destruct fuel as [|[|f]]; try lia.
  destruct (request_advanced w) as (w1 & E & A).
  destruct (answer_throttled _ Ht) as (msg & Hmsg). rewrite Hmsg in E.
  exists msg, w1. split; [|exact A]. unfold state.
  cbn [Tenacity.call Tenacity.iter Tenacity.last_outcome]. rewrite E.
  cbn [Tenacity.iter Tenacity.last_outcome Tenacity.attempt_number
       Tenacity.retry Tenacity.stop retry_policy is_RateLimitError negb].
  unfold Tenacity.stop_after_attempt.
  replace (Nat.leb 5 a) with true by (symmetry; apply Nat.leb_le; lia).
  reflexivity.
Qed.

End RetryFacts.

Section RetryPolicy.
Import Gemini.
Variable env : Env.
Variables (url : string) (payload : json).

Local Notation "'req'" := (_make_api_request env url payload).
Local Notation "'wait'" := (Tenacity.wait_exponential 2 2 60).

(** [k] throttled attempts from attempt number [a], then one that is not
    throttled: its result is returned, after the [k] sleeps. *)
Lemma call_after_throttles (k : nat) :
  forall (a fuel : nat) (w : World),
    a + k <= 5 ->
    2 * k + 2 <= fuel ->
    (forall i, i < k ->
               throttled (backend env (posts w + i) url payload) = true) ->
    throttled (backend env (posts w + k) url payload) = false ->
    exists w',
      Tenacity.call fuel retry_policy req (state a) w
      = Some (answer (backend env (posts w + k) url payload), w') /\
      advanced payload w w' (k + 1) (map wait (seq a k)).
Proof.
  induction k as [|k IH]; intros a fuel w Ha Hf Hthr Hlast.
  - rewrite Nat.add_0_r in *.
    apply (call_settles env url payload a fuel w); [lia | exact Hlast].
  - destruct fuel as [|[|fuel]]; try lia.
    destruct (call_backs_off env url payload a fuel w) as (w1 & E & A1).
    + lia.
    + unfold next_answer. rewrite <- (Nat.add_0_r (posts w)).
      apply Hthr. lia.
    + assert (P1 : posts w1 = posts w + 1) by apply A1.
      destruct (IH (S a) fuel w1) as (w' & E' & A2).
      * lia.
      * lia.
      * intros i Hi. rewrite P1.
        replace (posts w + 1 + i) with (posts w + S i) by lia.
        apply Hthr. lia.
      * rewrite P1. replace (posts w + 1 + k) with (posts w + S k) by lia.
        exact Hlast.
      * exists w'. split.
        -- rewrite E, E', P1.
           replace (posts w + 1 + k) with (posts w + S k) by lia.
           reflexivity.
        -- replace (S k + 1) with (1 + (k + 1)) by lia.
           cbn [seq map].
           apply (advanced_trans payload w w1 w' 1 (k + 1) [wait a]);
             assumption.
Qed.

(** The attempts from number [a] to the fifth all throttled: the loop
    ends with [RetryError] after the fifth, having slept between
    attempts only. *)
Lemma call_exhausted (k : nat) :
  forall (a fuel : nat) (w : World),
    a + k = 5 ->
    2 * k + 2 <= fuel ->
    (forall i, i <= k ->
               throttled (backend env (posts w + i) url payload) = true) ->
    exists msg w',
      Tenacity.call fuel retry_policy req (state a) w
      = Some (Raise (RetryError (RateLimitError msg)), w') /\
      advanced payload w w' (k + 1) (map wait (seq a k)).
Proof.
  induction k as [|k IH]; intros a fuel w Ha Hf Hthr.
  - apply (call_gives_up env url payload a fuel w); [lia | lia |].
    unfold next_answer. rewrite <- (Nat.add_0_r (posts w)). apply Hthr. lia.
  - destruct fuel as [|[|fuel]]; try lia.
    destruct (call_backs_off env url payload a fuel w) as (w1 & E & A1).
    + lia.
    + unfold next_answer. rewrite <- (Nat.add_0_r (posts w)).
      apply Hthr. lia.
    + assert (P1 : posts w1 = posts w + 1) by apply A1.
      destruct (IH (S a) fuel w1) as (msg & w' & E' & A2).
      * lia.
      * lia.
      * intros i Hi. rewrite P1.
        replace (posts w + 1 + i) with (posts w + S i) by lia.
        apply Hthr. lia.
      * exists msg, w'. split.
        -- rewrite E, E'. reflexivity.
        -- replace (S k + 1) with (1 + (k + 1)) by lia.
           cbn [seq map].
           apply (advanced_trans payload w w1 w' 1 (k + 1) [wait a]);
             assumption.
Qed.

(** The wait of the policy is the capped doubling the spec writes. *)
Lemma wait_is_capped_doubling (N : nat) :
  1 <= N -> wait N = Z.min 60 (2 * 2 ^ (Z.of_nat N - 1)).
Proof.
  intros HN. unfold Tenacity.wait_exponential.
  assert (0 < 2 ^ (Z.of_nat N - 1))%Z by (apply Z.pow_pos_nonneg; lia).
  lia.
Qed.

Lemma waits_are_capped_doublings (a k : nat) :
  1 <= a ->
  map wait (seq a k)
  = map (fun N => Z.min 60 (2 * 2 ^ (Z.of_nat N - 1)))%Z (seq a k).
Proof.
  intros Ha. apply map_ext_in. intros N HN. apply in_seq in HN.
  apply wait_is_capped_doubling. lia.
Qed.

(** A response below 400 with a JSON body is a success with that body. *)
Lemma answer_success (r : response) (j : json) :
  (status_code r < 400)%Z -> body r = Some j ->
  answer (Responded r) = Ok j.
Proof.
  intros Hs Hb. unfold answer, raise_for_status, response_json.
  replace (status_code r =? 429)%Z with false by (symmetry; apply Z.eqb_neq; lia).
  replace (400 <=? status_code r)%Z with false by (symmetry; apply Z.leb_gt; lia).
  rewrite Hb. reflexivity.
Qed.

End RetryPolicy.

Section WithRetry.
Import Gemini.
Variable env : Env.
Variables (url : string) (payload : json).

Lemma with_retry_settles (fuel k : nat) (w : World) :
  10 <= fuel -> k <= 4 ->
  (forall i, i < k ->
             throttled (backend env (posts w + i) url payload) = true) ->
  throttled (backend env (posts w + k) url payload) = false ->
  exists w',
    _make_api_request_with_retry fuel env url payload w
    = Some (answer (backend env (posts w + k) url payload), w') /\
    advanced payload w w' (k + 1) (map backoff (seq 1 k)).
Proof.
  intros Hf Hk Hthr Hlast.
  destruct (call_after_throttles env url payload k 1 fuel w)
    as (w' & E & A); try assumption; try lia.
  exists w'. split; [exact E|].
  rewrite waits_are_capped_doublings in A by lia. exact A.
Qed.

Lemma with_retry_exhausted (fuel : nat) (w : World) :
  10 <= fuel ->
  (forall i, i < 5 ->
             throttled (backend env (posts w + i) url payload) = true) ->
  exists msg w',
    _make_api_request_with_retry fuel env url payload w
    = Some (Raise (RetryError (RateLimitError msg)), w') /\
    advanced payload w w' 5 [2; 4; 8; 16]%Z.
Proof.
  intros Hf Hthr.
  destruct (call_exhausted env url payload 4 1 fuel w)
    as (msg & w' & E & A); try lia.
  - intros i Hi. apply Hthr. lia.
  - exists msg, w'. split; [exact E | exact A].
Qed.

(** With fuel for five attempts the loop always ends. *)
Lemma with_retry_total (fuel : nat) (w : World) :
  10 <= fuel ->
  exists r w' n ds,
    _make_api_request_with_retry fuel env url payload w = Some (r, w') /\
    advanced payload w w' n ds /\ 1 <= n <= 5.
Proof.
  intros Hf.
  assert (H : forall k, k <= 5 ->
            (forall i, i < k ->
               throttled (backend env (posts w + i) url payload) = true) ->
            exists r w' n ds,
              _make_api_request_with_retry fuel env url payload w
              = Some (r, w') /\ advanced payload w w' n ds /\ 1 <= n <= 5).
  { intros k. remember (5 - k) as d eqn:Hd. revert k Hd.
    induction d as [|d IH]; intros k Hd Hk Hthr.
    - assert (k = 5) by lia. subst k.
      destruct (with_retry_exhausted fuel w Hf Hthr) as (msg & w' & E & A).
      exists (Raise (RetryError (RateLimitError msg))), w', 5, [2; 4; 8; 16]%Z.
      split; [exact E|]. split; [exact A|]. lia.
    - destruct (throttled (backend env (posts w + k) url payload)) eqn:Hlast.
      + apply (IH (S k)); try lia.
        intros i Hi. destruct (Nat.eq_dec i k) as [->|]; [exact Hlast|].
        apply Hthr. lia.
      + destruct (with_retry_settles fuel k w) as (w' & E & A);
          try assumption; try lia.
        eexists _, w', (k + 1), _.
        split; [exact E|]. split; [exact A|]. lia. }
  apply (H 0); [lia|]. intros i Hi. lia.
Qed.

End WithRetry.

(** ** Statements that neither talk to the backend nor sleep *)

Section Quiet.
Import Gemini.

Lemma quiet_ret {A : Type} (a : A) : quiet (ret a).
Proof. intros w. simpl. auto. Qed.

Lemma quiet_raise {A : Type} (e : pyexn) :
  is_RequestException e = false -> quiet (@raise A e).
Proof. intros H w. simpl. auto. Qed.

Lemma quiet_lift {A : Type} (x : outcome A) :
  no_request_error x -> quiet (lift x).
Proof. intros H w. simpl. auto. Qed.

Lemma quiet_bind {A B : Type} (c : M A) (f : A -> M B) :
  quiet c -> (forall a, quiet (f a)) -> quiet (bind c f).
Proof.
  intros Hc Hf w. unfold bind.
  destruct (Hc w) as (E & P & D & S & Y).
  destruct (c w) as [[a|e] w1]; cbn [fst snd] in *.
  - destruct (Hf a w1) as (E' & P' & D' & S' & Y').
    rewrite P', D', S', Y'. auto.
  - auto.
Qed.

Lemma quiet_try_except {A : Type} (c : M A) (handles : pyexn -> bool)
  (handler : pyexn -> M A) :
  quiet c -> (forall e, quiet (handler e)) ->
  quiet (try_except c handles handler).
Proof.
  intros Hc Hh w. unfold try_except.
  destruct (Hc w) as (E & P & D & S & Y).
  destruct (c w) as [[a|e] w1]; cbn [fst snd] in *; [auto|].
  destruct (handles e); cbn [fst snd]; [|auto].
  destruct (Hh e w1) as (E' & P' & D' & S' & Y').
  rewrite P', D', S', Y'. auto.
Qed.

Lemma quiet_log (l : log_line) : quiet (emit (Log l)).
Proof.
  intros w. rewrite delays_emit, posted_emit, yielded_emit.
  rewrite !app_nil_r. simpl. auto.
Qed.

Lemma quiet_draw_uuid (env : Env) : quiet (draw_uuid env).
Proof. intros w. simpl. auto. Qed.

Lemma getitem_quiet k j : no_request_error (getitem k j).
Proof. destruct j; simpl; auto. destruct (lookup k fields); simpl; auto. Qed.

Lemma getitem0_quiet j : no_request_error (getitem0 j).
Proof. destruct j as [| | | |[|a s]|[|x l]|kv]; simpl; auto. Qed.

Lemma contains_quiet k j : no_request_error (contains k j).
Proof. destruct j; simpl; auto. Qed.

Lemma py_iter_quiet j : no_request_error (py_iter j).
Proof. destruct j; simpl; auto. Qed.

Lemma dict_get_quiet k d j : no_request_error (dict_get k d j).
Proof. destruct j; simpl; auto. Qed.

Lemma map_finish_reason_quiet j : no_request_error (map_finish_reason j).
Proof. destruct j; simpl; auto. Qed.

Lemma validate_content_quiet j : no_request_error (validate_content j).
Proof.
  destruct j; simpl; auto. destruct (as_function_calls items); simpl; auto.
Qed.

Lemma quiet_if {A : Type} (b : bool) (c1 c2 : M A) :
  quiet c1 -> quiet c2 -> quiet (if b then c1 else c2).
Proof. destruct b; auto. Qed.

Create HintDb quiet.
#[local] Hint Resolve quiet_ret quiet_lift quiet_log quiet_draw_uuid quiet_if
  getitem_quiet getitem0_quiet contains_quiet py_iter_quiet dict_get_quiet
  map_finish_reason_quiet validate_content_quiet : quiet.

Ltac quiet_steps :=
  repeat first
    [ apply quiet_bind; [solve [auto with quiet] | intros]
    | solve [auto with quiet] ].

Lemma collect_tool_calls_quiet (env : Env) (parts : list json) :
  forall acc, quiet (collect_tool_calls env parts acc).
Proof.
  induction parts as [|part rest IH]; intros acc; cbn [collect_tool_calls].
  - apply quiet_ret.
  - apply quiet_bind; [auto with quiet|]. intros [|]; [|apply IH].
    quiet_steps.
Qed.

Lemma parse_response_quiet (env : Env) (data : json) :
  quiet (parse_response env data).
Proof.
  unfold parse_response.
  pose proof (collect_tool_calls_quiet env) as Hcalls.
  quiet_steps.
Qed.

Lemma parse_or_ValueError_quiet (env : Env) (data : json) :
  quiet (parse_or_ValueError env data).
Proof.
  unfold parse_or_ValueError. apply quiet_try_except.
  - apply parse_response_quiet.
  - intros e. apply quiet_bind; [apply quiet_log|]. intros _.
    apply quiet_raise. reflexivity.
Qed.

End Quiet.

(** ** [create], case by case *)

Section CreateFacts.
Import Gemini.
Variable env : Env.

Lemma announced_same (self : NativeGeminiClient) (w : World) :
  posts (announced self w) = posts w /\
  delays (announced self w) = delays w /\
  posted (announced self w) = posted w /\
  yielded (announced self w) = yielded w.
Proof.
  unfold announced. rewrite delays_emit, posted_emit, yielded_emit.
  rewrite !app_nil_r. simpl. auto.
Qed.

Lemma create_cases (fuel : nat) (self : NativeGeminiClient)
  (messages : list LLMMessage) (tools : option (list tool))
  (payload : json) (w : World) :
  build_payload messages tools = Ok payload ->
  create fuel env self messages tools w =
  match _make_api_request_with_retry fuel env (request_url self) payload
          (announced self w) with
  | None => None
  | Some (Ok data, w1) =>
      Some (fst (parse_or_ValueError env data w1), self,
            snd (parse_or_ValueError env data w1))
  | Some (Raise e, w1) =>
      Some (Raise e, self,
            if is_RequestException e
            then snd (emit (Log (RequestError e)) w1) else w1)
  end.
Proof.
  intros Hp. unfold create, send_and_parse, bindF, liftF, try_exceptF.
  rewrite Hp. unfold announced. cbn [emit snd].
  destruct (_make_api_request_with_retry fuel env (request_url self) payload _)
    as [[[data|e] w1]|]; [| |reflexivity].
  - destruct (parse_or_ValueError_quiet env data w1) as (Hq & _).
    destruct (parse_or_ValueError env data w1) as [[r|e] w2];
      cbn [fst snd] in *; [reflexivity|].
    rewrite Hq. reflexivity.
  - destruct (is_RequestException e); reflexivity.
Qed.

(** [create] never assigns to its client. *)
Lemma create_keeps_self (fuel : nat) (self self' : NativeGeminiClient)
  (messages : list LLMMessage) (tools : option (list tool))
  (w w' : World) (r : outcome CreateResult) :
  create fuel env self messages tools w = Some (r, self', w') ->
  self' = self.
Proof.
  unfold create. destruct (build_payload messages tools) as [payload|e].
  - destruct (send_and_parse fuel env self payload w) as [[r0 w0]|];
      [|discriminate]. intros H. injection H as _ H _. now symmetry.
  - intros H. injection H as _ H _. now symmetry.
Qed.

(** With fuel for five attempts [create] always returns or raises. *)
Lemma create_total (fuel : nat) (self : NativeGeminiClient)
  (messages : list LLMMessage) (tools : option (list tool)) (w : World) :
  10 <= fuel ->
  exists r w', create fuel env self messages tools w = Some (r, self, w').
Proof.
  intros Hf. destruct (build_payload messages tools) as [payload|e] eqn:Hp.
  - rewrite (create_cases fuel self messages tools payload w Hp).
    destruct (with_retry_total env (request_url self) payload fuel
                (announced self w) Hf) as (r & w1 & n & ds & E & _).
    rewrite E. destruct r as [data|e]; eauto.
  - unfold create. rewrite Hp. eauto.
Qed.

End CreateFacts.

(** ** C1: the retry policy *)

Section RetryClaim.
Import Gemini.

(** C1. A call of [create] whose transport step is throttled is retried:
    when the first [k <= 4] attempts are throttled and attempt [k+1] is
    answered with a success carrying [data], [create] returns what parsing
    [data] gives, after exactly [k+1] requests and the sleeps
    [min(60, 2 * 2^(N-1))] for [N = 1..k] in order; when five attempts are
    throttled, [create] raises tenacity's [RetryError] around the last
    rate-limit error (a [BackendError]) after exactly five requests and
    the sleeps 2, 4, 8, 16: there is no sixth attempt. *)
Theorem C1_create_retries_rate_limits (fuel : nat) (env : Env)
  (self : NativeGeminiClient) (messages : list LLMMessage)
  (tools : option (list tool)) (payload : json) (w : World) :
  10 <= fuel ->
  build_payload messages tools = Ok payload ->
  (forall k r data,
      k <= 4 ->
      (forall i, i < k ->
         throttled (backend env (posts w + i) (request_url self) payload)
         = true) ->
      backend env (posts w + k) (request_url self) payload = Responded r ->
      (status_code r < 400)%Z ->
      body r = Some data ->
      exists w1 res w',
        parse_or_ValueError env data w1 = (res, w') /\
        create fuel env self messages tools w = Some (res, self, w') /\
        posts w' = posts w + (k + 1) /\
        delays w' = delays w ++ map backoff (seq 1 k))
  /\
  ((forall i, i < 5 ->
      throttled (backend env (posts w + i) (request_url self) payload) = true) ->
   exists msg w',
     create fuel env self messages tools w
     = Some (Raise (RetryError (RateLimitError msg)), self, w') /\
     kind_of (RetryError (RateLimitError msg)) = BackendError /\
     posts w' = posts w + 5 /\
     delays w' = delays w ++ [2; 4; 8; 16]%Z).
Proof.
  intros Hf Hp.
  destruct (announced_same self w) as (P0 & D0 & _ & _).
  split.
  - intros k r data Hk Hthr Hr Hs Hb.
    assert (Ht : forall i, i < k ->
              throttled (backend env (posts (announced self w) + i)
                           (request_url self) payload) = true)
      by (intros i Hi; rewrite P0; apply Hthr, Hi).
    assert (Hl : throttled (backend env (posts (announced self w) + k)
                              (request_url self) payload) = false)
      by (rewrite P0, Hr; apply Z.eqb_neq; lia).
    destruct (with_retry_settles env (request_url self) payload fuel k
                (announced self w) Hf Hk Ht Hl) as (w1 & E & A).
    rewrite P0, Hr, (answer_success r data Hs Hb) in E.
    destruct A as (P1 & D1 & _).
    destruct (parse_or_ValueError_quiet env data w1) as (_ & P2 & D2 & _).
    exists w1, (fst (parse_or_ValueError env data w1)),
      (snd (parse_or_ValueError env data w1)).
    split; [apply surjective_pairing|].
    split; [rewrite (create_cases env fuel self messages tools payload w Hp), E;
            reflexivity|].
    rewrite P2, D2, P1, D1, P0, D0. auto.
  - intros Hthr.
    assert (Ht : forall i, i < 5 ->
              throttled (backend env (posts (announced self w) + i)
                           (request_url self) payload) = true)
      by (intros i Hi; rewrite P0; apply Hthr, Hi).
    destruct (with_retry_exhausted env (request_url self) payload fuel
                (announced self w) Hf Ht) as (msg & w1 & E & A).
    exists msg, w1.
    rewrite (create_cases env fuel self messages tools payload w Hp), E.
    destruct A as (P1 & D1 & _).
    cbn [is_RequestException]. rewrite P1, D1, P0, D0. auto.
Qed.

(** C1 on two scripts: four throttles then a reply, and five throttles. *)
Lemma C1_four_then_success_five_then_failure :
  (exists w',
     create 10 four_throttles_then_ok client0 hi None world0
     = Some (Ok hello_result, client0, w') /\
     posts w' = 5 /\ delays w' = [2; 4; 8; 16]%Z)
  /\
  (exists msg w',
     create 10 always_throttled client0 hi None world0
     = Some (Raise (RetryError (RateLimitError msg)), client0, w') /\
     posts w' = 5 /\ delays w' = [2; 4; 8; 16]%Z).
Proof.
  split.
  - destruct (C1_create_retries_rate_limits 10 four_throttles_then_ok client0
                hi None hi_payload world0 (le_n 10) eq_refl) as [H _].
    destruct (H 4 _ hello_reply (le_n 4)
                ltac:(intros [|[|[|[|i]]]] Hi; [reflexivity..|lia])
                eq_refl ltac:(simpl; lia) eq_refl)
      as (w1 & res & w' & Eparse & Ecreate & P & D).
    exists w'. rewrite Ecreate.
    assert (res = Ok hello_result) as ->; [|auto].
    revert Eparse. unfold parse_or_ValueError, try_except.
    vm_compute. intros Eparse. injection Eparse as <- _. reflexivity.
  - destruct (C1_create_retries_rate_limits 10 always_throttled client0
                hi None hi_payload world0 (le_n 10) eq_refl) as [_ H].
    destruct (H ltac:(intros [|[|[|[|[|i]]]]] Hi; [reflexivity..|lia]))
      as (msg & w' & E & _ & P & D).
    exists msg, w'. auto.
Defined.

End RetryClaim.

(** ** C2: throttling is signalled, other error statuses are not retried *)

Section TransportClaim.
Import Gemini.

(** After [k <= 4] throttled attempts, an attempt that raises anything
    but a rate-limit error ends [create] with that exception, after
    [k + 1] requests and the [k] sleeps of the throttled attempts. *)
Lemma create_raises_after_throttles (fuel : nat) (env : Env)
  (self : NativeGeminiClient) (messages : list LLMMessage)
  (tools : option (list tool)) (payload : json) (w : World)
  (k : nat) (e : pyexn) :
  10 <= fuel ->
  build_payload messages tools = Ok payload ->
  k <= 4 ->
  (forall i, i < k ->
     throttled (backend env (posts w + i) (request_url self) payload) = true) ->
  throttled (backend env (posts w + k) (request_url self) payload) = false ->
  answer (backend env (posts w + k) (request_url self) payload) = Raise e ->
  exists w',
    create fuel env self messages tools w = Some (Raise e, self, w') /\
    posts w' = posts w + (k + 1) /\
    delays w' = delays w ++ map backoff (seq 1 k).
Proof.
  intros Hf Hp Hk Hthr Hlast Ha.
  destruct (announced_same self w) as (P0 & D0 & _ & _).
  assert (Ht : forall i, i < k ->
            throttled (backend env (posts (announced self w) + i)
                         (request_url self) payload) = true)
    by (intros i Hi; rewrite P0; apply Hthr, Hi).
  assert (Hl : throttled (backend env (posts (announced self w) + k)
                            (request_url self) payload) = false)
    by (rewrite P0; exact Hlast).
  destruct (with_retry_settles env (request_url self) payload fuel k
              (announced self w) Hf Hk Ht Hl) as (w1 & E & A).
  rewrite P0, Ha in E. destruct A as (P1 & D1 & _).
  eexists. rewrite (create_cases env fuel self messages tools payload w Hp), E.
  split; [reflexivity|].
  destruct (is_RequestException e).
  - rewrite delays_emit, app_nil_r. cbn [emit snd posts].
    rewrite P1, D1, P0, D0. auto.
  - rewrite P1, D1, P0, D0. auto.
Qed.

(** C2. A backend answer with status 429 makes the transport step raise
    [RateLimitError] whatever the body holds: it returns no data. Any
    other error status (400..599), on the first attempt or after
    throttled ones, makes [create] raise the [requests] error of
    [raise_for_status] (a [BackendError]) at once: that request is the
    last, and no sleep follows it. A failed connection does the same. *)
Theorem C2_throttle_signalled_errors_propagate (fuel : nat) (env : Env)
  (self : NativeGeminiClient) (messages : list LLMMessage)
  (tools : option (list tool)) (payload : json) (w : World) :
  10 <= fuel ->
  build_payload messages tools = Ok payload ->
  (forall r,
     backend env (posts w) (request_url self) payload = Responded r ->
     status_code r = 429%Z ->
     exists msg w',
       _make_api_request env (request_url self) payload w
       = (Raise (RateLimitError msg), w') /\
       kind_of (RateLimitError msg) = RateLimitSignal)
  /\
  (forall k r,
     k <= 4 ->
     (forall i, i < k ->
        throttled (backend env (posts w + i) (request_url self) payload)
        = true) ->
     backend env (posts w + k) (request_url self) payload = Responded r ->
     (400 <= status_code r < 600)%Z -> status_code r <> 429%Z ->
     exists w',
       create fuel env self messages tools w
       = Some (Raise (RequestException (HTTPError (status_code r))), self, w')
       /\
       kind_of (RequestException (HTTPError (status_code r))) = BackendError /\
       posts w' = posts w + (k + 1) /\
       delays w' = delays w ++ map backoff (seq 1 k))
  /\
  (forall k,
     k <= 4 ->
     (forall i, i < k ->
        throttled (backend env (posts w + i) (request_url self) payload)
        = true) ->
     backend env (posts w + k) (request_url self) payload = ConnectionFailed ->
     exists w',
       create fuel env self messages tools w
       = Some (Raise (RequestException ConnectionError), self, w') /\
       posts w' = posts w + (k + 1) /\
       delays w' = delays w ++ map backoff (seq 1 k)).
Proof.
  intros Hf Hp. split; [|split].
  - intros r Hr Hs.
    destruct (make_api_request_spec env (request_url self) payload w)
      as (w' & E & _).
    unfold next_answer in E. rewrite Hr in E. unfold answer in E.
    rewrite Hs in E. cbn [Z.eqb Pos.eqb] in E. eauto.
  - intros k r Hk Hthr Hr Hs Hn.
    assert (Ha : answer (Responded r)
                 = Raise (RequestException (HTTPError (status_code r)))).
    { unfold answer, raise_for_status.
      replace (status_code r =? 429)%Z with false
        by (symmetry; apply Z.eqb_neq; exact Hn).
      replace (400 <=? status_code r)%Z with true
        by (symmetry; apply Z.leb_le; lia).
      replace (status_code r <? 600)%Z with true
        by (symmetry; apply Z.ltb_lt; lia).
      reflexivity. }
    destruct (create_raises_after_throttles fuel env self messages tools
                payload w k (RequestException (HTTPError (status_code r)))
                Hf Hp Hk Hthr) as (w' & E & P & D).
    + rewrite Hr. apply Z.eqb_neq. exact Hn.
    + rewrite Hr. exact Ha.
    + exists w'. auto.
  - intros k Hk Hthr Hr.
    destruct (create_raises_after_throttles fuel env self messages tools
                payload w k (RequestException ConnectionError)
                Hf Hp Hk Hthr) as (w' & E & P & D).
    + rewrite Hr. reflexivity.
    + rewrite Hr. reflexivity.
    + exists w'. auto.
Qed.

(** C2 on three backends: one answers 429 with a well-formed body, one
    answers 503 at once, one answers 429 and then 500. *)
Lemma C2_on_429_and_503 :
  (exists msg w',
     _make_api_request (scripted [Responded {| status_code := 429;
                                               retry_after := Some "7";
                                               text := "";
                                               body := Some hello_reply |}])
       (request_url client0) hi_payload world0
     = (Raise (RateLimitError msg), w'))
  /\
  (exists w',
     create 10 (scripted [status_only 503; ok_with hello_reply]) client0 hi
       None world0
     = Some (Raise (RequestException (HTTPError 503)), client0, w') /\
     posts w' = 1 /\ delays w' = [])
  /\
  (exists w',
     create 10 (scripted [status_only 429; status_only 500;
                          ok_with hello_reply]) client0 hi None world0
     = Some (Raise (RequestException (HTTPError 500)), client0, w') /\
     posts w' = 2 /\ delays w' = [2%Z]).
Proof.
  split; [|split].
  - destruct (C2_throttle_signalled_errors_propagate 10
                (scripted [Responded {| status_code := 429;
                                        retry_after := Some "7";
                                        text := "";
                                        body := Some hello_reply |}])
                client0 hi None hi_payload world0
                (le_n 10) eq_refl) as [H _].
    destruct (H _ eq_refl eq_refl) as (msg & w' & E & _). eauto.
  - destruct (C2_throttle_signalled_errors_propagate 10
                (scripted [status_only 503; ok_with hello_reply])
                client0 hi None hi_payload world0
                (le_n 10) eq_refl) as (_ & H & _).
    destruct (H 0 _ ltac:(lia) ltac:(intros i Hi; lia) eq_refl
                ltac:(simpl; lia) ltac:(simpl; lia))
      as (w' & E & _ & P & D).
    eauto.
  - destruct (C2_throttle_signalled_errors_propagate 10
                (scripted [status_only 429; status_only 500;
                           ok_with hello_reply])
                client0 hi None hi_payload world0
                (le_n 10) eq_refl) as (_ & H & _).
    destruct (H 1 _ ltac:(lia)
                ltac:(intros [|i] Hi; [reflexivity|lia]) eq_refl
                ltac:(simpl; lia) ltac:(simpl; lia))
      as (w' & E & _ & P & D).
    eauto.
Defined.

End TransportClaim.

(** ** C6: parsing the success payload *)

Section ParseFacts.
Import Gemini.
Variable env : Env.

Lemma parse_response_missing (data : json) (e : pyexn) (w : World) :
  missing data = Some e -> parse_response env data w = (Raise e, w).
Proof.
  unfold missing, parse_response, bind, lift, getitem, getitem0.
  destruct data as [| | | | | |top]; try discriminate.
  destruct (lookup "candidates" top) as [[| | | | |[|[| | | | | |cand] cs]|]|];
    try discriminate; try (intros [= <-]; reflexivity).
  destruct (lookup "content" cand) as [[| | | | | |ct]|];
    try discriminate; try (intros [= <-]; reflexivity).
  destruct (lookup "parts" ct) as [[| | | | |[|p ps]|]|];
    try discriminate; try (intros [= <-]; reflexivity).
Qed.

Lemma missing_is_KeyError_or_IndexError (data : json) (e : pyexn) :
  missing data = Some e -> is_KeyError_or_IndexError e = true.
Proof.
  unfold missing.
  destruct data as [| | | | | |top]; try discriminate.
  destruct (lookup "candidates" top) as [[| | | | |[|[| | | | | |cand] cs]|]|];
    try discriminate; try (intros [= <-]; reflexivity).
  destruct (lookup "content" cand) as [[| | | | | |ct]|];
    try discriminate; try (intros [= <-]; reflexivity).
  destruct (lookup "parts" ct) as [[| | | | |[|p ps]|]|];
    try discriminate; try (intros [= <-]; reflexivity).
Qed.

(** A payload with a missing field: the handler logs the payload and
    raises [ValueError] with the text of the failed subscript. *)
Lemma parse_or_ValueError_missing (data : json) (e : pyexn) (w : World) :
  missing data = Some e ->
  parse_or_ValueError env data w
  = (Raise (ValueError ("Invalid response format from Gemini: " ++ str_exn e)),
     snd (emit (Log (FailedToParse data)) w)).
Proof.
  intros H. unfold parse_or_ValueError, try_except.
  rewrite (parse_response_missing data e w H).
  rewrite (missing_is_KeyError_or_IndexError data e H). reflexivity.
Qed.

End ParseFacts.

Section WellFormed.
Import Gemini.
Variable env : Env.

Lemma collect_tool_calls_ok (parts : list json) :
  forallb well_formed_part parts = true ->
  forall acc w, exists calls w',
      collect_tool_calls env parts acc w = (Ok calls, w').
Proof.
  induction parts as [|part rest IH]; intros Hwf acc w.
  - eexists _, _. reflexivity.
  - cbn [forallb] in Hwf. apply andb_prop in Hwf. destruct Hwf as [Hp Hr].
    destruct part as [| | | | | |kv]; try discriminate.
    cbn [collect_tool_calls]. unfold bind, lift, contains, has_key.
    unfold well_formed_part in Hp.
    destruct (lookup "functionCall" kv) as [fc|] eqn:Hfc.
    + destruct fc as [| | | | | |fkv]; try discriminate.
      apply andb_prop in Hp. destruct Hp as [Hn Ha].
      unfold has_key in Hn, Ha. unfold getitem. rewrite Hfc.
      destruct (lookup "name" fkv); [|discriminate].
      destruct (lookup "args" fkv); [|discriminate].
      cbn [draw_uuid]. apply IH, Hr.
    + apply IH, Hr.
Qed.

(** On a well-formed payload the parser returns a [CreateResult]. *)
Lemma parse_response_well_formed (data : json) (w : World) :
  well_formed data = true ->
  exists res w', parse_response env data w = (Ok res, w').
Proof.
  unfold well_formed.
  destruct data as [| | | | | |top]; try discriminate.
  destruct (lookup "candidates" top)
    as [[| | | | |[|[| | | | | |cand] cs]|]|] eqn:Hc; try discriminate.
  destruct (lookup "content" cand) as [[| | | | | |ct]|] eqn:Hct;
    try discriminate.
  destruct (lookup "parts" ct) as [[| | | | |[|first rest]|]|] eqn:Hps;
    try discriminate.
  intros H. apply andb_prop in H. destruct H as [H Hu].
  apply andb_prop in H. destruct H as [H Hf].
  apply andb_prop in H. destruct H as [Ht Hparts].
  destruct first as [| | | | | |fkv]; try discriminate.
  unfold text_is_string in Ht.
  destruct (collect_tool_calls_ok _ Hparts [] w) as (calls & w' & Hcalls).
  assert (Hfin : exists fr,
             map_finish_reason
               match lookup "finishReason" cand with
               | Some v => v
               | None => JStr "STOP"
               end = Ok fr).
  { destruct (lookup "finishReason" cand) as [[| | | | | |]|];
      try discriminate; simpl; eauto. }
  destruct Hfin as (fr & Hfin).
  unfold parse_response, bind, lift, ret, getitem, getitem0, contains,
    has_key, py_iter, dict_get.
  rewrite Hc. cbn beta iota. rewrite Hct. cbn beta iota.
  rewrite Hps. cbn beta iota.
  destruct (lookup "text" fkv) as [[| | | |s| |]|] eqn:Htext;
    try discriminate; cbn beta iota; rewrite Hcalls, Hfin;
    destruct (lookup "usageMetadata" top) as [[| | | | | |ukv]|];
    try discriminate; cbn beta iota; cbn [validate_content];
    eexists _, _; reflexivity.
Qed.

Lemma parse_or_ValueError_well_formed (data : json) (w : World) :
  well_formed data = true ->
  exists res w', parse_or_ValueError env data w = (Ok res, w').
Proof.
  intros H. destruct (parse_response_well_formed data w H) as (res & w' & E).
  exists res, w'. unfold parse_or_ValueError, try_except. rewrite E.
  reflexivity.
Qed.

Lemma call_lacking_is_KeyError (parts : list json) (e : pyexn) :
  call_lacking parts = Some e -> is_KeyError_or_IndexError e = true.
Proof.
  induction parts as [|part rest IH]; [discriminate|].
  cbn [call_lacking]. destruct part as [| | | | | |kv]; try discriminate.
  destruct (lookup "functionCall" kv) as [[| | | | | |fc]|];
    try discriminate; [|exact IH].
  destruct (has_key "name" fc); [|intros [= <-]; reflexivity].
  destruct (has_key "args" fc); [exact IH | intros [= <-]; reflexivity].
Qed.

(** The loop stops at the first function call that lacks a field, with
    the [KeyError] of that field; it has logged nothing. *)
Lemma collect_tool_calls_lacking (parts : list json) (e : pyexn) :
  call_lacking parts = Some e ->
  forall acc w, exists w',
      collect_tool_calls env parts acc w = (Raise e, w') /\
      trace w' = trace w.
Proof.
  induction parts as [|part rest IH]; [discriminate|].
  cbn [call_lacking]. destruct part as [| | | | | |kv]; try discriminate.
  intros H acc w. cbn [collect_tool_calls].
  unfold bind, lift, contains, getitem. unfold has_key at 1.
  destruct (lookup "functionCall" kv) as [[| | | | | |fc]|] eqn:Hfc;
    try discriminate; [|apply IH, H].
  unfold has_key in H.
  destruct (lookup "name" fc) as [nm|];
    [|injection H as <-; eexists; split; reflexivity].
  destruct (lookup "args" fc) as [a|];
    [|injection H as <-; eexists; split; reflexivity].
  cbn [draw_uuid].
  destruct (IH H (acc ++ [{| fc_id := uuid4 env (uuids w); fc_name := nm;
                             fc_arguments := a |}])
              {| trace := trace w; posts := posts w; uuids := S (uuids w) |})
    as (w' & E & T).
  exists w'. split; [exact E | exact T].
Qed.

Lemma lacking_is_KeyError_or_IndexError (data : json) (e : pyexn) :
  lacking data = Some e -> is_KeyError_or_IndexError e = true.
Proof.
  unfold lacking. destruct (missing data) as [e'|] eqn:Hm.
  - intros [= <-]. exact (missing_is_KeyError_or_IndexError data e' Hm).
  - destruct data as [| | | | | |top]; try discriminate.
    destruct (lookup "candidates" top)
      as [[| | | | |[|[| | | | | |cand] cs]|]|]; try discriminate.
    destruct (lookup "content" cand) as [[| | | | | |ct]|]; try discriminate.
    destruct (lookup "parts" ct) as [[| | | | |parts|]|]; try discriminate.
    apply call_lacking_is_KeyError.
Qed.

(** A payload that lacks an expected field: the parser raises the
    exception of the failed subscript, having logged nothing. *)
Lemma parse_response_lacking (data : json) (e : pyexn) (w : World) :
  lacking data = Some e ->
  exists w', parse_response env data w = (Raise e, w') /\ trace w' = trace w.
Proof.
  unfold lacking. destruct (missing data) as [e'|] eqn:Hm.
  - intros [= <-]. exists w.
    split; [exact (parse_response_missing env data e' w Hm) | reflexivity].
  - destruct data as [| | | | | |top]; try discriminate.
    destruct (lookup "candidates" top)
      as [[| | | | |[|[| | | | | |cand] cs]|]|] eqn:Hc; try discriminate.
    destruct (lookup "content" cand) as [[| | | | | |ct]|] eqn:Hct;
      try discriminate.
    destruct (lookup "parts" ct) as [[| | | | |[|first rest]|]|] eqn:Hps;
      try discriminate.
    intros H.
    assert (Hfirst : exists kv, first = JObj kv).
    { destruct first as [| | | | | |kv]; try discriminate H. eauto. }
    destruct Hfirst as (kv & ->).
    destruct (collect_tool_calls_lacking _ e H [] w) as (w' & E & T).
    exists w'. split; [|exact T].
    unfold parse_response, bind, lift, ret, getitem, getitem0, contains,
      has_key, py_iter.
    rewrite Hc. cbn beta iota. rewrite Hct. cbn beta iota.
    rewrite Hps. cbn beta iota.
    destruct (lookup "text" kv) as [t|]; cbn beta iota; rewrite E;
      reflexivity.
Qed.

(** The handler then logs the payload and raises [ValueError] with the
    text of the failed subscript. *)
Lemma parse_or_ValueError_lacking (data : json) (e : pyexn) (w : World) :
  lacking data = Some e ->
  exists w',
    parse_or_ValueError env data w
    = (Raise (ValueError ("Invalid response format from Gemini: " ++ str_exn e)),
       w') /\
    trace w' = trace w ++ [Log (FailedToParse data)].
Proof.
  intros H. destruct (parse_response_lacking data e w H) as (w1 & E & T).
  unfold parse_or_ValueError, try_except. rewrite E.
  rewrite (lacking_is_KeyError_or_IndexError data e H).
  eexists. split; [reflexivity|]. cbn [emit snd trace]. rewrite T.
  reflexivity.
Qed.

Lemma well_formed_parts (parts : list json) :
  forallb well_formed_part parts
  = forallb typed_part parts &&
    match call_lacking parts with Some _ => false | None => true end.
Proof.
  induction parts as [|part rest IH]; [reflexivity|].
  cbn [forallb call_lacking].
  destruct part as [| | | | | |kv]; try reflexivity.
  cbn [well_formed_part typed_part].
  destruct (lookup "functionCall" kv) as [[| | | | | |fc]|];
    cbn [andb]; try reflexivity; try exact IH.
  destruct (has_key "name" fc), (has_key "args" fc); cbn [andb];
    try exact IH; symmetry; apply andb_false_r.
Qed.

(** A payload is well-formed exactly when its fields have the expected
    types and none of the expected fields is missing. *)
Lemma well_formed_types_and_fields (data : json) :
  well_formed data = true
  <-> expected_types data = true /\ lacking data = None.
Proof.
  unfold well_formed, expected_types, lacking, missing.
  destruct data as [| | | | | |top];
    try (split; [discriminate | intros [H _]; discriminate H]).
  destruct (lookup "candidates" top)
    as [[| | | | |[|[| | | | | |cand] cs]|]|];
    try (split; [discriminate | intros [H1 H2]; 
                 first [discriminate H2 | rewrite ?andb_false_r in H1;
                                          discriminate H1]]).
  destruct (lookup "content" cand) as [[| | | | | |ct]|];
    try (split; [discriminate | intros [H1 H2]; 
                 first [discriminate H2 | rewrite ?andb_false_r in H1;
                                          discriminate H1]]).
  destruct (lookup "parts" ct) as [[| | | | |[|first rest]|]|];
    try (split; [discriminate | intros [H1 H2]; 
                 first [discriminate H2 | rewrite ?andb_false_r in H1;
                                          discriminate H1]]).
  rewrite well_formed_parts.
  destruct (call_lacking (first :: rest)) as [e|].
  - split; [|intros [_ H]; discriminate H].
    intros H. rewrite !andb_false_r in H. cbn [andb] in H. discriminate H.
  - destruct (text_is_string first), (forallb typed_part (first :: rest)),
      (match lookup "finishReason" cand with
       | Some (JArr _) | Some (JObj _) => false
       | _ => true
       end),
      (match lookup "usageMetadata" top with
       | None | Some (JObj _) => true
       | Some _ => false
       end); cbn [andb]; split; try discriminate; try (intros [H _]; discriminate H);
      auto.
Qed.

End WellFormed.

Section ReplyFacts.
Import Gemini.
Variable env : Env.

(** A first attempt answered with a success carrying [data]: [create]
    is the parse of [data], after that single request. *)
Lemma create_on_reply (fuel : nat) (self : NativeGeminiClient)
  (messages : list LLMMessage) (tools : option (list tool))
  (payload : json) (w : World) (r : response) (data : json) :
  2 <= fuel ->
  build_payload messages tools = Ok payload ->
  backend env (posts w) (request_url self) payload = Responded r ->
  (status_code r < 400)%Z ->
  body r = Some data ->
  exists w1,
    create fuel env self messages tools w
    = Some (fst (parse_or_ValueError env data w1), self,
            snd (parse_or_ValueError env data w1)) /\
    posts w1 = posts w + 1 /\
    delays w1 = delays w /\
    yielded w1 = yielded w /\
    posted w1 = posted w ++ [payload].
Proof.
  intros Hf Hp Hr Hs Hb.
  destruct (announced_same self w) as (P0 & D0 & S0 & Y0).
  assert (Hl : throttled (next_answer env (request_url self) payload
                            (announced self w)) = false).
  { unfold next_answer. rewrite P0, Hr. apply Z.eqb_neq. lia. }
  destruct (call_settles env (request_url self) payload 1 fuel
              (announced self w) Hf Hl) as (w1 & E & A).
  unfold next_answer in E.
  rewrite P0, Hr, (answer_success r data Hs Hb) in E.
  exists w1. rewrite (create_cases env fuel self messages tools payload w Hp).
  unfold _make_api_request_with_retry, Tenacity.first_state.
  unfold state in E. rewrite E.
  destruct A as (P1 & D1 & _ & Y1 & S1).
  rewrite P1, D1, Y1, S1, P0, D0, S0, Y0, app_nil_r. auto.
Qed.

End ReplyFacts.

Section ParseClaim.
Import Gemini.




End ParseClaim.

(** ** C8: the usage counters *)

Section UsageClaim.
Import Gemini.

Lemma create_all_keeps_self (fuel : nat) (env : Env)
  (calls : list (list LLMMessage * option (list tool))) :
  forall self w outcomes self' w',
    create_all fuel env self calls w = Some (outcomes, self', w') ->
    self' = self.
Proof.
  induction calls as [|[messages tools] rest IH];
    intros self w outcomes self' w'; cbn [create_all].
  - intros [= _ <- _]. reflexivity.
  - destruct (create fuel env self messages tools w) as [[[r s1] w1]|] eqn:E;
      [|discriminate].
    apply create_keeps_self in E. subst s1.
    destruct (create_all fuel env self rest w1) as [[[rs s2] w2]|] eqn:E2;
      [|discriminate].
    intros [= _ <- _]. exact (IH _ _ _ _ _ E2).
Qed.

(** C8 (amended). [create] never updates the counters: after any
    sequence of [create] calls on a client built by [__init__], whatever
    they returned or raised, [total_usage()] and [actual_usage()] report
    0 prompt tokens and 0 completion tokens; the usage of a call is
    reported in its own [CreateResult] only. *)
Theorem C8_usage_counters_never_updated (fuel : nat) (env : Env)
  (key name : string) (calls : list (list LLMMessage * option (list tool)))
  (w w' : World) (outcomes : list (outcome CreateResult))
  (self' : NativeGeminiClient) :
  create_all fuel env (__init__ key name) calls w
  = Some (outcomes, self', w') ->
  total_usage self' = zero_usage /\ actual_usage self' = zero_usage.
Proof.
  intros H. apply create_all_keeps_self in H. subst self'.
  split; reflexivity.
Qed.

(** C8 on two successful calls, each reporting usage 7 + 3. *)
Lemma C8_two_calls_counters_at_zero :
  exists self' w',
    create_all 2 (scripted [ok_with hello_reply; ok_with hello_reply])
      client0 [(hi, None); (hi, None)] world0
    = Some ([Ok hello_result; Ok hello_result], self', w') /\
    total_usage self' = zero_usage /\ actual_usage self' = zero_usage.
Proof.
  assert (E : exists self' w',
             create_all 2 (scripted [ok_with hello_reply; ok_with hello_reply])
               client0 [(hi, None); (hi, None)] world0
             = Some ([Ok hello_result; Ok hello_result], self', w'))
    by (eexists _, _; vm_compute; reflexivity).
  destruct E as (self' & w' & E). exists self', w'.
  split; [exact E|].
  exact (C8_usage_counters_never_updated _ _ _ _ _ _ _ _ _ E).
Defined.

(** A successful [create] that reports usage 7 + 3 leaves the totals at
    0 + 0: they do not increase by the usage returned. *)
Lemma C8_totals_do_not_increase :
  ~ (forall env self messages tools w result self' w',
        create 2 env self messages tools w = Some (Ok result, self', w') ->
        total_usage self' = add_usage (total_usage self) (usage result)).
Proof.
  intros H.
  assert (E : exists w',
             create 2 (scripted [ok_with hello_reply]) client0 hi None world0
             = Some (Ok hello_result, client0, w'))
    by (eexists; vm_compute; reflexivity).
  destruct E as (w' & E). specialize (H _ _ _ _ _ _ _ _ E).
  discriminate H.
Qed.

End UsageClaim.

(** ** C9: the streaming variant *)

Section StreamClaim.
Import Gemini.
Variable env : Env.

(** The retry loop yields nothing, whatever the fuel. *)
Lemma call_yields_nothing (url : string) (payload : json) (fuel : nat) :
  forall rs w r w',
    Tenacity.call fuel retry_policy (_make_api_request env url payload) rs w
    = Some (r, w') ->
    yielded w' = yielded w.
Proof.
  induction fuel as [|fuel IH]; intros rs w r w'; [discriminate|].
  cbn [Tenacity.call]. unfold Tenacity.iter.
  destruct (Tenacity.last_outcome rs) as [[a|e]|].
  - intros [= _ <-]. reflexivity.
  - destruct (negb (Tenacity.retry retry_policy e)).
    + intros [= _ <-]. reflexivity.
    + destruct (Tenacity.stop retry_policy (Tenacity.attempt_number rs)).
      * intros [= _ <-]. reflexivity.
      * cbn [emit fst snd Tenacity.before_sleep retry_policy].
        intros H. apply IH in H. rewrite H. unfold yielded. cbn [trace].
        rewrite !flat_map_app. simpl. rewrite !app_nil_r. reflexivity.
  - destruct (make_api_request_spec env url payload w)
      as (w1 & E & _ & _ & _ & Y & _).
    rewrite E. intros H. apply IH in H. rewrite H. exact Y.
Qed.

(** [create] yields nothing. *)
Lemma create_yields_nothing (fuel : nat) (self self' : NativeGeminiClient)
  (messages : list LLMMessage) (tools : option (list tool))
  (w w' : World) (r : outcome CreateResult) :
  create fuel env self messages tools w = Some (r, self', w') ->
  yielded w' = yielded w.
Proof.
  destruct (build_payload messages tools) as [payload|e] eqn:Hp.
  - rewrite (create_cases env fuel self messages tools payload w Hp).
    destruct (announced_same self w) as (_ & _ & _ & Y0).
    destruct (_make_api_request_with_retry fuel env (request_url self) payload
                (announced self w)) as [[[data|e] w1]|] eqn:E;
      [| |discriminate];
      apply call_yields_nothing in E.
    + destruct (parse_or_ValueError_quiet env data w1) as (_ & _ & _ & _ & Y).
      intros [= _ _ <-]. rewrite Y, E, Y0. reflexivity.
    + destruct (is_RequestException e); intros [= _ _ <-].
      * pose proof (yielded_emit (Log (RequestError e)) w1) as Y.
        rewrite app_nil_r in Y. cbn [emit snd] in Y. rewrite Y, E, Y0.
        reflexivity.
      * rewrite E, Y0. reflexivity.
  - unfold create. rewrite Hp. intros [= _ _ <-]. reflexivity.
Qed.

(** C9. When [create] succeeds with result [r], [create_stream] on the
    same input ends normally having yielded exactly one chunk,
    [r.content], after everything [create] did: nothing is yielded while
    [create] runs. *)
Theorem C9_stream_yields_the_result_once (fuel : nat)
  (self self' : NativeGeminiClient) (messages : list LLMMessage)
  (tools : option (list tool)) (w w' : World) (r : CreateResult) :
  create fuel env self messages tools w = Some (Ok r, self', w') ->
  exists w'',
    create_stream fuel env self messages tools w = Some (Ok tt, self', w'') /\
    trace w'' = trace w' ++ [Yield (content r)] /\
    yielded w' = yielded w /\
    yielded w'' = yielded w ++ [content r].
Proof.
  intros H. unfold create_stream. rewrite H. cbn [emit].
  eexists. split; [reflexivity|]. cbn [trace].
  pose proof (create_yields_nothing _ _ _ _ _ _ _ _ H) as Y.
  split; [reflexivity|]. split; [exact Y|].
  unfold yielded at 1. cbn [trace]. rewrite flat_map_app. simpl.
  fold (yielded w'). rewrite Y. reflexivity.
Qed.

(** When [create] raises, the stream raises the same exception and
    yields nothing. *)
Lemma create_stream_raises_with_create (fuel : nat)
  (self self' : NativeGeminiClient) (messages : list LLMMessage)
  (tools : option (list tool)) (w w' : World) (e : pyexn) :
  create fuel env self messages tools w = Some (Raise e, self', w') ->
  create_stream fuel env self messages tools w = Some (Raise e, self', w') /\
  yielded w' = yielded w.
Proof.
  intros H. unfold create_stream. rewrite H. split; [reflexivity|].
  exact (create_yields_nothing _ _ _ _ _ _ _ _ H).
Qed.

End StreamClaim.

(** C9 on the reply "Hello": one chunk, the text. *)
Lemma C9_stream_of_hello :
  exists w'',
    Gemini.create_stream 2 (scripted [ok_with hello_reply]) client0 hi None
      world0
    = Some (Ok tt, client0, w'') /\
    Gemini.yielded w'' = [inl "Hello"].
Proof.
  assert (E : exists w',
             Gemini.create 2 (scripted [ok_with hello_reply]) client0 hi None
               world0
             = Some (Ok hello_result, client0, w'))
    by (eexists; vm_compute; reflexivity).
  destruct E as (w' & E).
  destruct (C9_stream_yields_the_result_once _ _ _ _ _ _ _ _ _ E)
    as (w'' & Es & _ & _ & Y).
  exists w''. split; [exact Es | exact Y].
Defined.

(** ** C4 and C10: what the request holds of the messages *)

Section MessageFacts.
Import Gemini.

Lemma fold_convert (messages : list LLMMessage) :
  forall acc sys,
    fold_left convert_message messages (acc, sys)
    = (acc ++ flat_map entry messages, instruction_after sys messages).
Proof.
  induction messages as [|m r IH]; intros acc sys; cbn [fold_left flat_map].
  - rewrite app_nil_r. reflexivity.
  - destruct m as [c|[s|parts] src|[s|calls] src|rs];
      cbn [convert_message entry instruction_after]; rewrite IH;
      rewrite <- ?app_assoc; reflexivity.
Qed.

Lemma convert_messages_spec (messages : list LLMMessage) :
  convert_messages messages
  = (flat_map entry messages, instruction_after JNull messages).
Proof. unfold convert_messages. rewrite fold_convert. reflexivity. Qed.

Lemma instruction_after_app (l1 l2 : list LLMMessage) :
  forall sys,
    instruction_after sys (l1 ++ l2)
    = instruction_after (instruction_after sys l1) l2.
Proof.
  induction l1 as [|m r IH]; intros sys; [reflexivity|].
  destruct m; cbn [app instruction_after]; apply IH.
Qed.

Lemma instruction_after_no_system (l : list LLMMessage) :
  forallb not_system l = true ->
  forall sys, instruction_after sys l = sys.
Proof.
  induction l as [|m r IH]; intros H sys; [reflexivity|].
  cbn [forallb] in H. apply andb_prop in H. destruct H as [Hm Hr].
  destruct m; try discriminate; cbn [instruction_after]; apply IH, Hr.
Qed.

Lemma entries_without_system (l : list LLMMessage) :
  flat_map entry (filter not_system l) = flat_map entry l.
Proof.
  induction l as [|m r IH]; [reflexivity|].
  destruct m as [c|[s|parts] src|[s|calls] src|rs];
    cbn [filter not_system is_system negb flat_map entry app];
    rewrite IH; reflexivity.
Qed.

(** The payload depends on the messages through their conversion only. *)
Lemma build_payload_same_conversion (m1 m2 : list LLMMessage)
  (tools : option (list tool)) :
  convert_messages m1 = convert_messages m2 ->
  build_payload m1 tools = build_payload m2 tools.
Proof. intros H. unfold build_payload. rewrite H. reflexivity. Qed.

(** The two fields of the payload that come from the messages. *)
Lemma build_payload_fields (messages : list LLMMessage)
  (tools : option (list tool)) (payload : json) :
  build_payload messages tools = Ok payload ->
  exists fields,
    payload = JObj fields /\
    lookup "contents" fields = Some (JArr (flat_map entry messages)) /\
    lookup "system_instruction" fields
    = if truthy (instruction_after JNull messages)
      then Some (instruction_after JNull messages) else None.
Proof.
  unfold build_payload. rewrite convert_messages_spec.
  destruct (gemini_tools tools) as [gtools|e]; [|discriminate].
  cbn [obind]. intros [= <-]. eexists. split; [reflexivity|].
  destruct gtools as [|g gs];
    destruct (truthy (instruction_after JNull messages));
    split; reflexivity.
Qed.

(** With fuel for five attempts, every request [create] issues carries
    the payload built from the messages and the tools. *)
Lemma create_sends_built_payload (fuel : nat) (env : Env)
  (self : NativeGeminiClient) (messages : list LLMMessage)
  (tools : option (list tool)) (payload : json) (w : World) :
  10 <= fuel ->
  build_payload messages tools = Ok payload ->
  exists r w' n,
    create fuel env self messages tools w = Some (r, self, w') /\
    1 <= n <= 5 /\
    posted w' = posted w ++ repeat payload n.
Proof.
  intros Hf Hp.
  rewrite (create_cases env fuel self messages tools payload w Hp).
  destruct (announced_same self w) as (_ & _ & S0 & _).
  destruct (with_retry_total env (request_url self) payload fuel
              (announced self w) Hf) as (r & w1 & n & ds & E & A & Hn).
  rewrite E. destruct A as (_ & _ & _ & _ & S1).
  destruct r as [data|e].
  - destruct (parse_or_ValueError_quiet env data w1) as (_ & _ & _ & S2 & _).
    eexists _, _, n. split; [reflexivity|]. split; [exact Hn|].
    rewrite S2, S1, S0. reflexivity.
  - eexists _, _, n. split; [reflexivity|]. split; [exact Hn|].
    destruct (is_RequestException e).
    + pose proof (posted_emit (Log (RequestError e)) w1) as S2.
      rewrite app_nil_r in S2. rewrite S2, S1, S0. reflexivity.
    + rewrite S1, S0. reflexivity.
Qed.

End MessageFacts.

Section MessageClaims.
Import Gemini.

(** C4 (amended). The [contents] of the request are, in the order of
    the messages, one ["user"] entry per user message and one ["model"]
    entry per assistant message whose content is text; every request the
    call issues carries that payload; a tool-result message adds nothing
    to it (the payload is the one built without that message). *)
Theorem C4_contents_hold_user_and_assistant_text (fuel : nat) (env : Env)
  (self : NativeGeminiClient) (messages : list LLMMessage)
  (tools : option (list tool)) (payload : json) (w : World) :
  10 <= fuel ->
  build_payload messages tools = Ok payload ->
  getitem "contents" payload = Ok (JArr (flat_map entry messages))
  /\
  (exists r w' n,
     create fuel env self messages tools w = Some (r, self, w') /\
     1 <= n <= 5 /\
     posted w' = posted w ++ repeat payload n)
  /\
  (forall m1 rs m2,
     messages = m1 ++ FunctionExecutionResultMessage rs :: m2 ->
     build_payload (m1 ++ m2) tools = Ok payload).
Proof.
  intros Hf Hp. split; [|split].
  - destruct (build_payload_fields messages tools payload Hp)
      as (fields & -> & Hc & _).
    cbn [getitem]. rewrite Hc. reflexivity.
  - exact (create_sends_built_payload fuel env self messages tools payload w
             Hf Hp).
  - intros m1 rs m2 ->. rewrite <- Hp.
    apply build_payload_same_conversion.
    rewrite !convert_messages_spec, !flat_map_app, !instruction_after_app.
    reflexivity.
Qed.

(** C4 on the tool round trip: the request holds the user's "Hi" only. *)
Lemma C4_on_tool_round_trip :
  getitem "contents" hi_payload = Ok (JArr [role_entry "user" "Hi"]) /\
  build_payload (firstn 2 tool_round_trip) None = Ok hi_payload.
Proof.
  destruct (C4_contents_hold_user_and_assistant_text 10
              (scripted [ok_with hello_reply]) client0 tool_round_trip None
              hi_payload world0 (le_n 10) eq_refl) as (Hc & _ & Hdrop).
  split; [exact Hc|].
  exact (Hdrop (firstn 2 tool_round_trip) _ [] eq_refl).
Defined.

(** The request built from a conversation that ends with a tool result
    mentions the result's text nowhere: not every message is mapped into
    the payload. *)
Lemma C4_tool_result_is_not_sent :
  ~ (forall messages tools payload rs r,
        build_payload messages tools = Ok payload ->
        In (FunctionExecutionResultMessage rs) messages ->
        In r rs ->
        json_mentions (result_content r) payload = true).
Proof.
  intros H.
  specialize (H tool_round_trip None hi_payload
                [{| result_content := "12 documents found";
                    result_call_id := "call-0" |}]
                {| result_content := "12 documents found";
                   result_call_id := "call-0" |}
                eq_refl).
  cbn in H. discriminate H; auto.
Qed.

(** C10. In a message sequence whose last system message has content
    [c], whatever comes before it: the payload's [system_instruction] is
    [c]'s; its [contents] are those of the messages that are not system
    messages; the payload is the one built with the earlier system
    messages removed; and every request the call issues carries it. *)
Theorem C10_only_last_system_message_is_sent (fuel : nat) (env : Env)
  (self : NativeGeminiClient) (pre post : list LLMMessage) (c : string)
  (tools : option (list tool)) (payload : json) (w : World) :
  10 <= fuel ->
  forallb not_system post = true ->
  build_payload (pre ++ SystemMessage c :: post) tools = Ok payload ->
  getitem "system_instruction" payload = Ok (instruction c)
  /\
  getitem "contents" payload
  = Ok (JArr (flat_map entry (filter not_system pre ++ post)))
  /\
  build_payload (filter not_system pre ++ SystemMessage c :: post) tools
  = Ok payload
  /\
  (exists r w' n,
     create fuel env self (pre ++ SystemMessage c :: post) tools w
     = Some (r, self, w') /\
     1 <= n <= 5 /\
     posted w' = posted w ++ repeat payload n).
Proof.
  intros Hf Hpost Hp.
  assert (Hi : forall l sys,
             instruction_after sys (l ++ SystemMessage c :: post)
             = instruction c).
  { intros l sys. rewrite instruction_after_app. cbn [instruction_after].
    apply instruction_after_no_system, Hpost. }
  assert (He : forall l,
             flat_map entry (l ++ SystemMessage c :: post)
             = flat_map entry l ++ flat_map entry post).
  { intros l. rewrite flat_map_app. reflexivity. }
  destruct (build_payload_fields _ tools payload Hp)
    as (fields & -> & Hc & Hs).
  rewrite Hi in Hs. cbn [truthy instruction] in Hs.
  split; [cbn [getitem]; rewrite Hs; reflexivity|].
  split.
  - cbn [getitem]. rewrite Hc, He, flat_map_app, entries_without_system.
    reflexivity.
  - split.
    + rewrite <- Hp. apply build_payload_same_conversion.
      rewrite !convert_messages_spec, !Hi, !He, entries_without_system.
      reflexivity.
    + exact (create_sends_built_payload fuel env self _ tools _ w Hf Hp).
Qed.

(** C10 on two system messages: the first is nowhere in the request. *)
Lemma C10_on_two_system_messages :
  getitem "system_instruction" second_rule_payload
  = Ok (instruction "second rule") /\
  build_payload (skipn 1 two_system_messages) None = Ok second_rule_payload /\
  json_mentions "first rule" second_rule_payload = false.
Proof.
  destruct (C10_only_last_system_message_is_sent 10
              (scripted [ok_with hello_reply]) client0
              (firstn 2 two_system_messages) [UserMessage (inl "More") "user"]
              "second rule" None second_rule_payload world0
              (le_n 10) eq_refl eq_refl) as (Hs & _ & Hb & _).
  split; [exact Hs|]. split; [exact Hb|]. reflexivity.
Defined.

End MessageClaims.

(** ** C7: the evidence search fails soft *)

Section SearchClaim.
Import RagFlow.

Lemma search_try_ok (env : Env) (cfg : Config) (q : string) (payload : json)
  (w w' : World) (p : EvidencePack) :
  search_try env cfg q payload w = (Ok p, w') ->
  query p = q /\ total_items p = List.length (items p).
Proof.
  unfold search_try, bind, lift, ret, requests_post.
  destruct (backend env (posts w) _ payload) as [|r]; [discriminate|].
  destruct (raise_for_status r); [|discriminate].
  destruct (response_json r) as [data|]; [|discriminate].
  destruct (map_response cfg data) as [its|]; [|discriminate].
  intros [= <- _]. split; reflexivity.
Qed.

Lemma search_try_failed (env : Env) (cfg : Config) (q : string)
  (payload : json) (w : World) :
  retrieval_failed
    (backend env (posts w) (base_url cfg ++ "/api/v1/retrieval") payload)
  = true ->
  exists e w', search_try env cfg q payload w = (Raise e, w').
Proof.
  unfold search_try, bind, lift, ret, requests_post, retrieval_failed,
    raise_for_status, response_json.
  destruct (backend env (posts w) _ payload) as [|r]; [eauto|].
  destruct ((400 <=? status_code r)%Z && (status_code r <? 600)%Z);
    [eauto|].
  destruct (body r); [discriminate|eauto].
Qed.

(** C7. For every query and every backend, [search] returns a pack and
    never raises; the pack carries the query and counts its items. When
    the retrieval fails (no connection, an error status, a body that is
    not JSON), and more generally whenever anything in the [try] raises,
    the pack is the empty one: same query, no items, [total_items = 0].
    The tool built on it returns that pack's dump and never raises. *)
Theorem C7_search_fails_soft (env : Env) (cfg : Config) (q : string)
  (top_k : Z) (threshold : float) (knowledge_ids : option (list string))
  (w : World) :
  let payload := search_payload cfg q top_k threshold knowledge_ids in
  (exists pack w',
     search env cfg q top_k threshold knowledge_ids w = (Ok pack, w') /\
     query pack = q /\
     total_items pack = List.length (items pack))
  /\
  (retrieval_failed
     (backend env (posts w) (base_url cfg ++ "/api/v1/retrieval") payload)
   = true ->
   exists w',
     search env cfg q top_k threshold knowledge_ids w
     = (Ok (empty_pack q), w'))
  /\
  (forall e w',
     search_try env cfg q payload w = (Raise e, w') ->
     search env cfg q top_k threshold knowledge_ids w
     = (Ok (empty_pack q), w'))
  /\
  (exists pack w',
     retrieve_legal_documents env cfg knowledge_ids q w
     = (Ok (model_dump pack), w') /\
     query pack = q).
Proof.
  intros payload.
  assert (Hraise : forall e w',
             search_try env cfg q payload w = (Raise e, w') ->
             search env cfg q top_k threshold knowledge_ids w
             = (Ok (empty_pack q), w')).
  { intros e w' E. unfold search, try_except. fold payload. rewrite E.
    reflexivity. }
  assert (Hall : forall k t ids,
             exists pack w',
               search env cfg q k t ids w = (Ok pack, w') /\
               query pack = q /\
               total_items pack = List.length (items pack)).
  { intros k t ids. unfold search, try_except.
    destruct (search_try env cfg q (search_payload cfg q k t ids) w)
      as [[p|e] w1] eqn:E.
    - exists p, w1. split; [reflexivity|]. exact (search_try_ok _ _ _ _ _ _ _ E).
    - eexists _, w1. split; [reflexivity|]. split; reflexivity. }
  split; [apply Hall|]. split; [|split; [exact Hraise|]].
  - intros Hfail.
    destruct (search_try_failed env cfg q payload w Hfail) as (e & w' & E).
    exists w'. exact (Hraise e w' E).
  - destruct (Hall 10%Z 0.5%float knowledge_ids) as (pack & w' & E & Hq & _).
    exists pack, w'. unfold retrieve_legal_documents, bind. rewrite E.
    split; [reflexivity | exact Hq].
Qed.

(** C7 on a refused connection, an error status and a body that is not
    JSON: each time the empty pack for the query. *)
Lemma C7_on_three_failures :
  (exists w', search (scripted []) local_ragflow "land law" 5 0.5%float None
                world0 = (Ok (empty_pack "land law"), w'))
  /\
  (exists w', search (scripted [status_only 500]) local_ragflow "land law" 5
                0.5%float None world0 = (Ok (empty_pack "land law"), w'))
  /\
  (exists w', search (scripted [status_only 200]) local_ragflow "land law" 5
                0.5%float None world0 = (Ok (empty_pack "land law"), w')).
Proof.
  split; [|split].
  - exact (proj1 (proj2 (C7_search_fails_soft (scripted []) local_ragflow
                           "land law" 5 0.5%float None world0)) eq_refl).
  - exact (proj1 (proj2 (C7_search_fails_soft (scripted [status_only 500])
                           local_ragflow "land law" 5 0.5%float None world0))
             eq_refl).
  - exact (proj1 (proj2 (C7_search_fails_soft (scripted [status_only 200])
                           local_ragflow "land law" 5 0.5%float None world0))
             eq_refl).
Defined.

End SearchClaim.

(** ** C5: the schema sent for a tool *)

Section SchemaClaim.
Import Schema.

(** What [create] reads from one tool: the values of its [name],
    [description] and [parameters]. *)
Record tool_fields : Type := {
  read_name : json;
  read_description : json;
  read_parameters : json
}.

(** The three fields of the tool are read without error, from
    attributes or from dict items. *)
Definition reads (t : Gemini.tool) (f : tool_fields) : Prop :=
  Gemini.tool_field t "name" = Ok (read_name f) /\
  Gemini.tool_field t "description" = Ok (read_description f) /\
  Gemini.tool_field t "parameters" = Ok (read_parameters f).

(** The tool has a name ([if name:]). *)
Definition named (f : tool_fields) : bool := truthy (read_name f).

(** The arrays of the tool's schema hold scalars only. *)
Definition scalar_arrays (f : tool_fields) : bool :=
  arrays_scalar (read_parameters f).

(** A function declaration whose schema is [clean] of the schema read. *)
Definition declaration_with (clean : json -> json) (f : tool_fields) : json :=
  JObj [("name", read_name f);
        ("description", read_description f);
        ("parameters", clean (read_parameters f))].

(** The [tools] entry of a payload that holds these declarations:
    absent when there is none. *)
Definition tools_entry (declarations : list json) : option json :=
  match declarations with
  | [] => None
  | _ => Some (JArr [JObj [("function_declarations", JArr declarations)]])
  end.

(** The retrieval tool, given as a dict and as an object with
    attributes, and what is read from it. *)
Definition query_tools : list Gemini.tool :=
  [ Gemini.ToolDict [("name", JStr "retrieve_legal_documents");
                     ("description", JStr "Search for legal documents");
                     ("parameters", query_schema)];
    Gemini.ToolObject [("name", JStr "retrieve_legal_documents");
                       ("description", JStr "Search for legal documents");
                       ("parameters", query_schema)] ].

Definition query_fields : tool_fields :=
  {| read_name := JStr "retrieve_legal_documents";
     read_description := JStr "Search for legal documents";
     read_parameters := query_schema |}.

Definition query_declaration : json :=
  JObj [("name", JStr "retrieve_legal_documents");
        ("description", JStr "Search for legal documents");
        ("parameters", query_schema_cleaned)].

Lemma declare_tool_reads (t : Gemini.tool) (f : tool_fields) :
  reads t f ->
  Gemini.declare_tool t
  = Ok (if named f then Some (declaration_with clean_schema f) else None).
Proof.
  intros (En & Ed & Ep). unfold named. destruct (truthy (read_name f)) eqn:Hn.
  - exact (declare_tool_fields t _ _ _ En Ed Ep Hn).
  - unfold Gemini.declare_tool. rewrite En, Ed, Ep. cbn [obind].
    rewrite Hn. reflexivity.
Qed.

Lemma function_declarations_reads (tools : list Gemini.tool)
  (fs : list tool_fields) :
  Forall2 reads tools fs ->
  Gemini.function_declarations tools
  = Ok (map (declaration_with clean_schema) (filter named fs)).
Proof.
  induction 1 as [|t f tools fs Ht _ IH]; [reflexivity|].
  cbn [Gemini.function_declarations filter].
  rewrite (declare_tool_reads t f Ht), IH. cbn [obind].
  destruct (named f); reflexivity.
Qed.

(** The payload built for tools that are all read without error: its
    [tools] entry holds the declarations of the named ones, in order. *)
Lemma build_payload_tools (messages : list Gemini.LLMMessage)
  (tools : list Gemini.tool) (fs : list tool_fields) :
  Forall2 reads tools fs ->
  exists fields,
    Gemini.build_payload messages (Some tools) = Ok (JObj fields) /\
    lookup "tools" fields
    = tools_entry (map (declaration_with clean_schema) (filter named fs)).
Proof.
  intros H. unfold Gemini.build_payload. rewrite convert_messages_spec.
  assert (Hg : Gemini.gemini_tools (Some tools)
               = Ok match map (declaration_with clean_schema)
                            (filter named fs) with
                    | [] => []
                    | ds => [JObj [("function_declarations", JArr ds)]]
                    end).
  { destruct H as [|t f tools fs Ht Hr]; [reflexivity|].
    unfold Gemini.gemini_tools.
    rewrite (function_declarations_reads (t :: tools) (f :: fs)
               (Forall2_cons t f Ht Hr)).
    cbn [obind].
    destruct (map (declaration_with clean_schema) (filter named (f :: fs)));
      reflexivity. }
  rewrite Hg. cbn [obind].
  destruct (map (declaration_with clean_schema) (filter named fs))
    as [|d ds];
    destruct (truthy (instruction_after JNull messages));
    eexists; split; reflexivity.
Qed.




End SchemaClaim.

(** ** C3: the task that seeds the synthesis phase *)

Section WorkflowClaim.
Import Workflow.

(** Whatever the research phase produced, the task given to the
    synthesis team is the fixed text around the query. *)
Lemma phase2_task_is_fixed (k g b : option string) (client : model_client)
  (run_stream : Team -> string -> list Message) (query : string) :
  get_model_client k g b = Ok client ->
  exists run,
    main k g b run_stream query = Some run /\
    research_result run = run_stream research_team (research_task query) /\
    phase2_task run = synthesis_task query.
Proof.
  intros H. unfold main. rewrite H. eexists.
  split; [reflexivity|]. split; reflexivity.
Qed.

(** C3, evaluated. With a Gemini key only, the research phase ends with
    the analyzer's finding approved; the task that seeds the synthesis
    phase holds the query and not the finding. *)
Theorem C3_synthesis_task_lacks_research_transcript :
  exists run,
    main None (Some "k") None approving_team query_line50 = Some run
    /\ In {| source := "Analyzer_Agent";
             content := "Article 5 of Decree 158 applies." |}
          (research_result run)
    /\ is_substring "Article 5 of Decree 158 applies." (phase2_task run)
       = false
    /\ is_substring query_line50 (phase2_task run) = true.
Proof.
  eexists. split; [reflexivity|].
  split; [right; left; reflexivity|]. split; vm_compute; reflexivity.
Qed.

End WorkflowClaim.

(* ================================================================== *)
(** * Further properties of the embedded code                          *)
(* ================================================================== *)

(** ** More on [clean_schema] *)

Section SchemaLaws.
Import Schema.

Lemma clean_items_idempotent (kv : list (string * json)) :
  Forall (fun p => clean_schema (clean_schema (snd p)) = clean_schema (snd p))
    kv ->
  clean_items (clean_items kv) = clean_items kv.
Proof.
  induction 1 as [|[k v] r Hv _ IH]; [reflexivity|].
  cbn [clean_items]. destruct (str_in k rejected_keys) eqn:Hk; [exact IH|].
  cbn [clean_items]. rewrite Hk. cbn [snd] in Hv. rewrite Hv, IH. reflexivity.
Qed.

(** Cleaning a cleaned schema changes nothing. *)
Theorem clean_schema_idempotent (s : json) :
  clean_schema (clean_schema s) = clean_schema s.
Proof.
  induction s as [| | | | |l _|kv IH] using json_ind; try reflexivity.
  rewrite !clean_schema_obj. f_equal. apply clean_items_idempotent, IH.
Qed.

Lemma str_in_eqb (k k' : string) (keys : list string) :
  String.eqb k k' = true -> str_in k keys = str_in k' keys.
Proof. intros H. apply String.eqb_eq in H. subst. reflexivity. Qed.

Lemma lookup_clean_items (k : string) (kv : list (string * json)) :
  lookup k (clean_items kv)
  = if str_in k rejected_keys then None
    else option_map clean_schema (lookup k kv).
Proof.
  induction kv as [|[k' v] r IH]; cbn [clean_items lookup].
  - destruct (str_in k rejected_keys); reflexivity.
  - destruct (str_in k' rejected_keys) eqn:Hk'.
    + rewrite IH. destruct (String.eqb k k') eqn:E; [|reflexivity].
      rewrite (str_in_eqb k k' _ E), Hk'. reflexivity.
    + cbn [lookup]. destruct (String.eqb k k') eqn:E.
      * rewrite (str_in_eqb k k' _ E), Hk'. reflexivity.
      * exact IH.
Qed.

(** Reading a cleaned object: a rejected key is never found, at the top
    level or under any other key (so a tool parameter that is itself
    named [title] disappears from [properties]); any other key holds the
    cleaned value of what the input held; a list is kept as it is. *)
Theorem cleaned_object_lookup (k : string) (kv : list (string * json)) :
  (str_in k rejected_keys = true ->
   getitem k (clean_schema (JObj kv)) = Raise (KeyError (KStr k)))
  /\
  (str_in k rejected_keys = false ->
   forall v, lookup k kv = Some v ->
             getitem k (clean_schema (JObj kv)) = Ok (clean_schema v))
  /\
  (str_in k rejected_keys = false ->
   forall l, lookup k kv = Some (JArr l) ->
             getitem k (clean_schema (JObj kv)) = Ok (JArr l))
  /\
  (forall props,
     lookup "properties" kv = Some (JObj props) ->
     exists props',
       getitem "properties" (clean_schema (JObj kv)) = Ok (JObj props') /\
       lookup "title" props' = None).
Proof.
  rewrite clean_schema_obj. cbn [getitem]. rewrite lookup_clean_items.
  split; [|split; [|split]].
  - intros ->. reflexivity.
  - intros -> v ->. reflexivity.
  - intros -> l ->. reflexivity.
  - intros props Hp. rewrite lookup_clean_items. cbn [str_in existsb String.eqb Ascii.eqb Bool.eqb orb].
    rewrite Hp. cbn [option_map]. rewrite clean_schema_obj.
    eexists. split; [reflexivity|].
    rewrite lookup_clean_items. reflexivity.
Qed.

End SchemaLaws.

(** ** Bounds on what one [create] call does to the backend *)

Section RetryBounds.
Import Gemini.

Local Open Scope Z_scope.

(** The seconds slept in all. *)
Definition total_sleep (ds : list Z) : Z := fold_right Z.add 0 ds.

(** The policy's wait is between 2 and 60 seconds, never decreases from
    one attempt to the next, and is the cap of 60 from the sixth attempt
    on (an attempt the stop rule never lets happen). *)
Theorem wait_between_2_and_60_nondecreasing (N : nat) :
  (1 <= N)%nat ->
  2 <= Tenacity.wait_exponential 2 2 60 N <= 60 /\
  Tenacity.wait_exponential 2 2 60 N
  <= Tenacity.wait_exponential 2 2 60 (S N) /\
  ((6 <= N)%nat -> Tenacity.wait_exponential 2 2 60 N = 60) /\
  ((N <= 4)%nat -> Tenacity.wait_exponential 2 2 60 N <= 16).
Proof.
  intros HN. unfold Tenacity.wait_exponential.
  assert (H0 : 0 < 2 ^ (Z.of_nat N - 1)) by (apply Z.pow_pos_nonneg; lia).
  assert (H1 : 2 ^ (Z.of_nat N - 1) <= 2 ^ (Z.of_nat (S N) - 1))
    by (apply Z.pow_le_mono_r; lia).
  split; [lia|]. split; [lia|]. split.
  - intros H6.
    assert (2 ^ 5 <= 2 ^ (Z.of_nat N - 1)) by (apply Z.pow_le_mono_r; lia).
    change (2 ^ 5) with 32 in *. lia.
  - intros H4.
    assert (2 ^ (Z.of_nat N - 1) <= 2 ^ 3) by (apply Z.pow_le_mono_r; lia).
    change (2 ^ 3) with 8 in *. lia.
Qed.

Lemma wait_of_third_attempt :
  2 <= Tenacity.wait_exponential 2 2 60 3 <= 60 /\
  Tenacity.wait_exponential 2 2 60 3 <= 16.
Proof.
  destruct (wait_between_2_and_60_nondecreasing 3 ltac:(lia))
    as (H & _ & _ & H4).
  split; [exact H | apply H4; lia].
Defined.

Lemma backoffs_total (n : nat) :
  (n <= 5)%nat ->
  total_sleep (map backoff (seq 1 (n - 1))) <= 30 /\
  Forall (fun d => 2 <= d <= 16) (map backoff (seq 1 (n - 1))).
Proof.
  intros Hn.
  destruct n as [|[|[|[|[|[|n]]]]]]; try lia;
    (split; [vm_compute; discriminate
            | repeat constructor; vm_compute; discriminate]).
Qed.

(** The retry loop, whatever the backend answers: between one and five
    requests, and between them the first backoffs in order. *)
Lemma with_retry_bounded (env : Env) (url : string) (payload : json)
  (fuel : nat) (w : World) :
  (10 <= fuel)%nat ->
  exists r w' n,
    _make_api_request_with_retry fuel env url payload w = Some (r, w') /\
    (1 <= n <= 5)%nat /\
    advanced payload w w' n (map backoff (seq 1 (n - 1))).
Proof.
  intros Hf.
  assert (H : forall d k, d = (5 - k)%nat -> (k <= 5)%nat ->
            (forall i, (i < k)%nat ->
               throttled (backend env (posts w + i) url payload) = true) ->
            exists r w' n,
              _make_api_request_with_retry fuel env url payload w
              = Some (r, w') /\ (1 <= n <= 5)%nat /\
              advanced payload w w' n (map backoff (seq 1 (n - 1)))).
  { induction d as [|d IH]; intros k Hd Hk Hthr.
    - assert (k = 5%nat) by lia. subst k.
      destruct (with_retry_exhausted env url payload fuel w Hf Hthr)
        as (msg & w' & E & A).
      exists (Raise (RetryError (RateLimitError msg))), w', 5%nat.
      split; [exact E|]. split; [lia | exact A].
    - destruct (throttled (backend env (posts w + k) url payload)) eqn:Hlast.
      + apply (IH (S k)); try lia.
        intros i Hi. destruct (Nat.eq_dec i k) as [->|]; [exact Hlast|].
        apply Hthr. lia.
      + destruct (with_retry_settles env url payload fuel k w)
          as (w' & E & A); try assumption; try lia.
        eexists _, w', (k + 1)%nat.
        split; [exact E|]. split; [lia|].
        replace (k + 1 - 1)%nat with k by lia. exact A. }
  apply (H 5%nat 0%nat); [lia | lia |]. intros i Hi. lia.
Qed.

(** A call of [create], whatever the backend answers and whatever the
    tools are: it returns or raises after at most five requests; it
    sleeps only between requests, the [n - 1] first backoffs in order,
    each at most 16 seconds and at most 30 seconds in all; the client
    itself is left as it was. *)
Theorem create_bounded_requests_and_sleep (fuel : nat) (env : Env)
  (self : NativeGeminiClient) (messages : list LLMMessage)
  (tools : option (list tool)) (w : World) :
  (10 <= fuel)%nat ->
  exists r w' n,
    create fuel env self messages tools w = Some (r, self, w') /\
    (n <= 5)%nat /\
    posts w' = (posts w + n)%nat /\
    delays w' = delays w ++ map backoff (seq 1 (n - 1)) /\
    total_sleep (map backoff (seq 1 (n - 1))) <= 30 /\
    Forall (fun d => 2 <= d <= 16) (map backoff (seq 1 (n - 1))).
Proof.
  intros Hf. destruct (build_payload messages tools) as [payload|e] eqn:Hp.
  - rewrite (create_cases env fuel self messages tools payload w Hp).
    destruct (announced_same self w) as (P0 & D0 & _ & _).
    destruct (with_retry_bounded env (request_url self) payload fuel
                (announced self w) Hf) as (r & w1 & n & E & Hn & A).
    rewrite E. destruct A as (P1 & D1 & _).
    destruct (backoffs_total n ltac:(lia)) as (Ht & Hall).
    destruct r as [data|e].
    + destruct (parse_or_ValueError_quiet env data w1)
        as (_ & P2 & D2 & _ & _).
      eexists _, _, n. split; [reflexivity|].
      rewrite P2, D2, P1, D1, P0, D0. repeat split; auto; lia.
    + eexists _, _, n. split; [reflexivity|].
      destruct (is_RequestException e).
      * rewrite delays_emit, app_nil_r. cbn [emit snd posts].
        rewrite P1, D1, P0, D0. repeat split; auto; lia.
      * rewrite P1, D1, P0, D0. repeat split; auto; lia.
  - exists (Raise e), w, 0%nat. unfold create. rewrite Hp.
    split; [reflexivity|]. cbn [seq map Nat.sub]. rewrite app_nil_r.
    repeat split; auto; try lia. vm_compute. discriminate.
Qed.

(** On the backend that throttles for ever: five requests, 30 seconds. *)
Lemma create_bounded_on_always_throttled :
  exists r w' n,
    create 10 always_throttled client0 hi None world0
    = Some (r, client0, w') /\
    (n <= 5)%nat /\ posts w' = n /\
    total_sleep (map backoff (seq 1 (n - 1))) <= 30.
Proof.
  destruct (create_bounded_requests_and_sleep 10 always_throttled client0 hi
              None world0 (le_n 10)) as (r & w' & n & E & Hn & P & _ & T & _).
  exists r, w', n. auto.
Defined.

End RetryBounds.

(** ** What the tools and the messages do to the request *)

Section PayloadLaws.
Import Gemini.

(** A tool object one of whose three attributes is missing or falsy. *)
Definition lacks_a_field (attrs : list (string * json)) : bool :=
  negb (truthy (getattr_or_None (ToolObject attrs) "name"))
  || negb (truthy (getattr_or_None (ToolObject attrs) "description"))
  || negb (truthy (getattr_or_None (ToolObject attrs) "parameters")).

(** A tool given as a dict whose name is missing or falsy. *)
Definition nameless_dict (t : tool) : bool :=
  match t with
  | ToolDict d =>
      negb (truthy (match lookup "name" d with Some v => v | None => JNull end))
  | ToolObject _ => false
  end.

(** A message without its source, its images, its function calls and its
    tool results. *)
Definition text_only (m : LLMMessage) : LLMMessage :=
  match m with
  | SystemMessage c => SystemMessage c
  | UserMessage (inl s) _ => UserMessage (inl s) ""
  | UserMessage (inr parts) _ => UserMessage (inl (join_text parts)) ""
  | AssistantMessage (inl s) _ => AssistantMessage (inl s) ""
  | AssistantMessage (inr _) _ => AssistantMessage (inr []) ""
  | FunctionExecutionResultMessage _ => FunctionExecutionResultMessage []
  end.

Lemma declare_tool_raises_AttributeError_only (t : tool) :
  (exists d, declare_tool t = Ok d) \/ declare_tool t = Raise AttributeError.
Proof.
  unfold declare_tool, tool_field.
  destruct t as [attrs|d]; cbn [tool_get getattr_or_None truthy obind].
  - destruct (truthy match lookup "name" attrs with
                     | Some v => v | None => JNull end) eqn:Hn;
      [|right; reflexivity]. cbn [obind].
    destruct (truthy match lookup "description" attrs with
                     | Some v => v | None => JNull end);
      [|right; reflexivity]. cbn [obind].
    destruct (truthy match lookup "parameters" attrs with
                     | Some v => v | None => JNull end) eqn:Hp;
      [|right; reflexivity]. cbn [obind]. rewrite Hp, Hn. left. eauto.
  - left.
    repeat match goal with
           | |- context [if ?b then _ else _] => destruct b
           end; eauto.
Qed.

Lemma declare_tool_lacking (attrs : list (string * json)) :
  lacks_a_field attrs = true ->
  declare_tool (ToolObject attrs) = Raise AttributeError.
Proof.
  unfold lacks_a_field, declare_tool, tool_field.
  cbn [tool_get getattr_or_None].
  destruct (truthy match lookup "name" attrs with
                   | Some v => v | None => JNull end); [|reflexivity].
  destruct (truthy match lookup "description" attrs with
                   | Some v => v | None => JNull end); [|reflexivity].
  destruct (truthy match lookup "parameters" attrs with
                   | Some v => v | None => JNull end); [|reflexivity].
  discriminate.
Qed.

Lemma function_declarations_lacking (attrs : list (string * json))
  (tools : list tool) :
  In (ToolObject attrs) tools ->
  lacks_a_field attrs = true ->
  function_declarations tools = Raise AttributeError.
Proof.
  intros Hin Hl. induction tools as [|t r IH]; [destruct Hin|].
  cbn [function_declarations].
  destruct Hin as [->|Hin].
  - rewrite (declare_tool_lacking attrs Hl). reflexivity.
  - destruct (declare_tool_raises_AttributeError_only t) as [[d ->]| ->];
      [|reflexivity].
    cbn [obind]. rewrite (IH Hin). reflexivity.
Qed.

(** A tool object anywhere in the tools whose [name], [description] or
    [parameters] attribute is missing or falsy (it has no [get] to fall
    back on): [create] raises [AttributeError] before anything else
    happens; no request is sent and nothing is logged. *)
Theorem create_raises_on_tool_object_lacking_a_field (fuel : nat) (env : Env)
  (self : NativeGeminiClient) (messages : list LLMMessage)
  (tools : list tool) (attrs : list (string * json)) (w : World) :
  In (ToolObject attrs) tools ->
  lacks_a_field attrs = true ->
  build_payload messages (Some tools) = Raise AttributeError /\
  create fuel env self messages (Some tools) w
  = Some (Raise AttributeError, self, w).
Proof.
  intros Hin Hl.
  assert (Hb : build_payload messages (Some tools) = Raise AttributeError).
  { unfold build_payload. destruct (convert_messages messages) as [c s].
    unfold gemini_tools. destruct tools as [|t r]; [destruct Hin|].
    rewrite (function_declarations_lacking attrs (t :: r) Hin Hl).
    reflexivity. }
  split; [exact Hb|]. unfold create. rewrite Hb. reflexivity.
Qed.

(** A function tool as autogen builds it: a name and a description, and
    no [parameters] attribute. *)
Lemma create_raises_on_tool_without_parameters :
  create 10 (scripted [ok_with hello_reply]) client0 hi
    (Some [ToolObject [("name", JStr "retrieve_legal_documents");
                       ("description", JStr "Search for legal documents")]])
    world0
  = Some (Raise AttributeError, client0, world0).
Proof.
  exact (proj2 (create_raises_on_tool_object_lacking_a_field 10
                  (scripted [ok_with hello_reply]) client0 hi
                  [ToolObject [("name", JStr "retrieve_legal_documents");
                               ("description",
                                JStr "Search for legal documents")]]
                  [("name", JStr "retrieve_legal_documents");
                   ("description", JStr "Search for legal documents")]
                  world0 (or_introl eq_refl) eq_refl)).
Defined.

Lemma function_declarations_nameless (tools : list tool) :
  forallb nameless_dict tools = true ->
  function_declarations tools = Ok [].
Proof.
  induction tools as [|t r IH]; [reflexivity|].
  cbn [forallb]. intros H. apply andb_prop in H. destruct H as [Ht Hr].
  cbn [function_declarations]. rewrite (IH Hr).
  destruct t as [attrs|d]; [discriminate|].
  unfold declare_tool, tool_field. cbn [getattr_or_None truthy tool_get obind].
  unfold nameless_dict in Ht. apply negb_true_iff in Ht. rewrite Ht.
  repeat match goal with
         | |- context [if ?b then _ else _] => destruct b
         end; reflexivity.
Qed.

(** Without a system message, and with no tools, an empty tools list or
    only dict tools without a name, the payload is the [contents] alone:
    no [tools] key, no [system_instruction] key. With no message at all
    the request is sent with empty [contents]. *)
Theorem payload_is_contents_alone (messages : list LLMMessage)
  (tools : list tool) :
  forallb not_system messages = true ->
  forallb nameless_dict tools = true ->
  build_payload messages (Some tools)
  = Ok (JObj [("contents", JArr (flat_map entry messages))]) /\
  build_payload messages None
  = Ok (JObj [("contents", JArr (flat_map entry messages))]).
Proof.
  intros Hm Ht. unfold build_payload. rewrite convert_messages_spec.
  rewrite (instruction_after_no_system messages Hm).
  unfold gemini_tools. rewrite (function_declarations_nameless tools Ht).
  destruct tools; split; reflexivity.
Qed.

Lemma payload_of_no_message :
  build_payload [] (Some [ToolDict [("description", JStr "nameless")]])
  = Ok (JObj [("contents", JArr [])]) /\
  build_payload [] None = Ok (JObj [("contents", JArr [])]).
Proof.
  exact (payload_is_contents_alone []
           [ToolDict [("description", JStr "nameless")]] eq_refl eq_refl).
Defined.

(** The request does not depend on the sources of the messages, on the
    images of a user message (its text parts are sent joined), on the
    function calls an assistant message carries, or on tool results. *)
Theorem payload_ignores_sources_images_and_calls
  (messages : list LLMMessage) (tools : option (list tool)) :
  build_payload (map text_only messages) tools = build_payload messages tools.
Proof.
  apply build_payload_same_conversion. rewrite !convert_messages_spec.
  f_equal.
  - induction messages as [|m r IH]; [reflexivity|].
    cbn [map flat_map]. rewrite IH.
    destruct m as [c|[s|parts] src|[s|calls] src|rs]; reflexivity.
  - generalize JNull.
    induction messages as [|m r IH]; intros sys; [reflexivity|].
    destruct m as [c|[s|parts] src|[s|calls] src|rs];
      cbn [map text_only instruction_after]; apply IH.
Qed.

End PayloadLaws.

(** A stream over a backend that answers 503: the error of [create],
    and no chunk. *)
Lemma stream_of_503_raises :
  exists w',
    Gemini.create_stream 2 (scripted [status_only 503]) client0 hi None world0
    = Some (Raise (RequestException (HTTPError 503)), client0, w') /\
    Gemini.yielded w' = [].
Proof.
  assert (E : exists w',
             Gemini.create 2 (scripted [status_only 503]) client0 hi None
               world0
             = Some (Raise (RequestException (HTTPError 503)), client0, w'))
    by (eexists; vm_compute; reflexivity).
  destruct E as (w' & E). exists w'.
  exact (create_stream_raises_with_create _ _ _ _ _ _ _ _ _ E).
Defined.

(** ** What [create] returns for a well-formed reply *)

Section ReplyLaws.
Import Gemini.

(** The fields of the first candidate, and its content parts. *)
Definition first_candidate (data : json) : list (string * json) :=
  match data with
  | JObj top =>
      match lookup "candidates" top with
      | Some (JArr (JObj cand :: _)) => cand
      | _ => []
      end
  | _ => []
  end.

Definition parts_of (data : json) : list json :=
  match lookup "content" (first_candidate data) with
  | Some (JObj ct) =>
      match lookup "parts" ct with
      | Some (JArr ps) => ps
      | _ => []
      end
  | _ => []
  end.

(** The text of the first part; empty when it has none. *)
Definition first_text (parts : list json) : string :=
  match parts with
  | JObj kv :: _ =>
      match lookup "text" kv with
      | Some (JStr s) => s
      | _ => ""
      end
  | _ => ""
  end.

(** The reply's token counts, 0 for a count that is not given. *)
Definition usage_of (data : json) : RequestUsage :=
  match data with
  | JObj top =>
      match lookup "usageMetadata" top with
      | Some (JObj u) =>
          {| prompt_tokens :=
               match lookup "promptTokenCount" u with
               | Some v => v | None => JInt 0 end;
             completion_tokens :=
               match lookup "candidatesTokenCount" u with
               | Some v => v | None => JInt 0 end |}
      | _ => zero_usage
      end
  | _ => zero_usage
  end.

(** The uniform finish reason: [length] for [MAX_TOKENS],
    [content_filter] for [SAFETY] and [RECITATION], [stop] otherwise. *)
Definition finish_of (data : json) : finish_reason_t :=
  match lookup "finishReason" (first_candidate data) with
  | Some (JStr s) =>
      if String.eqb s "MAX_TOKENS" then fr_length
      else if String.eqb s "SAFETY" || String.eqb s "RECITATION"
           then fr_content_filter
           else fr_stop
  | _ => fr_stop
  end.

(** The parts that signal a function call, as ([name], [args]) pairs in
    the order of the parts. *)
Fixpoint signalled (parts : list json) : list (json * json) :=
  match parts with
  | [] => []
  | JObj kv :: r =>
      match lookup "functionCall" kv with
      | Some (JObj fc) =>
          match lookup "name" fc, lookup "args" fc with
          | Some n, Some a => (n, a) :: signalled r
          | _, _ => signalled r
          end
      | _ => signalled r
      end
  | _ :: r => signalled r
  end.

(** The calls built for them, identified from the [n]-th draw on. *)
Fixpoint calls_from (env : Env) (n : nat) (sig : list (json * json))
  : list FunctionCall :=
  match sig with
  | [] => []
  | (name, args) :: r =>
      {| fc_id := uuid4 env n; fc_name := name; fc_arguments := args |}
        :: calls_from env (S n) r
  end.

Lemma collect_tool_calls_spec (env : Env) (parts : list json) :
  forallb well_formed_part parts = true ->
  forall acc w,
    collect_tool_calls env parts acc w
    = (Ok (acc ++ calls_from env (uuids w) (signalled parts)),
       {| trace := trace w; posts := posts w;
          uuids := uuids w + List.length (signalled parts) |}).
Proof.
  induction parts as [|part rest IH]; intros Hwf acc w.
  - cbn [collect_tool_calls signalled calls_from List.length ret].
    rewrite app_nil_r, Nat.add_0_r. destruct w; reflexivity.
  - cbn [forallb] in Hwf. apply andb_prop in Hwf. destruct Hwf as [Hp Hr].
    destruct part as [| | | | | |kv]; try discriminate.
    cbn [collect_tool_calls signalled]. unfold bind, lift, contains, has_key.
    unfold well_formed_part in Hp.
    destruct (lookup "functionCall" kv) as [fc|] eqn:Hfc.
    + destruct fc as [| | | | | |fkv]; try discriminate.
      apply andb_prop in Hp. destruct Hp as [Hn Ha].
      unfold has_key in Hn, Ha. unfold getitem. rewrite Hfc.
      destruct (lookup "name" fkv) as [nm|]; [|discriminate].
      destruct (lookup "args" fkv) as [a|]; [|discriminate].
      cbn [draw_uuid]. rewrite (IH Hr). cbn [uuids trace posts].
      cbn [calls_from List.length]. rewrite <- app_assoc.
      cbn [app]. rewrite Nat.add_succ_r. reflexivity.
    + apply IH, Hr.
Qed.

(** The whole result of parsing a well-formed reply. *)
Lemma parse_response_on_well_formed (env : Env) (data : json) (w : World) :
  well_formed data = true ->
  parse_response env data w
  = (Ok {| content := inl (first_text (parts_of data));
           usage := usage_of data;
           finish_reason := finish_of data;
           cached := false |},
     {| trace := trace w; posts := posts w;
        uuids := uuids w + List.length (signalled (parts_of data)) |}).
Proof.
  unfold well_formed, parts_of, usage_of, finish_of, first_candidate.
  destruct data as [| | | | | |top]; try discriminate.
  destruct (lookup "candidates" top)
    as [[| | | | |[|[| | | | | |cand] cs]|]|] eqn:Hc; try discriminate.
  destruct (lookup "content" cand) as [[| | | | | |ct]|] eqn:Hct;
    try discriminate.
  destruct (lookup "parts" ct) as [[| | | | |[|first rest]|]|] eqn:Hps;
    try discriminate.
  intros H. apply andb_prop in H. destruct H as [H Hu].
  apply andb_prop in H. destruct H as [H Hf].
  apply andb_prop in H. destruct H as [Ht Hparts].
  destruct first as [| | | | | |fkv]; try discriminate.
  unfold text_is_string in Ht.
  pose proof (collect_tool_calls_spec env _ Hparts [] w) as Hcalls.
  cbn [app] in Hcalls.
  unfold parse_response, bind, lift, ret, getitem, getitem0, contains,
    has_key, py_iter, dict_get.
  rewrite Hc. cbn beta iota. rewrite Hct. cbn beta iota.
  rewrite Hps. cbn beta iota. unfold first_text.
  destruct (lookup "text" fkv) as [[| | | |s| |]|] eqn:Htext;
    try discriminate; cbn beta iota; rewrite Hcalls; cbn beta iota;
    (destruct (lookup "finishReason" cand) as [[| | | |fr| |]|];
     try discriminate; cbn [map_finish_reason];
     destruct (lookup "usageMetadata" top) as [[| | | | | |ukv]|];
     try discriminate; cbn beta iota; cbn [validate_content];
     first
       [ reflexivity
       | destruct (String.eqb_spec fr "STOP") as [->|];
         [ reflexivity
         | destruct (String.eqb_spec fr "MAX_TOKENS") as [->|];
           [ reflexivity
           | destruct (String.eqb_spec fr "SAFETY") as [->|];
             [ reflexivity
             | destruct (String.eqb_spec fr "RECITATION") as [->|];
               [ reflexivity
               | destruct (String.eqb_spec fr "OTHER") as [->|];
                 reflexivity ] ] ] ] ]).
Qed.

End ReplyLaws.

Section ReplyTheorems.
Import Gemini.

(** A reply whose first part is a function call and whose text comes in
    the second part. *)
Definition call_then_text_reply : json :=
  JObj [("candidates",
         JArr [JObj [("content",
                      JObj [("parts",
                             JArr [JObj [("functionCall",
                                          JObj [("name", JStr "search");
                                                ("args", JObj [])])];
                                   JObj [("text", JStr "Looking it up")];
                                   JObj [("functionCall",
                                          JObj [("name", JStr "verify");
                                                ("args", JObj [])])]])]);
                     ("finishReason", JStr "BLOCKLIST")]])].

(** A reply with one part, an empty text. *)
Definition empty_text_reply : json :=
  JObj [("candidates",
         JArr [JObj [("content",
                      JObj [("parts", JArr [JObj [("text", JStr "")]])])]])].

(** For a success response carrying a well-formed reply, [create]
    returns the result whose content is the text of the first part only
    (empty when the first part has no text, whatever the later parts
    hold), whose usage is the reply's token counts (0 for a count not
    given), whose finish reason is [length] for [MAX_TOKENS],
    [content_filter] for [SAFETY] and [RECITATION] and [stop] for any
    other or no value, and which is not cached. The function calls that
    the parts signal are not in it. *)
Theorem create_result_of_well_formed_reply (fuel : nat) (env : Env)
  (self : NativeGeminiClient) (messages : list LLMMessage)
  (tools : option (list tool)) (payload : json) (w : World)
  (r : response) (data : json) :
  2 <= fuel ->
  build_payload messages tools = Ok payload ->
  backend env (posts w) (request_url self) payload = Responded r ->
  (status_code r < 400)%Z ->
  body r = Some data ->
  well_formed data = true ->
  exists w',
    create fuel env self messages tools w
    = Some (Ok {| content := inl (first_text (parts_of data));
                  usage := usage_of data;
                  finish_reason := finish_of data;
                  cached := false |},
            self, w').
Proof.
  intros Hf Hp Hr Hs Hb Hwf.
  destruct (create_on_reply env fuel self messages tools payload w r data
              Hf Hp Hr Hs Hb) as (w1 & E & _).
  unfold parse_or_ValueError, try_except in E.
  rewrite (parse_response_on_well_formed env data w1 Hwf) in E.
  cbn [fst snd] in E. eexists. exact E.
Qed.

Lemma create_result_of_call_then_text :
  exists w',
    create 2 (scripted [ok_with call_then_text_reply]) client0 hi None world0
    = Some (Ok {| content := inl "";
                  usage := zero_usage;
                  finish_reason := fr_stop;
                  cached := false |},
            client0, w').
Proof.
  exact (create_result_of_well_formed_reply 2
           (scripted [ok_with call_then_text_reply]) client0 hi None
           hi_payload world0 _ call_then_text_reply (le_n 2)
           eq_refl eq_refl ltac:(simpl; lia) eq_refl eq_refl).
Defined.

(** The function calls that a well-formed reply signals never reach the
    caller. The parser draws one [uuid4] for each of them and logs
    nothing, but the result holds no call: its content is the text of
    the first part, and any well-formed reply with the same first text,
    usage and finish reason, whatever function calls it signals, is
    parsed to the very same result. *)
Theorem function_calls_never_reach_the_caller (env : Env) (data : json)
  (w w' : World) (res : CreateResult) :
  well_formed data = true ->
  parse_response env data w = (Ok res, w') ->
  content res = inl (first_text (parts_of data)) /\
  uuids w' = uuids w + List.length (signalled (parts_of data)) /\
  trace w' = trace w /\
  (forall data0 w0,
     well_formed data0 = true ->
     first_text (parts_of data0) = first_text (parts_of data) ->
     usage_of data0 = usage_of data ->
     finish_of data0 = finish_of data ->
     fst (parse_response env data0 w0) = Ok res).
Proof.
  intros Hwf E.
  rewrite (parse_response_on_well_formed env data w Hwf) in E.
  injection E as <- <-. cbn [content uuids trace].
  split; [reflexivity|]. split; [reflexivity|]. split; [reflexivity|].
  intros data0 w0 Hwf0 Ht Hu Hfr.
  rewrite (parse_response_on_well_formed env data0 w0 Hwf0).
  cbn [fst]. rewrite Ht, Hu, Hfr. reflexivity.
Qed.

Lemma calls_of_call_then_text_are_dropped :
  exists res w',
    parse_response (scripted []) call_then_text_reply world0 = (Ok res, w') /\
    uuids w' = 2 /\
    fst (parse_response (scripted []) empty_text_reply world0) = Ok res.
Proof.
  assert (E : exists res w',
             parse_response (scripted []) call_then_text_reply world0
             = (Ok res, w')) by (eexists _, _; vm_compute; reflexivity).
  destruct E as (res & w' & E).
  destruct (function_calls_never_reach_the_caller (scripted [])
              call_then_text_reply world0 w' res eq_refl E)
    as (_ & Hu & _ & Hsame).
  exists res, w'. split; [exact E|]. split; [exact Hu|].
  apply Hsame; reflexivity.
Defined.

(** A reply whose first part signals a function call with a [name] and
    no [args]: it is refused. [create]'s parser raises the [ValueError]
    naming ['args'], having logged the payload and drawn no identifier. *)
Theorem function_call_without_args_is_refused (env : Env) (w : World)
  (top cand ct kv fc : list (string * json)) (cs rest : list json)
  (name : json) :
  lookup "candidates" top = Some (JArr (JObj cand :: cs)) ->
  lookup "content" cand = Some (JObj ct) ->
  lookup "parts" ct = Some (JArr (JObj kv :: rest)) ->
  lookup "functionCall" kv = Some (JObj fc) ->
  lookup "name" fc = Some name ->
  lookup "args" fc = None ->
  parse_or_ValueError env (JObj top) w
  = (Raise (ValueError "Invalid response format from Gemini: 'args'"),
     snd (emit (Log (FailedToParse (JObj top))) w)).
Proof.
  intros Hc Hct Hps Hfc Hn Ha.
  unfold parse_or_ValueError, try_except, parse_response, bind, lift, ret,
    getitem, getitem0, contains, has_key, py_iter.
  rewrite Hc. cbn beta iota. rewrite Hct. cbn beta iota.
  rewrite Hps. cbn beta iota. cbn [collect_tool_calls].
  unfold bind, lift, contains, has_key, getitem.
  destruct (lookup "text" kv) as [t|];
    rewrite Hfc; cbn beta iota; rewrite Hn, Ha; reflexivity.
Qed.

Lemma call_without_args_is_refused :
  parse_or_ValueError (scripted []) call_without_args_reply world0
  = (Raise (ValueError "Invalid response format from Gemini: 'args'"),
     snd (emit (Log (FailedToParse call_without_args_reply)) world0)).
Proof.
  unfold call_without_args_reply.
  eapply function_call_without_args_is_refused; reflexivity.
Defined.

End ReplyTheorems.

(** ** More on [RagFlowClient.search] *)

Section SearchLaws.
Import RagFlow.

(** The value [doc.get(k1, doc.get(k2, default))] of a chunk. *)
Definition preferred (k1 k2 : string) (default : json)
  (kv : list (string * json)) : json :=
  match lookup k1 kv with
  | Some v => v
  | None => match lookup k2 kv with Some v => v | None => default end
  end.

(** An item made from a chunk: it keeps the chunk, its content is the
    chunk's [content_with_weight], else its [content], else empty; its
    name is the chunk's [doc_name], else the fallback [name0]. *)
Definition item_matches (keyword_fallback : bool) (doc : json)
  (item : EvidenceItem) : Prop :=
  original_metadata item = doc /\
  exists kv,
    doc = JObj kv /\
    JStr (content item) = preferred "content_with_weight" "content" (JStr "") kv
    /\
    JStr (document_name item)
    = if keyword_fallback
      then preferred "doc_name" "document_keyword" (JStr "Unknown Document") kv
      else match lookup "doc_name" kv with
           | Some v => v
           | None => JStr "Unknown Document"
           end.

Lemma item_of_doc_matches (cfg : Config) (kw : bool) (doc : json)
  (item : EvidenceItem) :
  item_of_doc cfg kw doc = Ok item -> item_matches kw doc item.
Proof.
  unfold item_of_doc, item_matches, preferred.
  destruct doc as [| | | | | |kv]; try (destruct kw; discriminate).
  cbn [dict_get obind].
  remember (match lookup "content_with_weight" kv with
            | Some v => v
            | None => match lookup "content" kv with
                      | Some v => v | None => JStr "" end
            end) as c eqn:Hc.
  destruct kw; cbn [obind];
    match goal with
    | |- new_EvidenceItem _ _ ?n _ _ _ = _ -> _ => remember n as nm eqn:Hn
    end;
    unfold new_EvidenceItem;
    destruct c; try discriminate; destruct nm; try discriminate;
    destruct (match lookup "chunk_id" kv with Some v => v | None => JNull end);
    try discriminate; cbn [obind];
    destruct (match lookup "similarity" kv with Some v => v | None => JNull end);
    cbn [obind];
    try (destruct (pydantic_float cfg _); try discriminate; cbn [obind]);
    intros [= <-]; (split; [reflexivity|]); exists kv;
    cbn [content document_name]; auto.
Qed.

Lemma items_of_docs_match (cfg : Config) (kw : bool) (docs : list json) :
  forall items,
    items_of_docs cfg kw docs = Ok items ->
    Forall2 (item_matches kw) docs items.
Proof.
  induction docs as [|doc r IH]; intros items; cbn [items_of_docs].
  - intros [= <-]. constructor.
  - destruct (item_of_doc cfg kw doc) as [item|] eqn:E; [|discriminate].
    cbn [obind].
    destruct (items_of_docs cfg kw r) as [rest|]; [|discriminate].
    cbn [obind]. intros [= <-]. constructor.
    + exact (item_of_doc_matches cfg kw doc item E).
    + apply IH. reflexivity.
Qed.

Lemma items_of_docs_raise (cfg : Config) (kw : bool) (docs : list json)
  (bad : json) (e : pyexn) :
  In bad docs -> item_of_doc cfg kw bad = Raise e ->
  exists e', items_of_docs cfg kw docs = Raise e'.
Proof.
  intros Hin Hbad. induction docs as [|doc r IH]; [destruct Hin|].
  cbn [items_of_docs]. destruct Hin as [->|Hin].
  - rewrite Hbad. cbn [obind]. eauto.
  - destruct (item_of_doc cfg kw doc); cbn [obind]; [|eauto].
    destruct (IH Hin) as (e' & ->). cbn [obind]. eauto.
Qed.

End SearchLaws.

Section SearchTheorems.
Import RagFlow.

(** The world after one request. *)
Definition after_post (url : string) (payload : json) (w : World) : World :=
  {| trace := trace w ++ [Post url payload];
     posts := S (posts w); uuids := uuids w |}.

(** The retrieval endpoint of a configuration. *)
Definition retrieval_url (cfg : Config) : string :=
  base_url cfg ++ "/api/v1/retrieval".

Lemma search_on_body (env : Env) (cfg : Config) (q : string) (top_k : Z)
  (threshold : float) (ids : option (list string)) (w : World)
  (r : response) (data : json) :
  backend env (posts w) (retrieval_url cfg)
    (search_payload cfg q top_k threshold ids) = Responded r ->
  (status_code r < 400)%Z ->
  body r = Some data ->
  search env cfg q top_k threshold ids w
  = (Ok match map_response cfg data with
        | Ok items => {| query := q; items := items;
                         total_items := List.length items |}
        | Raise _ => empty_pack q
        end,
     after_post (retrieval_url cfg) (search_payload cfg q top_k threshold ids)
       w).
Proof.
  intros Hr Hs Hb.
  unfold search, try_except, search_try, bind, lift, ret, requests_post.
  unfold retrieval_url in Hr. rewrite Hr.
  unfold raise_for_status, response_json.
  replace (400 <=? status_code r)%Z with false
    by (symmetry; apply Z.leb_gt; lia).
  cbn [andb]. rewrite Hb.
  destruct (map_response cfg data); reflexivity.
Qed.

Lemma search_world_after (env : Env) (cfg : Config)
  (q : string) (top_k : Z) (threshold : float)
  (ids : option (list string)) (w : World) :
  snd (search env cfg q top_k threshold ids w)
  = after_post (retrieval_url cfg) (search_payload cfg q top_k threshold ids) w.
Proof.
  unfold search, try_except, search_try, bind, lift, ret, requests_post,
    retrieval_url.
  destruct (backend env (posts w) _ _) as [|r]; [reflexivity|].
  destruct (raise_for_status r); [|reflexivity].
  destruct (response_json r) as [data|]; [|reflexivity].
  destruct (map_response cfg data); reflexivity.
Qed.

(** [search] sends exactly one request, to the retrieval endpoint with
    its payload, whatever the backend does: it does not retry, does not
    sleep and leaves no other mark. *)
Theorem search_sends_exactly_one_request (env : Env) (cfg : Config)
  (q : string) (top_k : Z) (threshold : float)
  (ids : option (list string)) (w : World) :
  let w' := snd (search env cfg q top_k threshold ids w) in
  trace w'
  = trace w ++ [Post (base_url cfg ++ "/api/v1/retrieval")
                  (search_payload cfg q top_k threshold ids)] /\
  posts w' = S (posts w) /\
  Gemini.delays w' = Gemini.delays w /\
  Gemini.posted w'
  = Gemini.posted w ++ [search_payload cfg q top_k threshold ids].
Proof.
  cbv zeta. rewrite search_world_after. unfold after_post, retrieval_url.
  unfold Gemini.delays, Gemini.posted. cbn [trace posts].
  rewrite !flat_map_app. cbn [flat_map app]. rewrite !app_nil_r. auto.
Qed.

(** A reply [{"code": 0, "data": {"chunks": docs}}] whose chunks are all
    accepted: the pack holds one item per chunk, in the order of the
    chunks; [total_items] is their number; each item keeps its chunk as
    metadata and takes its content from [content_with_weight] before
    [content], its name from [doc_name] before [document_keyword]. *)
Theorem search_maps_chunks_in_order (env : Env) (cfg : Config) (q : string)
  (top_k : Z) (threshold : float) (ids : option (list string)) (w : World)
  (r : response) (top dkv : list (string * json)) (docs : list json)
  (its : list EvidenceItem) :
  backend env (posts w) (retrieval_url cfg)
    (search_payload cfg q top_k threshold ids) = Responded r ->
  (status_code r < 400)%Z ->
  body r = Some (JObj top) ->
  lookup "code" top = Some (JInt 0) ->
  lookup "data" top = Some (JObj dkv) ->
  lookup "chunks" dkv = Some (JArr docs) ->
  items_of_docs cfg true docs = Ok its ->
  fst (search env cfg q top_k threshold ids w)
  = Ok {| query := q; items := its; total_items := List.length docs |} /\
  Forall2 (item_matches true) docs its.
Proof.
  intros Hr Hs Hb Hcode Hdata Hch Hits.
  pose proof (items_of_docs_match cfg true docs its Hits) as HF.
  split; [|exact HF].
  rewrite (search_on_body env cfg q top_k threshold ids w r _ Hr Hs Hb).
  cbn [fst]. unfold map_response.
  cbn [dict_get obind]. rewrite Hcode. cbn [equals_zero Z.eqb contains].
  unfold has_key. rewrite Hdata. cbn [obind getitem]. rewrite Hdata.
  cbn [obind]. unfold has_key. rewrite Hch. cbn [getitem]. rewrite Hch.
  cbn [obind py_iter]. rewrite Hits. cbn [obind].
  rewrite (Forall2_length HF). reflexivity.
Qed.

(** One chunk that is refused (it is not an object, or a field has the
    wrong type) empties the whole pack: the items of the other chunks
    are not returned either. *)
Theorem one_refused_chunk_empties_the_pack (env : Env) (cfg : Config)
  (q : string) (top_k : Z) (threshold : float) (ids : option (list string))
  (w : World) (r : response) (top dkv : list (string * json))
  (docs : list json) (bad : json) (e : pyexn) :
  backend env (posts w) (retrieval_url cfg)
    (search_payload cfg q top_k threshold ids) = Responded r ->
  (status_code r < 400)%Z ->
  body r = Some (JObj top) ->
  lookup "code" top = Some (JInt 0) ->
  lookup "data" top = Some (JObj dkv) ->
  lookup "chunks" dkv = Some (JArr docs) ->
  In bad docs ->
  item_of_doc cfg true bad = Raise e ->
  fst (search env cfg q top_k threshold ids w) = Ok (empty_pack q).
Proof.
  intros Hr Hs Hb Hcode Hdata Hch Hin Hbad.
  destruct (items_of_docs_raise cfg true docs bad e Hin Hbad) as (e' & He).
  rewrite (search_on_body env cfg q top_k threshold ids w r _ Hr Hs Hb).
  cbn [fst]. unfold map_response.
  cbn [dict_get obind]. rewrite Hcode. cbn [equals_zero Z.eqb contains].
  unfold has_key. rewrite Hdata. cbn [obind getitem]. rewrite Hdata.
  cbn [obind]. unfold has_key. rewrite Hch. cbn [getitem]. rewrite Hch.
  cbn [obind py_iter]. rewrite He. reflexivity.
Qed.

(** A reply whose [code] is missing or is not zero, or that has no
    [data]: the pack is empty, as after a failed retrieval. *)
Theorem reply_without_code_zero_gives_empty_pack (env : Env) (cfg : Config)
  (q : string) (top_k : Z) (threshold : float) (ids : option (list string))
  (w : World) (r : response) (top : list (string * json)) :
  backend env (posts w) (retrieval_url cfg)
    (search_payload cfg q top_k threshold ids) = Responded r ->
  (status_code r < 400)%Z ->
  body r = Some (JObj top) ->
  equals_zero (match lookup "code" top with Some v => v | None => JNull end)
  = false
  \/ lookup "data" top = None ->
  fst (search env cfg q top_k threshold ids w) = Ok (empty_pack q).
Proof.
  intros Hr Hs Hb H.
  rewrite (search_on_body env cfg q top_k threshold ids w r _ Hr Hs Hb).
  cbn [fst]. unfold map_response. cbn [dict_get obind contains].
  destruct H as [H|H].
  - rewrite H. reflexivity.
  - unfold has_key. rewrite H.
    destruct (equals_zero _); reflexivity.
Qed.

(** What the tool returns is always an object whose [total_items] is the
    length of its [items] list and whose [query] is the query asked. *)
Theorem retrieved_dump_counts_its_items (env : Env) (cfg : Config)
  (ids : option (list string)) (q : string) (w : World) :
  exists j its w',
    retrieve_legal_documents env cfg ids q w = (Ok j, w') /\
    getitem "query" j = Ok (JStr q) /\
    getitem "items" j = Ok (JArr its) /\
    getitem "total_items" j = Ok (JInt (Z.of_nat (List.length its))).
Proof.
  unfold retrieve_legal_documents, bind, search, try_except.
  destruct (search_try env cfg q _ w) as [[p|e] w1] eqn:E.
  - destruct (search_try_ok _ _ _ _ _ _ _ E) as (Hq & Ht).
    eexists _, _, _. split; [reflexivity|]. cbn [ret model_dump getitem lookup String.eqb Ascii.eqb Bool.eqb].
    rewrite Hq, Ht, length_map. auto.
  - eexists _, _, _. split; [reflexivity|].
    cbn. auto.
Qed.

End SearchTheorems.

Section SearchExamples.
Import RagFlow.

Definition chunk1 : json :=
  JObj [("content", JStr "plain"); ("content_with_weight", JStr "weighted");
        ("document_keyword", JStr "Law 60.pdf"); ("chunk_id", JStr "c1")].

Definition chunk2 : json := JObj [("content", JStr "second")].

Definition chunks_reply (docs : list json) : json :=
  JObj [("code", JInt 0); ("data", JObj [("chunks", JArr docs)])].

Definition item1 : EvidenceItem :=
  {| content := "weighted"; document_name := "Law 60.pdf";
     chunk_id := Some "c1"; similarity_score := None;
     original_metadata := chunk1 |}.

Definition item2 : EvidenceItem :=
  {| content := "second"; document_name := "Unknown Document";
     chunk_id := None; similarity_score := None;
     original_metadata := chunk2 |}.

Lemma search_maps_two_chunks :
  fst (search (scripted [ok_with (chunks_reply [chunk1; chunk2])])
         local_ragflow "land law" 5 0.5%float None world0)
  = Ok {| query := "land law"; items := [item1; item2]; total_items := 2 |}.
Proof.
  exact (proj1 (search_maps_chunks_in_order
                  (scripted [ok_with (chunks_reply [chunk1; chunk2])])
                  local_ragflow "land law" 5 0.5%float None world0
                  {| status_code := 200; retry_after := None; text := "";
                     body := Some (chunks_reply [chunk1; chunk2]) |}
                  [("code", JInt 0);
                   ("data", JObj [("chunks", JArr [chunk1; chunk2])])]
                  [("chunks", JArr [chunk1; chunk2])]
                  [chunk1; chunk2] [item1; item2]
                  eq_refl ltac:(simpl; lia) eq_refl eq_refl eq_refl eq_refl
                  eq_refl)).
Defined.

(** The second chunk is a string instead of an object. *)
Lemma search_with_one_refused_chunk :
  fst (search (scripted [ok_with (chunks_reply [chunk1; JStr "oops"; chunk2])])
         local_ragflow "land law" 5 0.5%float None world0)
  = Ok (empty_pack "land law").
Proof.
  exact (one_refused_chunk_empties_the_pack
           (scripted [ok_with (chunks_reply [chunk1; JStr "oops"; chunk2])])
           local_ragflow "land law" 5 0.5%float None world0
           {| status_code := 200; retry_after := None; text := "";
              body := Some (chunks_reply [chunk1; JStr "oops"; chunk2]) |}
           [("code", JInt 0);
            ("data", JObj [("chunks", JArr [chunk1; JStr "oops"; chunk2])])]
           [("chunks", JArr [chunk1; JStr "oops"; chunk2])]
           [chunk1; JStr "oops"; chunk2] (JStr "oops") AttributeError
           eq_refl ltac:(simpl; lia) eq_refl eq_refl eq_refl eq_refl
           (or_intror (or_introl eq_refl)) eq_refl).
Defined.

(** RAGFlow reports an error in the body of a 200 response. *)
Lemma search_with_error_code :
  fst (search (scripted [ok_with (JObj [("code", JInt 102);
                                        ("message", JStr "no dataset")])])
         local_ragflow "land law" 5 0.5%float None world0)
  = Ok (empty_pack "land law").
Proof.
  exact (reply_without_code_zero_gives_empty_pack
           (scripted [ok_with (JObj [("code", JInt 102);
                                     ("message", JStr "no dataset")])])
           local_ragflow "land law" 5 0.5%float None world0
           {| status_code := 200; retry_after := None; text := "";
              body := Some (JObj [("code", JInt 102);
                                  ("message", JStr "no dataset")]) |}
           [("code", JInt 102); ("message", JStr "no dataset")]
           eq_refl ltac:(simpl; lia) eq_refl (or_introl eq_refl)).
Defined.

End SearchExamples.

(* ================================================================== *)
(** ** tools.py: the module's globals and the web search               *)
(* ================================================================== *)

Module Tools.

(** The module-level variable of tools.py. *)
Record globals : Type := {
  _knowledge_ids : option (list string)
}.

(** The module as imported: [_knowledge_ids = None]. *)
Definition imported : globals := {| _knowledge_ids := None |}.

(** [set_knowledge_ids] (the [print] left out). *)
Definition set_knowledge_ids (ids : option (list string)) (g : globals)
  : globals :=
  {| _knowledge_ids := ids |}.

Definition get_knowledge_ids (g : globals) : option (list string) :=
  _knowledge_ids g.

(** [retrieve_legal_documents], reading the global at the call. *)
Definition retrieve_legal_documents (env : Env) (cfg : RagFlow.Config)
  (g : globals) (query : string) : M json :=
  RagFlow.retrieve_legal_documents env cfg (_knowledge_ids g) query.

(** What [DDGS().text(...)] does: it raises an exception whose [str] is
    given, or returns its results, each a dict from strings to strings. *)
Inductive ddgs_outcome : Type :=
| DDGSRaises (str_e : string)
| DDGSReturns (results : list (list (string * string))).

Fixpoint get_str (k : string) (d : list (string * string)) : option string :=
  match d with
  | [] => None
  | (k', v) :: r => if String.eqb k k' then Some v else get_str k r
  end.

(** The keywords of line 47. *)
Definition keywords (query : string) : string :=
  "hiệu lực văn bản " ++ query ++ " thuvienphapluat vanbanphapluat".

(** The f-string of line 53 for one result: the text, or the key whose
    subscript raised [KeyError]. *)
Definition evidence_line (r : list (string * string)) : string + string :=
  match get_str "title" r with
  | None => inr "title"
  | Some title =>
      match get_str "href" r with
      | None => inr "href"
      | Some href =>
          match get_str "body" r with
          | None => inr "body"
          | Some body =>
              inl ("Title: " ++ title ++ "
Link: " ++ href ++ "
Snippet: " ++ body)%string
          end
      end
  end.

(** The loop of lines 52-53: the evidence, or the first key missing. *)
Fixpoint evidence_lines (results : list (list (string * string)))
  : list string + string :=
  match results with
  | [] => inl []
  | r :: rest =>
      match evidence_line r with
      | inr k => inr k
      | inl line =>
          match evidence_lines rest with
          | inr k => inr k
          | inl lines => inl (line :: lines)
          end
      end
  end.

(** [sep.join(lines)]. *)
Fixpoint join (sep : string) (lines : list string) : string :=
  match lines with
  | [] => ""
  | [x] => x
  | x :: r => (x ++ sep ++ join sep r)%string
  end.

(** [search_legal_updates]: [ddgs] is [DDGS().text] (at most five
    results asked for). *)
Definition search_legal_updates (ddgs : string -> ddgs_outcome)
  (query : string) : string :=
  match ddgs (keywords query) with
  | DDGSRaises str_e => ("Lỗi khi search web: " ++ str_e)%string
  | DDGSReturns [] => "Không tìm thấy thông tin trên web."
  | DDGSReturns results =>
      match evidence_lines results with
      | inr k => ("Lỗi khi search web: " ++ ("'" ++ k ++ "'"))%string
      | inl lines => join "
---
" lines
      end
  end.

End Tools.

(** ** Properties of tools.py and config.py *)

Section ToolsTheorems.
Import Tools.

(** The dataset ids a retrieval asks for: the ids given when there is at
    least one, else those of the environment, else none. *)
Definition resolved_ids (cfg : RagFlow.Config) (ids : option (list string))
  : list string :=
  match ids with
  | Some (i :: r) => i :: r
  | _ => match RagFlow.env_knowledge_ids cfg with
         | Some e => e
         | None => []
         end
  end.

(** After [set_knowledge_ids(ids)], [get_knowledge_ids()] returns [ids]
    and the next [retrieve_legal_documents] posts one request, for ten
    results, whose [dataset_ids] are [ids] when that is a non-empty list
    and the ids of the environment when it is [None] or empty. *)
Theorem knowledge_ids_set_then_used (env : Env) (cfg : RagFlow.Config)
  (g : globals) (ids : option (list string)) (q : string) (w : World) :
  let g' := set_knowledge_ids ids g in
  get_knowledge_ids g' = ids /\
  exists payload,
    Gemini.posted (snd (retrieve_legal_documents env cfg g' q w))
    = Gemini.posted w ++ [payload] /\
    getitem "question" payload = Ok (JStr q) /\
    getitem "top_k" payload = Ok (JInt 10) /\
    getitem "dataset_ids" payload = Ok (JArr (map JStr (resolved_ids cfg ids))).
Proof.
  cbv zeta. split; [reflexivity|].
  exists (RagFlow.search_payload cfg q 10 0.5%float ids). split.
  - unfold retrieve_legal_documents, RagFlow.retrieve_legal_documents, bind.
    cbn [set_knowledge_ids _knowledge_ids].
    pose proof (search_world_after env cfg q 10 0.5%float ids w) as H.
    destruct (RagFlow.search env cfg q 10 0.5%float ids w) as [[p|e] w1];
      cbn [snd ret] in *; subst w1;
      unfold after_post, Gemini.posted; cbn [trace];
      rewrite flat_map_app; cbn [flat_map app]; reflexivity.
  - unfold RagFlow.search_payload, resolved_ids.
    destruct ids as [[|i r]|]; repeat split; reflexivity.
Qed.

Lemma evidence_lines_defective (good : list (list (string * string)))
  (bad : list (string * string)) (rest : list (list (string * string)))
  (lines : list string) (k : string) :
  evidence_lines good = inl lines ->
  evidence_line bad = inr k ->
  evidence_lines (good ++ bad :: rest) = inr k.
Proof.
  revert lines. induction good as [|r0 good IH]; intros lines Hg Hb.
  - cbn [app evidence_lines]. rewrite Hb. reflexivity.
  - cbn [app evidence_lines] in *.
    destruct (evidence_line r0) as [l0|]; [|discriminate].
    destruct (evidence_lines good) as [ls|] eqn:E; [|discriminate].
    rewrite (IH ls eq_refl Hb). reflexivity.
Qed.

Lemma evidence_lines_length (results : list (list (string * string))) :
  forall lines,
    evidence_lines results = inl lines ->
    List.length lines = List.length results.
Proof.
  induction results as [|r rest IH]; intros lines; cbn [evidence_lines].
  - intros [= <-]. reflexivity.
  - destruct (evidence_line r); [|discriminate].
    destruct (evidence_lines rest) as [ls|]; [|discriminate].
    intros [= <-]. cbn [List.length]. rewrite (IH ls eq_refl). reflexivity.
Qed.

(** The web search never raises: when the search engine raises, it
    returns the error text after the fixed prefix; when there is no
    result, the "not found" sentence; when one result lacks [title],
    [href] or [body], the error text naming the first key missing, and
    none of the other results; otherwise one block per result, joined. *)
Theorem web_search_returns_digest_or_message
  (ddgs : string -> ddgs_outcome) (query : string) :
  (forall m, ddgs (keywords query) = DDGSRaises m ->
     search_legal_updates ddgs query
     = String.append "Lỗi khi search web: " m)
  /\
  (ddgs (keywords query) = DDGSReturns [] ->
     search_legal_updates ddgs query = "Không tìm thấy thông tin trên web.")
  /\
  (forall good bad rest lines k,
     ddgs (keywords query) = DDGSReturns (good ++ bad :: rest) ->
     evidence_lines good = inl lines ->
     evidence_line bad = inr k ->
     search_legal_updates ddgs query
     = String.append "Lỗi khi search web: "
         (String.append "'" (String.append k "'")))
  /\
  (forall r rest lines,
     ddgs (keywords query) = DDGSReturns (r :: rest) ->
     evidence_lines (r :: rest) = inl lines ->
     search_legal_updates ddgs query = join "
---
" lines /\
     List.length lines = S (List.length rest)).
Proof.
  unfold search_legal_updates. split; [|split; [|split]].
  - intros m ->. reflexivity.
  - intros ->. reflexivity.
  - intros good bad rest lines k -> Hg Hb.
    rewrite (evidence_lines_defective good bad rest lines k Hg Hb).
    destruct good; reflexivity.
  - intros r rest lines -> Hl. rewrite Hl. split; [reflexivity|].
    exact (evidence_lines_length _ _ Hl).
Qed.

End ToolsTheorems.

Section ConfigTheorems.
Import Workflow.

(** An OpenAI key that is set, not empty and not the placeholder. *)
Definition usable_openai_key (k : option string) : bool :=
  match nonempty k with
  | Some s => negb (is_prefix "sk-..." s)
  | None => false
  end.

(** [get_model_client] raises exactly when there is neither a usable
    OpenAI key nor a Gemini key; a usable OpenAI key wins over a Gemini
    key and is passed on with the base url; a placeholder OpenAI key
    (one that starts with [sk-...]) counts as no key. *)
Theorem get_model_client_choice (k g b : option string) :
  ((exists e, get_model_client k g b = Raise e)
   <-> usable_openai_key k = false /\ nonempty g = None)
  /\
  (usable_openai_key k = true ->
   exists key, k = Some key /\
               get_model_client k g b = Ok (OpenAIChatCompletion key b))
  /\
  (usable_openai_key k = false ->
   forall key, nonempty g = Some key ->
               get_model_client k g b = Ok (NativeGemini key)).
Proof.
  unfold get_model_client, usable_openai_key.
  destruct k as [ks|]; cbn [nonempty];
    [destruct (String.eqb ks ""); [|destruct (is_prefix "sk-..." ks)]|];
    cbn [negb]; destruct (nonempty g) as [gk|];
    (split;
     [ split;
       [ intros [e He]; try discriminate He; auto
       | intros [H1 H2]; try discriminate H1; try discriminate H2; eauto ]
     | split;
       [ intros H; try discriminate H; eauto
       | intros H key Hk; try discriminate H; try discriminate Hk;
         try (injection Hk as <-); reflexivity ] ]).
Qed.

End ConfigTheorems.

(* ================================================================== *)
(** ** citation_formatter.py: citations and the bibliography           *)
(* ================================================================== *)

From Stdlib Require Import DecimalString Permutation Sorted.

(** [str(n)] / [f"{n}"] for an [int]. *)
Definition str_int (n : Z) : string := NilZero.string_of_int (Z.to_int n).

(** [sep.join(lines)]. *)
Fixpoint str_join (sep : string) (lines : list string) : string :=
  match lines with
  | [] => ""
  | [x] => x
  | x :: r => (x ++ sep ++ str_join sep r)%string
  end.

Module CitationFormatter.

Inductive DocumentType : Type :=
| LAW | DECREE | CIRCULAR | RESOLUTION | DECISION | DIRECTIVE | UNKNOWN.

(** [DocumentType.value]. *)
Definition value (t : DocumentType) : string :=
  match t with
  | LAW => "Luật"
  | DECREE => "Nghị định"
  | CIRCULAR => "Thông tư"
  | RESOLUTION => "Nghị quyết"
  | DECISION => "Quyết định"
  | DIRECTIVE => "Chỉ thị"
  | UNKNOWN => "Unknown"
  end.

Definition type_eqb (a b : DocumentType) : bool :=
  match a, b with
  | LAW, LAW | DECREE, DECREE | CIRCULAR, CIRCULAR
  | RESOLUTION, RESOLUTION | DECISION, DECISION
  | DIRECTIVE, DIRECTIVE | UNKNOWN, UNKNOWN => true
  | _, _ => false
  end.

(** The dataclass [Citation]. *)
Record Citation : Type := {
  document_type : DocumentType;
  document_number : string;
  year : Z;
  issuing_body : string;
  article : option Z;
  clause : option Z;
  point : option string;
  document_title : option string
}.

(** [if x:] on an [Optional[int]] and on an [Optional[str]]. *)
Definition truthy_int (o : option Z) : option Z :=
  match o with
  | Some n => if Z.eqb n 0 then None else Some n
  | None => None
  end.

Definition truthy_str (o : option string) : option string :=
  match o with
  | Some s => if String.eqb s "" then None else Some s
  | None => None
  end.

(** [[f(x)] if x else []]. *)
Definition part_if {A : Type} (o : option A) (f : A -> string) : list string :=
  match o with Some x => [f x] | None => [] end.

(** [Citation.to_vietnamese]. *)
Definition to_vietnamese (c : Citation) : string :=
  let parts :=
    part_if (truthy_str (point c)) (fun p => "Điểm " ++ p)%string
    ++ part_if (truthy_int (clause c)) (fun n => "Khoản " ++ str_int n)%string
    ++ part_if (truthy_int (article c)) (fun n => "Điều " ++ str_int n)%string
    ++ [(value (document_type c) ++ " số " ++ document_number c ++ "/"
         ++ str_int (year c) ++ "/" ++ issuing_body c)%string]
    ++ part_if (truthy_str (document_title c))
         (fun t => "(" ++ t ++ ")")%string in
  str_join " " parts.

(** The [type_map] of [to_english]. *)
Definition english_type (t : DocumentType) : string :=
  match t with
  | LAW => "Law"
  | DECREE => "Decree"
  | CIRCULAR => "Circular"
  | RESOLUTION => "Resolution"
  | DECISION => "Decision"
  | DIRECTIVE => "Directive"
  | UNKNOWN => "Document"
  end.

(** [Citation.to_english]. *)
Definition to_english (c : Citation) : string :=
  let parts :=
    part_if (truthy_str (point c)) (fun p => "Point " ++ p)%string
    ++ part_if (truthy_int (clause c)) (fun n => "Clause " ++ str_int n)%string
    ++ part_if (truthy_int (article c))
         (fun n => "Article " ++ str_int n)%string
    ++ [(english_type (document_type c) ++ " No. " ++ document_number c ++ "/"
         ++ str_int (year c) ++ "/" ++ issuing_body c)%string]
    ++ part_if (truthy_str (document_title c))
         (fun t => "(" ++ t ++ ")")%string in
  str_join ", " parts.

(** [format_footnote] and [format_inline]. *)
Definition format_footnote (c : Citation) (footnote_num : Z) : string :=
  "[^" ++ str_int footnote_num ++ "]: " ++ to_vietnamese c.

Definition format_inline (c : Citation) : string :=
  "(" ++ to_english c ++ ")".

(** *** [create_bibliography] *)

(** The dict [by_type], in insertion order. *)
Definition groups : Type := list (DocumentType * list Citation).

Fixpoint group_get (t : DocumentType) (g : groups) : option (list Citation) :=
  match g with
  | [] => None
  | (t', cs) :: r => if type_eqb t t' then Some cs else group_get t r
  end.

(** [by_type[t].append(c)], the key present. *)
Fixpoint group_append (t : DocumentType) (c : Citation) (g : groups)
  : groups :=
  match g with
  | [] => []
  | (t', cs) :: r =>
      if type_eqb t t' then (t', cs ++ [c]) :: r
      else (t', cs) :: group_append t c r
  end.

(** One turn of the loop of lines 200-203. *)
Definition group_step (g : groups) (c : Citation) : groups :=
  let g :=
    match group_get (document_type c) g with
    | None => g ++ [(document_type c, [])]
    | Some _ => g
    end in
  group_append (document_type c) c g.

Definition group_by_type (citations : list Citation) : groups :=
  fold_left group_step citations [].

(** The sort key [(x.year, x.document_number)] and its order: the years
    as integers, then the numbers as strings. *)
Definition key_le (a b : Citation) : bool :=
  (year a <? year b)%Z
  || ((year a =? year b)%Z && String.leb (document_number a) (document_number b)).

(** [sorted(l, key=...)]: the sort is stable, so it is the stable
    insertion sort's result. *)
Fixpoint insert_sorted (x : Citation) (l : list Citation) : list Citation :=
  match l with
  | [] => [x]
  | y :: r => if key_le x y then x :: y :: r else y :: insert_sorted x r
  end.

Fixpoint sorted (l : list Citation) : list Citation :=
  match l with
  | [] => []
  | x :: r => insert_sorted x (sorted r)
  end.

Definition type_order : list DocumentType :=
  [LAW; DECREE; CIRCULAR; RESOLUTION; DECISION; DIRECTIVE].

(** The lines one type adds (lines 211-217). *)
Definition section_lines (g : groups) (t : DocumentType) : list string :=
  match group_get t g with
  | None => []
  | Some cs =>
      [("### " ++ value t ++ "s")%string]
      ++ map (fun c => ("- " ++ to_vietnamese c)%string) (sorted cs)
      ++ [""]
  end.

Definition bibliography_lines (citations : list Citation) : list string :=
  "## References
" :: flat_map (section_lines (group_by_type citations)) type_order.

(** [create_bibliography]. *)
Definition create_bibliography (citations : list Citation) : string :=
  str_join "
" (bibliography_lines citations).

End CitationFormatter.

(** ** Properties of citation_formatter.py *)

Section CitationTheorems.
Import CitationFormatter.

(** The citation with its falsy optional parts (an article or clause
    that is 0, an empty point or title) turned into absent ones. *)
Definition without_falsy_parts (c : Citation) : Citation :=
  {| document_type := document_type c;
     document_number := document_number c;
     year := year c;
     issuing_body := issuing_body c;
     article := truthy_int (article c);
     clause := truthy_int (clause c);
     point := truthy_str (point c);
     document_title := truthy_str (document_title c) |}.

(** Is the citation of this type? *)
Definition of_type (t : DocumentType) (c : Citation) : bool :=
  type_eqb t (document_type c).

(** The citations a bibliography lists, in the order of its lines. *)
Definition listed (citations : list Citation) : list Citation :=
  flat_map (fun t => sorted (filter (of_type t) citations)) type_order.

Definition key_ordered (a b : Citation) : Prop := key_le a b = true.

Lemma truthy_int_idempotent o : truthy_int (truthy_int o) = truthy_int o.
Proof.
  destruct o as [n|]; [|reflexivity]. cbn [truthy_int].
  destruct (Z.eqb n 0) eqn:E; [reflexivity|]. cbn [truthy_int].
  rewrite E. reflexivity.
Qed.

Lemma truthy_str_idempotent o : truthy_str (truthy_str o) = truthy_str o.
Proof.
  destruct o as [s|]; [|reflexivity]. cbn [truthy_str].
  destruct (String.eqb s "") eqn:E; [reflexivity|]. cbn [truthy_str].
  rewrite E. reflexivity.
Qed.

(** An article or a clause numbered 0, an empty point and an empty title
    are treated as absent: both formats, the footnote and the inline
    form print the citation as if those parts were not given. *)
Theorem formats_skip_zero_and_empty_parts (c : Citation) (n : Z) :
  to_vietnamese (without_falsy_parts c) = to_vietnamese c /\
  to_english (without_falsy_parts c) = to_english c /\
  format_footnote (without_falsy_parts c) n = format_footnote c n /\
  format_inline (without_falsy_parts c) = format_inline c.
Proof.
  assert (Hv : to_vietnamese (without_falsy_parts c) = to_vietnamese c).
  { unfold to_vietnamese, without_falsy_parts.
    cbn [point clause article document_title document_type document_number
         year issuing_body].
    rewrite !truthy_int_idempotent, !truthy_str_idempotent. reflexivity. }
  assert (He : to_english (without_falsy_parts c) = to_english c).
  { unfold to_english, without_falsy_parts.
    cbn [point clause article document_title document_type document_number
         year issuing_body].
    rewrite !truthy_int_idempotent, !truthy_str_idempotent. reflexivity. }
  unfold format_footnote, format_inline. rewrite Hv, He. auto.
Qed.

(** *** Grouping *)

Lemma type_eqb_eq a b : type_eqb a b = true <-> a = b.
Proof. destruct a, b; cbn; split; intros H; try reflexivity; discriminate. Qed.

Lemma type_eqb_refl a : type_eqb a a = true.
Proof. destruct a; reflexivity. Qed.

(** What [by_type] holds for a type: the citations of that type, in
    their order, or no entry when there is none. *)
Definition group_of (t : DocumentType) (l : list Citation)
  : option (list Citation) :=
  match filter (of_type t) l with
  | [] => None
  | f => Some f
  end.

Lemma group_get_new (t t' : DocumentType) (g : groups) :
  group_get t' (g ++ [(t, [])])
  = match group_get t' g with
    | Some x => Some x
    | None => if type_eqb t' t then Some [] else None
    end.
Proof.
  induction g as [|[t0 cs] r IH]; cbn [app group_get]; [reflexivity|].
  destruct (type_eqb t' t0); [reflexivity | exact IH].
Qed.

Lemma group_get_append (t t' : DocumentType) (c : Citation) (g : groups) :
  group_get t' (group_append t c g)
  = match group_get t' g with
    | Some l => if type_eqb t' t then Some (l ++ [c]) else Some l
    | None => None
    end.
Proof.
  induction g as [|[t0 cs] r IH]; cbn [group_append group_get];
    [reflexivity|].
  destruct (type_eqb t t0) eqn:E.
  - apply type_eqb_eq in E. subst t0. cbn [group_get].
    destruct (type_eqb t' t);
      [reflexivity | destruct (group_get t' r); reflexivity].
  - cbn [group_get]. destruct (type_eqb t' t0) eqn:E'; [|exact IH].
    apply type_eqb_eq in E'. subst t0.
    destruct (type_eqb t' t) eqn:E''; [|reflexivity].
    apply type_eqb_eq in E''. subst t'. rewrite type_eqb_refl in E.
    discriminate.
Qed.

Lemma group_step_represents (g : groups) (l : list Citation) (c : Citation) :
  (forall t, group_get t g = group_of t l) ->
  forall t, group_get t (group_step g c) = group_of t (l ++ [c]).
Proof.
  intros Hg t. unfold group_step, group_of.
  rewrite filter_app. cbn [filter]. unfold of_type at 2.
  rewrite group_get_append.
  destruct (group_get (document_type c) g) eqn:Ec.
  - rewrite Hg. unfold group_of.
    destruct (type_eqb t (document_type c)) eqn:E.
    + apply type_eqb_eq in E. subst t. rewrite Hg in Ec. unfold group_of in Ec.
      destruct (filter (of_type (document_type c)) l); [discriminate|].
      reflexivity.
    + rewrite app_nil_r. destruct (filter (of_type t) l); reflexivity.
  - rewrite group_get_new, Hg. unfold group_of.
    destruct (type_eqb t (document_type c)) eqn:E.
    + apply type_eqb_eq in E. subst t. rewrite Hg in Ec. unfold group_of in Ec.
      destruct (filter (of_type (document_type c)) l); [|discriminate].
      reflexivity.
    + rewrite app_nil_r. destruct (filter (of_type t) l); reflexivity.
Qed.

Lemma group_by_type_represents (citations : list Citation) :
  forall t, group_get t (group_by_type citations) = group_of t citations.
Proof.
  unfold group_by_type.
  assert (H : forall l g done,
             (forall t, group_get t g = group_of t done) ->
             forall t, group_get t (fold_left group_step l g)
                       = group_of t (done ++ l)).
  { induction l as [|c r IH]; intros g done Hg t; cbn [fold_left].
    - rewrite app_nil_r. apply Hg.
    - replace (done ++ c :: r) with ((done ++ [c]) ++ r)
        by (rewrite <- app_assoc; reflexivity).
      apply IH. apply group_step_represents, Hg. }
  intros t. apply (H citations [] []). intros t'. reflexivity.
Qed.

End CitationTheorems.

Section BibliographyTheorems.
Import CitationFormatter.

Lemma key_le_total (a b : Citation) : key_le a b = false -> key_le b a = true.
Proof.
  unfold key_le. intros H.
  apply orb_false_iff in H. destruct H as [Hlt H].
  apply Z.ltb_ge in Hlt.
  destruct (Z.eqb (year a) (year b)) eqn:E.
  - apply Z.eqb_eq in E. cbn [andb] in H.
    destruct (String.leb_total (document_number a) (document_number b))
      as [H'|H']; [congruence|].
    rewrite H'. rewrite E, Z.eqb_refl. cbn [andb]. apply orb_true_r.
  - apply Z.eqb_neq in E.
    replace (year b <? year a)%Z with true
      by (symmetry; apply Z.ltb_lt; lia).
    reflexivity.
Qed.

Lemma insert_sorted_perm (x : Citation) (l : list Citation) :
  Permutation (insert_sorted x l) (x :: l).
Proof.
  induction l as [|y r IH]; cbn [insert_sorted]; [reflexivity|].
  destruct (key_le x y); [reflexivity|].
  rewrite IH. apply perm_swap.
Qed.

Lemma sorted_perm (l : list Citation) : Permutation (sorted l) l.
Proof.
  induction l as [|x r IH]; cbn [sorted]; [reflexivity|].
  rewrite insert_sorted_perm, IH. reflexivity.
Qed.

Lemma insert_sorted_ordered (x : Citation) (l : list Citation) :
  Sorted key_ordered l -> Sorted key_ordered (insert_sorted x l).
Proof.
  induction 1 as [|y r Hs IH Hhd]; cbn [insert_sorted].
  - repeat constructor.
  - destruct (key_le x y) eqn:E.
    + constructor; [constructor; assumption|]. constructor. exact E.
    + constructor; [exact IH|].
      destruct r as [|z r']; cbn [insert_sorted].
      * constructor. apply key_le_total, E.
      * destruct (key_le x z).
        -- constructor. apply key_le_total, E.
        -- constructor. inversion Hhd. assumption.
Qed.

Lemma sorted_ordered (l : list Citation) : Sorted key_ordered (sorted l).
Proof.
  induction l as [|x r IH]; cbn [sorted]; [constructor|].
  apply insert_sorted_ordered, IH.
Qed.

Lemma entry_lines_kept (l : list Citation) :
  filter (is_prefix "- ")
    (map (fun c => ("- " ++ to_vietnamese c)%string) l)
  = map (fun c => ("- " ++ to_vietnamese c)%string) l.
Proof.
  induction l as [|c r IH]; [reflexivity|].
  cbn [map filter]. rewrite IH. reflexivity.
Qed.

Lemma section_entries (citations : list Citation) (t : DocumentType) :
  filter (is_prefix "- ") (section_lines (group_by_type citations) t)
  = map (fun c => ("- " ++ to_vietnamese c)%string)
      (sorted (filter (of_type t) citations)).
Proof.
  unfold section_lines. rewrite group_by_type_represents. unfold group_of.
  destruct (filter (of_type t) citations) as [|c r]; [reflexivity|].
  rewrite !filter_app, entry_lines_kept.
  destruct t; cbn [filter app]; rewrite app_nil_r; reflexivity.
Qed.

Lemma perm_to_front {A : Type} (p : list A) (x : A) (l l' : list A) :
  Permutation l (x :: l') -> Permutation (p ++ l) (x :: p ++ l').
Proof. intros H. rewrite H. symmetry. apply Permutation_middle. Qed.

Lemma known_types_partition (citations : list Citation) :
  Permutation
    (flat_map (fun t => filter (of_type t) citations) type_order)
    (filter (fun c => negb (of_type UNKNOWN c)) citations).
Proof.
  unfold type_order. cbn [flat_map]. rewrite app_nil_r. unfold of_type.
  induction citations as [|c r IH]; [reflexivity|].
  cbn [filter].
  destruct (document_type c); cbn [type_eqb negb app];
    try exact IH;
    (etransitivity; [|apply perm_skip; exact IH]);
    repeat apply perm_to_front; reflexivity.
Qed.

(** The bibliography lists exactly the citations of the six known
    types, each once: its entry lines are the Vietnamese forms of those
    citations, grouped in the fixed order of the types and, within a
    type, ordered by year and then by number (compared as strings);
    a citation of unknown type is never listed. *)
Theorem bibliography_lists_known_types_sorted (citations : list Citation) :
  filter (is_prefix "- ") (bibliography_lines citations)
  = map (fun c => ("- " ++ to_vietnamese c)%string) (listed citations)
  /\
  Permutation (listed citations)
    (filter (fun c => negb (of_type UNKNOWN c)) citations)
  /\
  (forall t, Sorted key_ordered (sorted (filter (of_type t) citations))) /\
  (forall c, In c (listed citations) -> document_type c <> UNKNOWN).
Proof.
  assert (HP : Permutation (listed citations)
                 (filter (fun c => negb (of_type UNKNOWN c)) citations)).
  { rewrite <- known_types_partition. unfold listed, type_order.
    cbn [flat_map]. rewrite !app_nil_r.
    repeat (apply Permutation_app; [apply sorted_perm|]).
    apply sorted_perm. }
  split; [|split; [exact HP|split]].
  - unfold bibliography_lines, listed, type_order. cbn [flat_map filter].
    rewrite !filter_app, !map_app, !section_entries. reflexivity.
  - intros t. apply sorted_ordered.
  - intros c Hin. apply (Permutation_in _ HP) in Hin.
    apply filter_In in Hin. destruct Hin as [_ H].
    unfold of_type in H. destruct (document_type c); try discriminate;
      discriminate.
Qed.

End BibliographyTheorems.

(* ================================================================== *)
(** ** effective_date_checker.py                                       *)
(* ================================================================== *)

Module EffectiveDateChecker.

(** [datetime.date]: its [year], [month] and [day]. *)
Record date : Type := {
  year : Z;
  month : Z;
  day : Z
}.

(** [a > b] on dates: by year, then month, then day. *)
Definition date_gtb (a b : date) : bool :=
  (year b <? year a)%Z
  || ((year a =? year b)%Z
      && ((month b <? month a)%Z
          || ((month a =? month b)%Z && (day b <? day a)%Z))).

Fixpoint zeros (n : nat) : string :=
  match n with
  | O => ""
  | S n' => String "0" (zeros n')
  end.

Definition pad (width : nat) (s : string) : string :=
  (zeros (width - String.length s) ++ s)%string.

(** [str(d)] on a date: [YYYY-MM-DD]. *)
Definition isoformat (d : date) : string :=
  (pad 4 (str_int (year d)) ++ "-" ++ pad 2 (str_int (month d)) ++ "-"
   ++ pad 2 (str_int (day d)))%string.

(** The dataclass [LegalDocumentStatus]. *)
Record LegalDocumentStatus : Type := {
  document_name : string;
  document_id : option string;
  effective_date : option date;
  expiry_date : option date;
  is_active : bool;
  superseded_by : option string;
  notes : option string
}.

(** What the library calls of the module return:
    [re.search(pattern, text, flags)] as the first group of the match
    ([None] when there is none; the flag says [re.IGNORECASE]),
    [re.findall] as the list of the matches, and [int] on a string. *)
Record Lib : Type := {
  re_search : string -> string -> bool -> option string;
  re_findall : string -> string -> bool -> list string;
  py_int : string -> Z
}.

(** The patterns of lines 38-44. *)
Definition document_id_patterns : list string :=
  [ "(\d+/\d{4}/QH\d+)";
    "(\d+/\d{4}/ND-CP)";
    "(\d+/\d{4}/TT-[A-Z]+)";
    "(\d+/\d{4}/NQ-[A-Z]+)";
    "(\d+/\d{4}/QD-[A-Z]+)" ].

(** The loop of lines 46-50: the first pattern that matches decides. *)
Fixpoint first_match (lib : Lib) (patterns : list string)
  (document_name : string) : option string :=
  match patterns with
  | [] => None
  | pattern :: rest =>
      match re_search lib pattern document_name true with
      | Some group => Some group
      | None => first_match lib rest document_name
      end
  end.

Definition parse_document_id (lib : Lib) (document_name : string)
  : option string :=
  first_match lib document_id_patterns document_name.

Definition extract_year_from_id (lib : Lib) (doc_id : string) : option Z :=
  match re_search lib "/(\d{4})/" doc_id false with
  | Some group => Some (py_int lib group)
  | None => None
  end.

(** An entry of [SUPERSESSION_DATABASE]: a dict in which every key but
    ["name"] may be absent. *)
Record db_entry : Type := {
  name : string;
  entry_effective_date : option date;
  entry_expiry_date : option date;
  entry_is_active : option bool;
  supersedes : option string;
  entry_superseded_by : option string
}.

Definition SUPERSESSION_DATABASE : list (string * db_entry) :=
  [ ("60/2010/QH12",
     {| name := "Law on Minerals 2010";
        entry_effective_date := Some {| year := 2011; month := 7; day := 1 |};
        entry_expiry_date := None;
        entry_is_active := Some true;
        supersedes := Some "47/2005/QH11";
        entry_superseded_by := None |});
    ("47/2005/QH11",
     {| name := "Law on Minerals 2005";
        entry_effective_date := Some {| year := 2006; month := 1; day := 1 |};
        entry_expiry_date := Some {| year := 2011; month := 6; day := 30 |};
        entry_is_active := Some false;
        supersedes := None;
        entry_superseded_by := Some "60/2010/QH12" |});
    ("15/2012/ND-CP",
     {| name := "Decree detailing the Law on Minerals";
        entry_effective_date := Some {| year := 2012; month := 5; day := 1 |};
        entry_expiry_date := None;
        entry_is_active := Some true;
        supersedes := None;
        entry_superseded_by := None |});
    ("40/2019/ND-CP",
     {| name := "Decree amending environmental regulations";
        entry_effective_date := Some {| year := 2019; month := 7; day := 1 |};
        entry_expiry_date := None;
        entry_is_active := Some true;
        supersedes := None;
        entry_superseded_by := None |}) ].

(** [db[k]] when [k in db]. *)
Fixpoint db_get (k : string) (db : list (string * db_entry))
  : option db_entry :=
  match db with
  | [] => None
  | (k', e) :: r => if String.eqb k k' then Some e else db_get k r
  end.

(** [if s:] on an [Optional[str]]. *)
Definition nonempty (o : option string) : option string :=
  match o with
  | Some s => if String.eqb s "" then None else Some s
  | None => None
  end.

(** The entry that line 112 finds: [doc_id and doc_id in
    SUPERSESSION_DATABASE]. *)
Definition known (doc_id : option string) : option db_entry :=
  match nonempty doc_id with
  | Some i => db_get i SUPERSESSION_DATABASE
  | None => None
  end.

(** Lines 113-125, from the entry found. *)
Definition status_of_entry (document_name : string)
  (doc_id : option string) (reference_date : date) (e : db_entry)
  : LegalDocumentStatus :=
  let expired :=
    match entry_expiry_date e with
    | Some x => date_gtb reference_date x
    | None => false
    end in
  {| document_name := document_name;
     document_id := doc_id;
     effective_date := entry_effective_date e;
     expiry_date := entry_expiry_date e;
     is_active :=
       if expired then false
       else match entry_is_active e with Some b => b | None => true end;
     superseded_by := entry_superseded_by e;
     notes :=
       match nonempty (entry_superseded_by e) with
       | Some s => Some ("Superseded by " ++ s)%string
       | None =>
           match entry_expiry_date e with
           | Some x =>
               if expired then Some ("Expired on " ++ isoformat x)%string
               else None
           | None => None
           end
       end |}.

(** Lines 127-135, for a document the database does not hold. *)
Definition status_of_unknown (lib : Lib) (document_name : string)
  (doc_id : option string) (reference_date : date) : LegalDocumentStatus :=
  let y :=
    match nonempty doc_id with
    | Some i => extract_year_from_id lib i
    | None => None
    end in
  {| document_name := document_name;
     document_id := doc_id;
     effective_date := None;
     expiry_date := None;
     is_active := true;
     superseded_by := None;
     notes :=
       match y with
       | Some n =>
           if (n =? 0)%Z
           then Some "Could not parse document ID; manual verification required."
           else if (15 <? year reference_date - n)%Z
           then Some "Document is older than 15 years; verify current status."
           else None
       | None =>
           Some "Could not parse document ID; manual verification required."
       end |}.

(** [check_document_status]; [today] is what [date.today()] returns at
    this call. *)
Definition check_document_status (lib : Lib) (today : date)
  (document_name : string) (reference_date : option date)
  : LegalDocumentStatus :=
  let reference_date :=
    match reference_date with
    | None => today
    | Some d => d
    end in
  let doc_id := parse_document_id lib document_name in
  match known doc_id with
  | Some e => status_of_entry document_name doc_id reference_date e
  | None => status_of_unknown lib document_name doc_id reference_date
  end.

(** [f"{x}"] on an [Optional[str]]. *)
Definition str_opt (o : option string) : string :=
  match o with
  | Some s => s
  | None => "None"
  end.

(** The warning of line 156. *)
Definition warning (citation : string) (status : LegalDocumentStatus)
  : string :=
  ("Citation '" ++ citation ++ "' may no longer be in effect: "
   ++ str_opt (notes status))%string.

(** [validate_citations]: the statuses and the warnings logged;
    [clock n] is what [date.today()] returns at the call for the
    citation of index [n]. *)
Fixpoint validate_from (lib : Lib) (clock : nat -> date) (n : nat)
  (citations : list string) : list LegalDocumentStatus * list string :=
  match citations with
  | [] => ([], [])
  | citation :: rest =>
      let status := check_document_status lib (clock n) citation None in
      let (results, warnings) := validate_from lib clock (S n) rest in
      (status :: results,
       if is_active status then warnings
       else warning citation status :: warnings)
  end.

Definition validate_citations (lib : Lib) (clock : nat -> date)
  (citations : list string) : list LegalDocumentStatus * list string :=
  validate_from lib clock 0 citations.

(** The lines of one status (lines 174-181). *)
Definition status_lines (status : LegalDocumentStatus) : list string :=
  [ ("- " ++ (if is_active status then "✅" else "⚠️") ++ " **"
     ++ document_name status ++ "**")%string ]
  ++ match nonempty (document_id status) with
     | Some i => [ ("  - ID: `" ++ i ++ "`")%string ]
     | None => []
     end
  ++ match effective_date status with
     | Some d => [ ("  - Effective: " ++ isoformat d)%string ]
     | None => []
     end
  ++ match nonempty (notes status) with
     | Some n => [ ("  - Note: " ++ n)%string ]
     | None => []
     end.

(** [sum(1 for s in statuses if s.is_active)]. *)
Definition active_count (statuses : list LegalDocumentStatus) : nat :=
  List.length (filter is_active statuses).

Definition report_lines (statuses : list LegalDocumentStatus)
  : list string :=
  [ "## Citation Validity Report
";
    ("**Total Citations:** "
     ++ str_int (Z.of_nat (List.length statuses)))%string;
    ("**Active:** " ++ str_int (Z.of_nat (active_count statuses))
     ++ " | **Inactive/Unknown:** "
     ++ str_int (Z.of_nat (List.length statuses)
                 - Z.of_nat (active_count statuses))
     ++ "
")%string ]
  ++ flat_map status_lines statuses.

Definition format_validation_report (statuses : list LegalDocumentStatus)
  : string :=
  str_join "
" (report_lines statuses).

(** The patterns of lines 193-199. *)
Definition citation_patterns : list string :=
  [ "Law (?:No\.\s*)?\d+/\d{4}/QH\d+";
    "Decree (?:No\.\s*)?\d+/\d{4}/ND-CP";
    "Circular (?:No\.\s*)?\d+/\d{4}/TT-[A-Z]+";
    "Luật số \d+/\d{4}/QH\d+";
    "Nghị định số \d+/\d{4}/NĐ-CP" ].

(** The loop of lines 210-215: [seen] holds what was kept so far. *)
Fixpoint unique_from (seen : list string) (citations : list string)
  : list string :=
  match citations with
  | [] => []
  | c :: rest =>
      if str_in c seen then unique_from seen rest
      else c :: unique_from (c :: seen) rest
  end.

Definition unique_citations (citations : list string) : list string :=
  unique_from [] citations.

(** [check_citations_from_text]: the report and the warnings logged. *)
Definition check_citations_from_text (lib : Lib) (clock : nat -> date)
  (text : string) : string * list string :=
  let citations :=
    flat_map (fun pattern => re_findall lib pattern text true)
             citation_patterns in
  match citations with
  | [] => ("No legal citations found in the provided text.", [])
  | _ =>
      let (statuses, warnings) :=
        validate_citations lib clock (unique_citations citations) in
      (format_validation_report statuses, warnings)
  end.

End EffectiveDateChecker.

Section EffectiveDateTheorems.
Import EffectiveDateChecker.

(** The date a status is checked against: the one given, or today's. *)
Definition reference (today : date) (reference_date : option date) : date :=
  match reference_date with
  | None => today
  | Some d => d
  end.

(** [a >= b] on dates. *)
Definition not_before (a b : date) : Prop := date_gtb b a = false.

(** The number of statuses reported inactive. *)
Definition inactive_count (statuses : list LegalDocumentStatus) : nat :=
  List.length (filter (fun s => negb (is_active s)) statuses).

(** A stand-in for the library that finds one document id, wherever the
    text holds it, and reads decimal numbers. *)
Definition finding (doc_id : string) : Lib :=
  {| re_search := fun _ text _ =>
       if is_substring doc_id text then Some doc_id else None;
     re_findall := fun _ _ _ => [];
     py_int := fun s =>
       match NilZero.int_of_string s with
       | Some i => Z.of_int i
       | None => 0%Z
       end |}.

Lemma str_in_In (c : string) (seen : list string) :
  str_in c seen = true <-> In c seen.
Proof.
  unfold str_in. rewrite existsb_exists. split.
  - intros [x [Hin Heq]]. apply String.eqb_eq in Heq. subst. exact Hin.
  - intros Hin. exists c. split; [exact Hin | apply String.eqb_refl].
Qed.

Lemma str_in_not_In (c : string) (seen : list string) :
  str_in c seen = false <-> ~ In c seen.
Proof.
  rewrite <- str_in_In. destruct (str_in c seen); split; intros H;
    try reflexivity; try discriminate; try (intros H'; discriminate).
  exfalso. apply H. reflexivity.
Qed.

Lemma date_gtb_later (a b x : date) :
  date_gtb a x = true -> not_before b a -> date_gtb b x = true.
Proof.
  unfold not_before, date_gtb. destruct a, b, x. cbn [year month day].
  intros H1 H2.
  repeat match goal with
  | H : context [(?p <? ?q)%Z] |- _ => destruct (Z.ltb_spec p q)
  | H : context [(?p =? ?q)%Z] |- _ => destruct (Z.eqb_spec p q)
  | |- context [(?p <? ?q)%Z] => destruct (Z.ltb_spec p q)
  | |- context [(?p =? ?q)%Z] => destruct (Z.eqb_spec p q)
  end; cbn in *; try reflexivity; try discriminate; try lia.
Qed.

Lemma unique_from_members (citations seen : list string) (c : string) :
  In c (unique_from seen citations) <-> In c citations /\ ~ In c seen.
Proof.
  revert seen. induction citations as [|a r IH]; intros seen.
  - cbn. tauto.
  - cbn [unique_from]. destruct (str_in a seen) eqn:Ha.
    + apply str_in_In in Ha. rewrite IH. cbn [In]. split.
      * intros [H1 H2]. split; [right; exact H1 | exact H2].
      * intros [[->|H1] H2]; [contradiction | split; assumption].
    + apply str_in_not_In in Ha. cbn [In]. rewrite IH. cbn [In]. split.
      * intros [->|[H1 H2]].
        -- split; [left; reflexivity | exact Ha].
        -- split; [right; exact H1 | intros H; apply H2; right; exact H].
      * intros [[->|H1] H2]; [left; reflexivity|].
        destruct (string_dec a c) as [->|Hne]; [left; reflexivity|].
        right. split; [exact H1 | intros [H|H]; [contradiction|contradiction]].
Qed.

Lemma unique_from_NoDup (citations seen : list string) :
  NoDup (unique_from seen citations).
Proof.
  revert seen. induction citations as [|a r IH]; intros seen.
  - constructor.
  - cbn [unique_from]. destruct (str_in a seen); [apply IH|].
    constructor; [|apply IH].
    rewrite unique_from_members. intros [_ H]. apply H. left. reflexivity.
Qed.

Lemma unique_from_fixes (citations seen : list string) :
  NoDup citations -> (forall c, In c citations -> ~ In c seen) ->
  unique_from seen citations = citations.
Proof.
  revert seen. induction citations as [|a r IH]; intros seen Hnd Hdis.
  - reflexivity.
  - cbn [unique_from]. inversion Hnd as [|? ? Ha Hr]; subst.
    assert (Hs : str_in a seen = false).
    { apply str_in_not_In. apply Hdis. left. reflexivity. }
    rewrite Hs. f_equal. apply IH; [exact Hr|].
    intros c Hc [->|H]; [contradiction|].
    apply (Hdis c); [right; exact Hc | exact H].
Qed.

Lemma validate_from_names (lib : Lib) (clock : nat -> date)
  (citations : list string) (n : nat) :
  map document_name (fst (validate_from lib clock n citations)) = citations.
Proof.
  revert n. induction citations as [|c r IH]; intros n; [reflexivity|].
  cbn [validate_from]. specialize (IH (S n)).
  destruct (validate_from lib clock (S n) r) as [results warnings].
  cbn [fst map] in *. rewrite IH. f_equal.
  unfold check_document_status. destruct (known _); reflexivity.
Qed.

Lemma validate_from_warnings (lib : Lib) (clock : nat -> date)
  (citations : list string) (n : nat) :
  List.length (snd (validate_from lib clock n citations))
  = inactive_count (fst (validate_from lib clock n citations)).
Proof.
  revert n. induction citations as [|c r IH]; intros n; [reflexivity|].
  cbn [validate_from]. specialize (IH (S n)).
  destruct (validate_from lib clock (S n) r) as [results warnings].
  cbn [fst snd] in *. unfold inactive_count in *. cbn [filter].
  destruct (is_active (check_document_status lib (clock n) c None));
    cbn [negb List.length]; rewrite IH; reflexivity.
Qed.

Lemma active_inactive_count (statuses : list LegalDocumentStatus) :
  (active_count statuses + inactive_count statuses)%nat
  = List.length statuses.
Proof.
  unfold active_count, inactive_count.
  induction statuses as [|s r IH]; [reflexivity|].
  cbn [filter List.length]. destruct (is_active s); cbn [negb List.length]; lia.
Qed.

(** A document is reported as no longer active exactly when the
    database holds the id parsed from its name and either marks it
    inactive or gives an expiry date that the reference date has passed;
    a document whose id is not parsed, or is not in the database, is
    always reported active. *)
Theorem inactive_only_on_database_evidence (lib : Lib) (today : date)
  (document_name : string) (reference_date : option date) :
  is_active (check_document_status lib today document_name reference_date)
  = false
  <->
  exists e,
    known (parse_document_id lib document_name) = Some e /\
    (entry_is_active e = Some false \/
     exists x, entry_expiry_date e = Some x /\
               date_gtb (reference today reference_date) x = true).
Proof.
  unfold check_document_status. fold (reference today reference_date).
  destruct (known (parse_document_id lib document_name)) as [e|] eqn:Hk.
  - unfold status_of_entry. cbn [is_active]. split.
    + intros H. exists e. split; [reflexivity|].
      destruct (entry_expiry_date e) as [x|].
      * destruct (date_gtb (reference today reference_date) x) eqn:Hx.
        -- right. exists x. split; [reflexivity | exact Hx].
        -- left. destruct (entry_is_active e) as [[|]|];
             try discriminate; reflexivity.
      * left. destruct (entry_is_active e) as [[|]|];
          try discriminate; reflexivity.
    + intros [e' [He [Hf | [x [Hx Hgt]]]]]; injection He as <-.
      * rewrite Hf. destruct (entry_expiry_date e) as [x|];
          [destruct (date_gtb _ x)|]; reflexivity.
      * rewrite Hx, Hgt. reflexivity.
  - cbn [status_of_unknown is_active]. split; [discriminate|].
    intros [e [He _]]. discriminate.
Qed.

(** Time only takes validity away: a document reported inactive at one
    reference date is reported inactive at every later one. *)
Theorem inactive_stays_inactive_later (lib : Lib) (today : date)
  (document_name : string) (d1 d2 : date) :
  not_before d2 d1 ->
  is_active (check_document_status lib today document_name (Some d1))
  = false ->
  is_active (check_document_status lib today document_name (Some d2))
  = false.
Proof.
  intros Hlater. unfold check_document_status.
  destruct (known (parse_document_id lib document_name)) as [e|];
    [|cbn [status_of_unknown is_active]; discriminate].
  unfold status_of_entry. cbn [is_active].
  destruct (entry_expiry_date e) as [x|]; [|intros H; exact H].
  destruct (date_gtb d1 x) eqn:H1.
  - rewrite (date_gtb_later d1 d2 x H1 Hlater). reflexivity.
  - intros H. rewrite H. destruct (date_gtb d2 x); reflexivity.
Qed.

Lemma old_minerals_law_stays_inactive :
  is_active
    (check_document_status (finding "47/2005/QH11")
       {| year := 2026; month := 1; day := 1 |}
       "Law No. 47/2005/QH11 on Minerals"
       (Some {| year := 2020; month := 3; day := 15 |}))
  = false.
Proof.
  apply (inactive_stays_inactive_later (finding "47/2005/QH11")
           {| year := 2026; month := 1; day := 1 |}
           "Law No. 47/2005/QH11 on Minerals"
           {| year := 2008; month := 2; day := 29 |}
           {| year := 2020; month := 3; day := 15 |}).
  - vm_compute. reflexivity.
  - vm_compute. reflexivity.
Defined.

(** The loop that removes duplicates keeps every citation exactly once
    and leaves a list without repetition as it is, order included. *)
Theorem unique_citations_keeps_each_once (citations : list string) :
  NoDup (unique_citations citations) /\
  (forall c, In c (unique_citations citations) <-> In c citations) /\
  (NoDup citations -> unique_citations citations = citations) /\
  unique_citations (unique_citations citations) = unique_citations citations.
Proof.
  unfold unique_citations.
  assert (Hfix : forall l, NoDup l -> unique_from [] l = l).
  { intros l Hl. apply unique_from_fixes; [exact Hl|].
    intros c _ H. exact H. }
  split; [apply unique_from_NoDup|]. split; [|split].
  - intros c. rewrite unique_from_members. cbn [In]. tauto.
  - apply Hfix.
  - apply Hfix. apply unique_from_NoDup.
Qed.

(** [validate_citations] returns one status per citation, in the order
    of the citations and under their names, and logs one warning for
    each status that is not active; the counts of the report add up to
    the number of statuses. *)
Theorem validate_citations_one_status_each (lib : Lib)
  (clock : nat -> date) (citations : list string) :
  let (statuses, warnings) := validate_citations lib clock citations in
  map document_name statuses = citations /\
  List.length warnings = inactive_count statuses /\
  (active_count statuses + inactive_count statuses)%nat
  = List.length citations.
Proof.
  unfold validate_citations.
  pose proof (validate_from_names lib clock citations 0) as Hn.
  pose proof (validate_from_warnings lib clock citations 0) as Hw.
  destruct (validate_from lib clock 0 citations) as [statuses warnings].
  cbn [fst snd] in *. split; [exact Hn|]. split; [exact Hw|].
  rewrite active_inactive_count, <- (length_map document_name), Hn.
  reflexivity.
Qed.

End EffectiveDateTheorems.
